(** * The OVN BGP driver: route-exposure reconciler and event handlers

    A shallow embedding of [ovn_bgp_agent/drivers/openstack/ovn_bgp_driver.py]
    (class [OVNBGPDriver]).  The driver's methods mutate the agent's
    bookkeeping and, through [linux_net], the kernel surface; both are threaded
    through a state monad that can also raise Python exceptions.  A raise keeps
    every mutation done before it, like the source.

    The file has the model first (strings, rows, state, monad, [linux_net],
    the driver's methods, concrete scenarios, the exposed addresses in the
    words of the spec), then the rules for invariants of computations, then
    the properties of the driver: MAC-field parsing, remote tenant IPs,
    untracked gateways, what [sync] resets and keeps, exceptions, rejected
    addresses, expose followed by withdraw, NDP proxies, the family of
    tenant-subnet routes, and what [sync] leaves on the dummy device; then
    what the handlers leave alone, the tracking of the router gateways, the
    tenant subnets, the bridge mappings and routing tables of [sync], what
    [sync] deletes and what it keeps, the subscribed events, and the
    addresses of a router gateway. *)

From Stdlib Require Import Ascii.
From stdpp Require Import gmap strings list fin_maps.

(** ** Python strings *)

(** [s.split(sep)] for a one-character separator: every occurrence of the
    separator ends a field, so the result is never empty. *)
Fixpoint split_on (sep : ascii) (s : string) : list string :=
  match s with
  | EmptyString => [EmptyString]
  | String c rest =>
      if Ascii.eqb c sep then EmptyString :: split_on sep rest
      else match split_on sep rest with
           | [] => [String c EmptyString]
           | w :: ws => String c w :: ws
           end
  end.

Definition SPACE : ascii := " "%char.
Definition SLASH : ascii := "/"%char.
Definition COLON : ascii := ":"%char.

(** [l[i]]: an index out of range raises, here [None]. *)
Definition py_index {A} (l : list A) (i : nat) : option A := l !! i.

(** [s.split("/")[0]]; the first field always exists. *)
Definition without_mask (ip : string) : string :=
  match split_on SLASH ip with
  | w :: _ => w
  | [] => ip
  end.

(** Truth value of a Python string ([if s:]): the empty string is false. *)
Definition truthy (s : string) : bool := negb (String.eqb s "").

(** ** Constants of [ovn_bgp_agent.constants] *)

(** Modelled from the spec: the module [constants] is not part of the
    sources at hand; section 6 lists the recognized VIF port-type tags
    ([vm], [virtual], [patch], [chassisredirect]). *)
Definition OVN_VM_VIF_PORT_TYPE : string := "vm".
Definition OVN_VIRTUAL_VIF_PORT_TYPE : string := "virtual".
Definition OVN_PATCH_VIF_PORT_TYPE : string := "patch".
Definition OVN_CHASSISREDIRECT_VIF_PORT_TYPE : string := "chassisredirect".

(** Modelled from the spec: the port types that [_ensure_port_exposed]
    classifies are those of the classification table of section 4.3. *)
Definition OVN_VIF_PORT_TYPES : list string :=
  [OVN_VM_VIF_PORT_TYPE; OVN_VIRTUAL_VIF_PORT_TYPE;
   OVN_PATCH_VIF_PORT_TYPE; OVN_CHASSISREDIRECT_VIF_PORT_TYPE].

Definition IP_VERSION_6 : Z := 6%Z.
Definition OVN_BGP_VRF : string := "ovn-bgp-vrf".
Definition OVN_BGP_VRF_TABLE : Z := 10%Z.
Definition OVN_BGP_NIC : string := "ovn".

(** ** Rows of the southbound database *)

Record PortRow := mkPort {
  p_type : string;
  p_datapath : string;
  p_logical_port : string;
  p_mac : list string;
  p_chassis : list string;
  p_options : gmap string string;
}.

(** The typed queries of the southbound client ([self.sb_idl]); they read a
    snapshot, so each is a function. *)
Record SbIdl := mkSb {
  get_ports_on_chassis : string → list PortRow;
  get_cr_lrp_ports_on_chassis : string → list string;
  get_cr_lrp_nat_addresses_info : string → list string * option PortRow;
  is_provider_network : string → bool;
  get_fip_associated : string → option (string * string);
  get_network_name_and_tag : string → list string → option string * list Z;
  get_network_vlan_tag_by_network_name : string → list Z;
  get_lrp_ports_for_router : string → list PortRow;
  get_port_datapath : string → option string;
  get_ports_on_datapath : string → list PortRow;
  is_router_gateway_on_chassis : string → string → option string;
  is_port_on_chassis : string → string → bool;
  is_port_deleted : string → bool;
  get_lrp_port_for_datapath : string → option string;
}.

(** ** The kernel surface and the agent's bookkeeping *)

(** A route of a bridge's table: destination CIDR, table, bridge, VLAN, gateway. *)
Definition Route : Type := string * Z * string * option Z * option string.

Definition route_dst (r : Route) : string := r.1.1.1.1.
Definition route_table (r : Route) : Z := r.1.1.1.2.
Definition route_dev (r : Route) : string := r.1.1.2.
Definition route_vlan (r : Route) : option Z := r.1.2.
Definition route_via (r : Route) : option string := r.2.

(** A policy rule, stored under its destination CIDR: table and the optional
    link-layer address. *)
Definition Rule : Type := Z * option string.

Record Kernel := mkKernel {
  k_vrfs : gmap string Z;
  k_nic_vrf : gmap string string;
  k_interfaces : gmap string string;
  k_arp_ndp : gmap string nat;
  k_vlan_devices : gset (string * Z);
  k_dev_ips : gset string;
  k_ip_rules : gmap string Rule;
  k_ip_routes : gset Route;
  k_ndp_proxies : gset (string * string * option Z);
  k_ovs_flows : list string;
}.

(** An entry of [self.ovn_local_cr_lrps]. *)
Record CrLrpInfo := mkCrLrp {
  router_datapath : string;
  provider_datapath : string;
  cr_ips : list string;
}.

Record Agent := mkAgent {
  expose_tenant_networks : bool;
  chassis : string;
  ovn_routing_tables : gmap string Z;
  ovn_bridge_mappings : gmap string string;
  ovn_local_cr_lrps : gmap string CrLrpInfo;
  ovn_local_lrps : gset string;
  ovn_routing_tables_routes : gmap string (gset Route);
}.

(** The whole state a method can touch; [log] keeps the [LOG.exception]
    lines (the info and debug lines are left out). *)
Record State := mkState {
  agent : Agent;
  kernel : Kernel;
  log : list string;
}.

Definition with_agent (f : Agent → Agent) (s : State) : State :=
  mkState (f (agent s)) (kernel s) (log s).

Definition with_kernel (f : Kernel → Kernel) (s : State) : State :=
  mkState (agent s) (f (kernel s)) (log s).

Definition with_log (f : list string → list string) (s : State) : State :=
  mkState (agent s) (kernel s) (f (log s)).

Definition set_routing_tables (t : gmap string Z) (a : Agent) : Agent :=
  mkAgent (expose_tenant_networks a) (chassis a) t (ovn_bridge_mappings a)
    (ovn_local_cr_lrps a) (ovn_local_lrps a) (ovn_routing_tables_routes a).

Definition set_bridge_mappings (m : gmap string string) (a : Agent) : Agent :=
  mkAgent (expose_tenant_networks a) (chassis a) (ovn_routing_tables a) m
    (ovn_local_cr_lrps a) (ovn_local_lrps a) (ovn_routing_tables_routes a).

Definition set_local_cr_lrps (c : gmap string CrLrpInfo) (a : Agent) : Agent :=
  mkAgent (expose_tenant_networks a) (chassis a) (ovn_routing_tables a)
    (ovn_bridge_mappings a) c (ovn_local_lrps a) (ovn_routing_tables_routes a).

Definition set_local_lrps (l : gset string) (a : Agent) : Agent :=
  mkAgent (expose_tenant_networks a) (chassis a) (ovn_routing_tables a)
    (ovn_bridge_mappings a) (ovn_local_cr_lrps a) l (ovn_routing_tables_routes a).

Definition set_routes_store (r : gmap string (gset Route)) (a : Agent) : Agent :=
  mkAgent (expose_tenant_networks a) (chassis a) (ovn_routing_tables a)
    (ovn_bridge_mappings a) (ovn_local_cr_lrps a) (ovn_local_lrps a) r.

Definition set_vrfs (v : gmap string Z) (k : Kernel) : Kernel :=
  mkKernel v (k_nic_vrf k) (k_interfaces k) (k_arp_ndp k) (k_vlan_devices k)
    (k_dev_ips k) (k_ip_rules k) (k_ip_routes k) (k_ndp_proxies k) (k_ovs_flows k).

Definition set_nic_vrf (v : gmap string string) (k : Kernel) : Kernel :=
  mkKernel (k_vrfs k) v (k_interfaces k) (k_arp_ndp k) (k_vlan_devices k)
    (k_dev_ips k) (k_ip_rules k) (k_ip_routes k) (k_ndp_proxies k) (k_ovs_flows k).

Definition set_arp_ndp (v : gmap string nat) (k : Kernel) : Kernel :=
  mkKernel (k_vrfs k) (k_nic_vrf k) (k_interfaces k) v (k_vlan_devices k)
    (k_dev_ips k) (k_ip_rules k) (k_ip_routes k) (k_ndp_proxies k) (k_ovs_flows k).

Definition set_vlan_devices (v : gset (string * Z)) (k : Kernel) : Kernel :=
  mkKernel (k_vrfs k) (k_nic_vrf k) (k_interfaces k) (k_arp_ndp k) v
    (k_dev_ips k) (k_ip_rules k) (k_ip_routes k) (k_ndp_proxies k) (k_ovs_flows k).

Definition set_dev_ips (v : gset string) (k : Kernel) : Kernel :=
  mkKernel (k_vrfs k) (k_nic_vrf k) (k_interfaces k) (k_arp_ndp k) (k_vlan_devices k)
    v (k_ip_rules k) (k_ip_routes k) (k_ndp_proxies k) (k_ovs_flows k).

Definition set_ip_rules (v : gmap string Rule) (k : Kernel) : Kernel :=
  mkKernel (k_vrfs k) (k_nic_vrf k) (k_interfaces k) (k_arp_ndp k) (k_vlan_devices k)
    (k_dev_ips k) v (k_ip_routes k) (k_ndp_proxies k) (k_ovs_flows k).

Definition set_ip_routes (v : gset Route) (k : Kernel) : Kernel :=
  mkKernel (k_vrfs k) (k_nic_vrf k) (k_interfaces k) (k_arp_ndp k) (k_vlan_devices k)
    (k_dev_ips k) (k_ip_rules k) v (k_ndp_proxies k) (k_ovs_flows k).

Definition set_ndp_proxies (v : gset (string * string * option Z)) (k : Kernel) : Kernel :=
  mkKernel (k_vrfs k) (k_nic_vrf k) (k_interfaces k) (k_arp_ndp k) (k_vlan_devices k)
    (k_dev_ips k) (k_ip_rules k) (k_ip_routes k) v (k_ovs_flows k).

Definition set_ovs_flows (v : list string) (k : Kernel) : Kernel :=
  mkKernel (k_vrfs k) (k_nic_vrf k) (k_interfaces k) (k_arp_ndp k) (k_vlan_devices k)
    (k_dev_ips k) (k_ip_rules k) (k_ip_routes k) (k_ndp_proxies k) v.

(** ** Exceptions and the driver monad *)

Inductive exn :=
| KeyError
| IndexError
| AttributeError
| UnboundLocalError
| InvalidPortIP (ip : string).

Definition is_InvalidPortIP (e : exn) : bool :=
  match e with InvalidPortIP _ => true | _ => false end.

Definition is_IndexError (e : exn) : bool :=
  match e with IndexError => true | _ => false end.

(** A computation returns a value or raises, and in both cases leaves a state. *)
Definition M (A : Type) : Type := State → (exn + A) * State.

Definition ret {A} (a : A) : M A := λ s, (inr a, s).

Definition bind {A B} (m : M A) (k : A → M B) : M B :=
  λ s, match m s with
       | (inl e, s') => (inl e, s')
       | (inr a, s') => k a s'
       end.

Definition raise {A} (e : exn) : M A := λ s, (inl e, s).

Definition gets {A} (f : State → A) : M A := λ s, (inr (f s), s).

Definition modify (f : State → State) : M unit := λ s, (inr tt, f s).

(** [try: m except E: h], where [catches] tells the exceptions of class [E]. *)
Definition try_except {A} (catches : exn → bool) (m : M A) (h : exn → M A) : M A :=
  λ s, match m s with
       | (inl e, s') => if catches e then h e s' else (inl e, s')
       | (inr a, s') => (inr a, s')
       end.

(** A value that may be missing, with the exception its absence raises. *)
Definition from_option {A} (e : exn) (o : option A) : M A :=
  match o with
  | Some a => ret a
  | None => raise e
  end.

Declare Scope drv_scope.
Delimit Scope drv_scope with drv.
Notation "x <- c1 ;; c2" := (bind c1 (λ x, c2))
  (at level 100, c1 at next level, right associativity) : drv_scope.
Notation "c1 ;; c2" := (bind c1 (λ _, c2))
  (at level 100, right associativity) : drv_scope.
Open Scope drv_scope.

(** [for x in l: body]. *)
Fixpoint for_each {A} (l : list A) (body : A → M unit) : M unit :=
  match l with
  | [] => ret tt
  | x :: rest => body x ;; for_each rest body
  end.

(** A loop whose body can leave it for good: [Some r] stands for a [break]
    or for a [return] of the enclosing function, [None] for going on. *)
Fixpoint for_until {A R} (l : list A) (body : A → M (option R)) : M (option R) :=
  match l with
  | [] => ret None
  | x :: rest =>
      r <- body x ;;
      match r with
      | Some v => ret (Some v)
      | None => for_until rest body
      end
  end.

(** A loop that updates local variables [acc] in place. *)
Fixpoint for_fold {A B} (l : list A) (body : A → B → M B) (acc : B) : M B :=
  match l with
  | [] => ret acc
  | x :: rest => acc' <- body x acc ;; for_fold rest body acc'
  end.

Definition LOG_exception (msg : string) : M unit :=
  modify (with_log (λ l, l ++ [msg])).

(** ** The host network surface ([linux_net]) and the flow surface ([ovs]) *)

(** What the spec leaves open about the collaborators that are not part of
    the sources at hand is taken as a parameter: the IP family of an address,
    which addresses [add_ip_rule] can parse, membership of an address in a
    network, the allocation of a routing-table id, the configured bridge
    mappings of the local virtual-switch client, and the three flow
    operations. *)
Record Env := mkEnv {
  get_ip_version : string → Z;
  parsable_ip : string → bool;
  ip_in_network : bool → string → string → bool;
  alloc_table : gmap string Z → string → Z;
  get_ovn_bridge_mappings : list string;
  ovs_flows_in_ports : string → list string → list string;
  ovs_remove_extra_flows : gmap string (string * list string) → list string → list string;
  ovs_ensure_default_flows : list string → list string → list string;
}.

Module linux_net.
Section LinuxNet.
Variable env : Env.

(** Host-route width of an address: /128 for IPv6, /32 otherwise. *)
Definition host_cidr (ip : string) : string :=
  if (get_ip_version env ip =? IP_VERSION_6)%Z then ip +:+ "/128" else ip +:+ "/32".

Definition has_mask (ip : string) : bool :=
  bool_decide (1 < length (split_on SLASH ip)).

(** The destination CIDR a rule is stored under. *)
Definition rule_dst (ip : string) : string :=
  if has_mask ip then ip else host_cidr ip.

(** Modelled from the spec: [linux_net] is not part of the sources at
    hand.  Section 4.1: [add_address] and [remove_address] accept a list
    and tolerate redundant state; the exposed addresses of the dummy
    device form a set (section 3).  The device is always [OVN_BGP_NIC]. *)
Definition add_ips_to_dev (ips : list string) : M unit :=
  modify (with_kernel (λ k, set_dev_ips (k_dev_ips k ∪ list_to_set ips) k)).

Definition del_ips_from_dev (ips : list string) : M unit :=
  modify (with_kernel (λ k, set_dev_ips (k_dev_ips k ∖ list_to_set ips) k)).

(** Modelled from the spec: section 4.1, [add_rule(dest, table, bridge,
    lladdr?)] fails with [InvalidPortIP] on unparsable input; section 3,
    the rules are keyed by destination CIDR and carry the table and the
    optional link-layer address. *)
Definition add_ip_rule (ip : string) (table : Z) (dev : string)
    (lladdr : option string) : M unit :=
  if parsable_ip env ip
  then modify (with_kernel (λ k,
         set_ip_rules (<[rule_dst ip := (table, lladdr)]> (k_ip_rules k)) k))
  else raise (InvalidPortIP ip).

(** Modelled from the spec: section 4.1, [remove_rule]; every withdraw
    step tolerates missing state (section 4.3). *)
Definition del_ip_rule (ip : string) (table : Z) (dev : string)
    (lladdr : option string) : M unit :=
  modify (with_kernel (λ k, set_ip_rules (delete (rule_dst ip) (k_ip_rules k)) k)).

(** Modelled from the spec: section 4.1, [add_route(store, dest, table,
    bridge, vlan?, mask?, via?)]: the default mask is the host-route
    width, and with [mask] and [via] it is a subnet route through a
    gateway. *)
Definition mk_route (ip : string) (table : Z) (dev : string) (vlan : option Z)
    (mask via : option string) : Route :=
  (match mask with Some m => ip +:+ "/" +:+ m | None => host_cidr ip end,
   table, dev, vlan, via).

(** The route goes to the bridge's table in the kernel and to the
    per-bridge bookkeeping [store], here [self.ovn_routing_tables_routes]. *)
Definition add_ip_route (ip : string) (table : Z) (dev : string) (vlan : option Z)
    (mask via : option string) : M unit :=
  modify (λ s,
    let r := mk_route ip table dev vlan mask via in
    let store := ovn_routing_tables_routes (agent s) in
    with_agent (set_routes_store (<[dev := default ∅ (store !! dev) ∪ {[r]}]> store))
      (with_kernel (λ k, set_ip_routes (k_ip_routes k ∪ {[r]}) k) s)).

(** Modelled from the spec: section 4.1, [remove_route]. *)
Definition del_ip_route (ip : string) (table : Z) (dev : string) (vlan : option Z)
    (mask via : option string) : M unit :=
  modify (λ s,
    let r := mk_route ip table dev vlan mask via in
    let store := ovn_routing_tables_routes (agent s) in
    with_agent (set_routes_store (alter (λ rs, rs ∖ {[r]}) dev store))
      (with_kernel (λ k, set_ip_routes (k_ip_routes k ∖ {[r]}) k) s)).

(** Modelled from the spec: section 4.1, [add_ndp_proxy(ip, bridge, vlan)]
    and its removal; the entry is for the address without its mask
    (scenario 3 of section 8). *)
Definition add_ndp_proxy (ip : string) (dev : string) (vlan : option Z) : M unit :=
  modify (with_kernel (λ k,
    set_ndp_proxies (k_ndp_proxies k ∪ {[(without_mask ip, dev, vlan)]}) k)).

Definition del_ndp_proxy (ip : string) (dev : string) (vlan : option Z) : M unit :=
  modify (with_kernel (λ k,
    set_ndp_proxies (k_ndp_proxies k ∖ {[(without_mask ip, dev, vlan)]}) k)).

(** Modelled from the spec: section 4.1, [ensure_vrf(name, table)] and
    [ensure_dummy_in_vrf(name, vrf)]. *)
Definition ensure_vrf (name : string) (table : Z) : M unit :=
  modify (with_kernel (λ k, set_vrfs (<[name := table]> (k_vrfs k)) k)).

Definition ensure_ovn_device (nic vrf : string) : M unit :=
  modify (with_kernel (λ k, set_nic_vrf (<[nic := vrf]> (k_nic_vrf k)) k)).

(** Modelled from the spec: section 4.1, [ensure_arp_ndp_enabled(bridge,
    index)] and [ensure_vlan_device(bridge, vlan)]. *)
Definition ensure_arp_ndp_enabed_for_bridge (bridge : string) (index : nat) : M unit :=
  modify (with_kernel (λ k, set_arp_ndp (<[bridge := index]> (k_arp_ndp k)) k)).

Definition ensure_vlan_device_for_network (bridge : string) (vlan : Z) : M unit :=
  modify (with_kernel (λ k, set_vlan_devices (k_vlan_devices k ∪ {[(bridge, vlan)]}) k)).

(** Modelled from the spec: section 4.1, [ensure_routing_table(bridge)]
    allocates a table id on first sight of the bridge and persists the
    assignment in [T], here [self.ovn_routing_tables]; it returns the
    routes found in the bridge's table, against which
    [delete_bridge_ip_routes] later works. *)
Definition ensure_routing_table_for_bridge (bridge : string) : M (gset Route) :=
  modify (with_agent (λ a,
    match ovn_routing_tables a !! bridge with
    | Some _ => a
    | None => set_routing_tables
                (<[bridge := alloc_table env (ovn_routing_tables a) bridge]>
                   (ovn_routing_tables a)) a
    end)) ;;
  gets (λ s, filter (λ r, route_dev r = bridge) (k_ip_routes (kernel s))).

(** Modelled from the spec: section 4.1, [enumerate_exposed(dev)],
    [enumerate_rules(tables)] (the rules that point at one of the tables)
    and [enumerate_exposed_in_network(dev, net)]. *)
Definition get_exposed_ips : M (list string) :=
  gets (λ s, elements (k_dev_ips (kernel s))).

Definition get_ovn_ip_rules (tables : list Z) : M (gmap string Rule) :=
  gets (λ s, filter (λ kr, kr.2.1 ∈ tables) (k_ip_rules (kernel s))).

Definition get_exposed_ips_on_network (net : bool * string) : M (list string) :=
  gets (λ s, filter (λ ip, ip_in_network env net.1 net.2 ip = true)
               (elements (k_dev_ips (kernel s)))).

(** Modelled from the spec: section 4.1, [delete_leftover_addresses(set,
    dev)], [delete_leftover_rules(map)] and
    [delete_leftover_bridge_routes(T, per-bridge-routes, kept)]: of the
    routes found in a bridge's table, those that the bookkeeping does not
    hold are deleted. *)
Definition delete_exposed_ips (ips : list string) : M unit :=
  modify (with_kernel (λ k, set_dev_ips (k_dev_ips k ∖ list_to_set ips) k)).

Definition delete_ip_rules (rules : gmap string Rule) : M unit :=
  modify (with_kernel (λ k, set_ip_rules (k_ip_rules k ∖ rules) k)).

Definition stale_routes (store extra : gmap string (gset Route)) : gset Route :=
  map_fold (λ bridge found acc, acc ∪ (found ∖ default ∅ (store !! bridge))) ∅ extra.

Definition delete_bridge_ip_routes (extra : gmap string (gset Route)) : M unit :=
  modify (λ s,
    with_kernel (λ k,
      set_ip_routes
        (k_ip_routes k ∖ stale_routes (ovn_routing_tables_routes (agent s)) extra) k) s).

(** The flow operations of [ovs], through the parameters of [env]. *)
Definition get_ovs_flows_info (bridge : string)
    (flows_info : gmap string (string * list string)) :
    M (gmap string (string * list string)) :=
  gets (λ s, alter (λ e, (e.1, ovs_flows_in_ports env bridge (k_ovs_flows (kernel s))))
               bridge flows_info).

Definition remove_extra_ovs_flows (flows_info : gmap string (string * list string)) : M unit :=
  modify (with_kernel (λ k,
    set_ovs_flows (ovs_remove_extra_flows env flows_info (k_ovs_flows k)) k)).

Definition ensure_default_ovs_flows (bridges : list string) : M unit :=
  modify (with_kernel (λ k,
    set_ovs_flows (ovs_ensure_default_flows env bridges (k_ovs_flows k)) k)).

End LinuxNet.
End linux_net.

(** ** The driver *)

(** The two local snapshots of [sync]: [exposed_ips] (a list) and
    [ovn_ip_rules] (a dict).  The helpers that receive them update them in
    place, so here they are passed in and handed back. *)
Definition Snapshots : Type := list string * gmap string Rule.

(** [l.remove(x)] guarded by [if x in l]: the first occurrence goes. *)
Fixpoint list_remove_first (x : string) (l : list string) : list string :=
  match l with
  | [] => []
  | y :: rest => if decide (x = y) then rest else y :: list_remove_first x rest
  end.

(** [if ip in exposed_ips: exposed_ips.remove(ip)] and then
    [ovn_ip_rules.pop(ip_dst, None)]. *)
Definition mark_kept (ip ip_dst : string) (snap : Snapshots) : Snapshots :=
  (list_remove_first ip snap.1, delete ip_dst snap.2).

Section Driver.
Variable env : Env.
Variable sb : SbIdl.

Definition is_vm_or_virtual (row : PortRow) : bool :=
  String.eqb (p_type row) OVN_VM_VIF_PORT_TYPE
  || String.eqb (p_type row) OVN_VIRTUAL_VIF_PORT_TYPE.

(** [self.ovn_routing_tables[rule_bridge]]: a [KeyError] when the bridge is
    [None] or has no table.  The bridge comes back with its table. *)
Definition routing_table_of (rule_bridge : option string) : M (string * Z) :=
  tables <- gets (λ s, ovn_routing_tables (agent s)) ;;
  match rule_bridge with
  | Some bridge =>
      table <- from_option KeyError (tables !! bridge) ;;
      ret (bridge, table)
  | None => raise KeyError
  end.

Definition _get_bridge_for_datapath (datapath : string) : M (option string * option Z) :=
  mappings <- gets (λ s, ovn_bridge_mappings (agent s)) ;;
  let name_tag := get_network_name_and_tag sb datapath (elements (dom mappings)) in
  match name_tag.1 with
  | Some network_name =>
      if truthy network_name then
        bridge <- from_option KeyError (mappings !! network_name) ;;
        match name_tag.2 with
        | tag :: _ => ret (Some bridge, Some tag)
        | [] => ret (Some bridge, None)
        end
      else ret (None, None)
  | None => ret (None, None)
  end.

(** [port.mac[0].split(' ')[i]]. *)
Definition mac_field (port : PortRow) (i : nat) : M string :=
  mac0 <- from_option IndexError (py_index (p_mac port) 0) ;;
  from_option IndexError (py_index (split_on SPACE mac0) i).

Definition mac_field_count (port : PortRow) : M nat :=
  mac0 <- from_option IndexError (py_index (p_mac port) 0) ;;
  ret (length (split_on SPACE mac0)).

(** The port IPs as [_ensure_port_exposed] reads them (lines 226-231):
    [None] when the row is skipped. *)
Definition checked_port_ips (port : PortRow) : M (option (list string)) :=
  n <- mac_field_count port ;;
  if bool_decide (n ≠ 2) && bool_decide (n ≠ 3) then ret None
  else
    ip1 <- mac_field port 1 ;;
    if bool_decide (n = 3)
    then ip2 <- mac_field port 2 ;; ret (Some [ip1; ip2])
    else ret (Some [ip1]).

(** The port IPs as the tenant-VM enumerations read them (lines 301-306
    and 723-728): [None] when the [IndexError] makes the loop [continue]. *)
Definition tenant_port_ips (port : PortRow) : M (option (list string)) :=
  r <- try_except is_IndexError
         (ip1 <- mac_field port 1 ;; ret (Some ip1))
         (λ _, ret None) ;;
  match r with
  | None => ret None
  | Some ip1 =>
      n <- mac_field_count port ;;
      if bool_decide (n = 3)
      then ip2 <- mac_field port 2 ;; ret (Some [ip1; ip2])
      else ret (Some [ip1])
  end.

(** The loop of lines 278-288 and 699-709: a route to the subnet through
    the first gateway IP of the family [ip_version], then [break]. *)
Definition add_route_via_gateway (gateway_ips : list string) (ip_version : Z)
    (subnet_cidr : string) (rule_bridge : option string) (vlan_tag : option Z) :
    M (option unit) :=
  for_until gateway_ips (λ gateway_ip,
    if (get_ip_version env gateway_ip =? ip_version)%Z then
      bt <- routing_table_of rule_bridge ;;
      mask <- from_option IndexError (py_index (split_on SLASH subnet_cidr) 1) ;;
      linux_net.add_ip_route env (without_mask subnet_cidr) bt.2 bt.1 vlan_tag
        (Some mask) (Some gateway_ip) ;;
      ret (Some tt)
    else ret None).

Definition _ensure_network_exposed (router_port : PortRow) (gateway : CrLrpInfo)
    (snap : Snapshots) : M Snapshots :=
  let gateway_ips := map without_mask (cr_ips gateway) in
  r <- try_except is_IndexError
         (ip <- mac_field router_port 1 ;; ret (Some ip))
         (λ _, ret None) ;;
  match r with
  | None => ret snap
  | Some router_port_ip =>
      let router_ip := without_mask router_port_ip in
      if bool_decide (router_ip ∈ gateway_ips) then ret snap
      else
        modify (with_agent (λ a,
          set_local_lrps (ovn_local_lrps a ∪ {[p_logical_port router_port]}) a)) ;;
        bv <- _get_bridge_for_datapath (provider_datapath gateway) ;;
        failed <- try_except is_InvalidPortIP
                    (bt <- routing_table_of bv.1 ;;
                     linux_net.add_ip_rule env router_port_ip bt.2 bt.1 None ;;
                     ret false)
                    (λ _, LOG_exception
                            ("Invalid IP to create a rule for the network router"
                             +:+ " interface port: " +:+ router_port_ip) ;;
                          ret true) ;;
        if (failed : bool) then ret snap
        else
          let snap := (snap.1, delete router_port_ip snap.2) in
          let router_port_ip_version := get_ip_version env router_port_ip in
          add_route_via_gateway gateway_ips router_port_ip_version router_port_ip
            bv.1 bv.2 ;;
          peer <- from_option KeyError (p_options router_port !! "peer") ;;
          let network_port_datapath := get_port_datapath sb peer in
          match network_port_datapath with
          | Some dp =>
              if truthy dp then
                for_fold (get_ports_on_datapath sb dp) (λ port snap,
                  if negb (is_vm_or_virtual port)
                     || (String.eqb (p_type port) OVN_VM_VIF_PORT_TYPE
                         && bool_decide (p_chassis port = []))
                  then ret snap
                  else
                    ips <- tenant_port_ips port ;;
                    match ips with
                    | None => ret snap
                    | Some port_ips =>
                        for_fold port_ips (λ port_ip snap,
                          if (get_ip_version env port_ip =? router_port_ip_version)%Z
                          then
                            linux_net.add_ips_to_dev [port_ip] ;;
                            let ip_dst :=
                              if (router_port_ip_version =? IP_VERSION_6)%Z
                              then port_ip +:+ "/128" else port_ip +:+ "/32" in
                            ret (mark_kept port_ip ip_dst snap)
                          else ret snap) snap
                    end) snap
              else ret snap
          | None => ret snap
          end
  end.

(** The network of [ipaddress.IPv6Network(cidr, strict=False)] or of its
    IPv4 twin: the family and the CIDR it was built from. *)
Definition Net : Type := bool * string.

Definition _remove_network_exposed (router_port : PortRow) (gateway : CrLrpInfo) : M unit :=
  let gateway_ips := map without_mask (cr_ips gateway) in
  r <- try_except is_IndexError
         (ip <- mac_field router_port 1 ;; ret (Some ip))
         (λ _, ret None) ;;
  match r with
  | None => ret tt
  | Some router_port_ip =>
      let router_ip := without_mask router_port_ip in
      if bool_decide (router_ip ∈ gateway_ips) then ret tt
      else
        modify (with_agent (λ a,
          set_local_lrps (ovn_local_lrps a ∖ {[p_logical_port router_port]}) a)) ;;
        bv <- _get_bridge_for_datapath (provider_datapath gateway) ;;
        bt <- routing_table_of bv.1 ;;
        linux_net.del_ip_rule env router_port_ip bt.2 bt.1 None ;;
        let router_port_ip_version := get_ip_version env router_port_ip in
        net <- for_until gateway_ips (λ gateway_ip,
                 if (get_ip_version env gateway_ip =? router_port_ip_version)%Z then
                   bt <- routing_table_of bv.1 ;;
                   mask <- from_option IndexError
                             (py_index (split_on SLASH router_port_ip) 1) ;;
                   linux_net.del_ip_route env router_ip bt.2 bt.1 bv.2
                     (Some mask) (Some gateway_ip) ;;
                   ret (Some ((get_ip_version env gateway_ip =? IP_VERSION_6)%Z,
                              router_port_ip))
                 else ret None) ;;
        net <- from_option UnboundLocalError (net : option Net) ;;
        vms_on_net <- linux_net.get_exposed_ips_on_network env net ;;
        linux_net.delete_exposed_ips vms_on_net
  end.

(** The loop of lines 402-413 and 455-468: a rule and an on-link route per
    IP.  [Some tt] tells that the handler of [InvalidPortIP] returned from
    the method. *)
Definition add_rules_and_routes (msg : string) (rule_bridge : option string)
    (vlan_tag : option Z) (ips : list string) : M (option unit) :=
  for_until ips (λ ip,
    failed <- try_except is_InvalidPortIP
                (bt <- routing_table_of rule_bridge ;;
                 linux_net.add_ip_rule env ip bt.2 bt.1 None ;;
                 ret false)
                (λ _, LOG_exception (msg +:+ ip) ;; ret true) ;;
    if (failed : bool) then ret (Some tt)
    else
      bt <- routing_table_of rule_bridge ;;
      linux_net.add_ip_route env ip bt.2 bt.1 vlan_tag None None ;;
      ret None).

(** [_expose_ip] returns the floating IP it exposed, if any. *)
Definition _expose_ip (ips : list string) (row : PortRow)
    (associated_port : option string) : M (option string) :=
  (* VM on provider network *)
  if is_vm_or_virtual row && is_provider_network sb (p_datapath row) then
    linux_net.add_ips_to_dev ips ;;
    bv <- _get_bridge_for_datapath (p_datapath row) ;;
    add_rules_and_routes
      "Invalid IP to create a rule for the VM ip on the provider network: "
      bv.1 bv.2 ips ;;
    ret None
  (* VM with FIP *)
  else if is_vm_or_virtual row then
    match get_fip_associated sb (p_logical_port row) with
    | Some (fip_address, fip_datapath) =>
        if truthy fip_address then
          linux_net.add_ips_to_dev [fip_address] ;;
          bv <- _get_bridge_for_datapath fip_datapath ;;
          failed <- try_except is_InvalidPortIP
                      (bt <- routing_table_of bv.1 ;;
                       linux_net.add_ip_rule env fip_address bt.2 bt.1 None ;;
                       ret false)
                      (λ _, LOG_exception
                              ("Invalid IP to create a rule for the VM floating IP: "
                               +:+ fip_address) ;;
                            ret true) ;;
          if (failed : bool) then ret None
          else
            bt <- routing_table_of bv.1 ;;
            linux_net.add_ip_route env fip_address bt.2 bt.1 bv.2 None None ;;
            ret (Some fip_address)
        else
          bridges <- gets (λ s, (map_to_list (ovn_bridge_mappings (agent s))).*2) ;;
          linux_net.ensure_default_ovs_flows env bridges ;;
          ret None
    | None =>
        bridges <- gets (λ s, (map_to_list (ovn_bridge_mappings (agent s))).*2) ;;
        linux_net.ensure_default_ovs_flows env bridges ;;
        ret None
    end
  (* FIP association to VM *)
  else if String.eqb (p_type row) OVN_PATCH_VIF_PORT_TYPE then
    chassis_name <- gets (λ s, chassis (agent s)) ;;
    match associated_port with
    | Some port =>
        if truthy port && is_port_on_chassis sb port chassis_name then
          linux_net.add_ips_to_dev ips ;;
          bv <- _get_bridge_for_datapath (p_datapath row) ;;
          add_rules_and_routes
            "Invalid IP to create a rule for the floating IP associated to the VM: "
            bv.1 bv.2 ips ;;
          ret None
        else ret None
    | None => ret None
    end
  (* CR-LRP port *)
  else if String.eqb (p_type row) OVN_CHASSISREDIRECT_VIF_PORT_TYPE
          && String.prefix "cr-" (p_logical_port row) then
    match get_fip_associated sb (p_logical_port row) with
    | Some (_, cr_lrp_datapath) =>
        if truthy cr_lrp_datapath then
          modify (with_agent (λ a,
            set_local_cr_lrps
              (<[p_logical_port row := mkCrLrp (p_datapath row) cr_lrp_datapath ips]>
                 (ovn_local_cr_lrps a)) a)) ;;
          let ips_without_mask := map without_mask ips in
          linux_net.add_ips_to_dev ips_without_mask ;;
          bv <- _get_bridge_for_datapath cr_lrp_datapath ;;
          returned <- for_until ips (λ ip,
            let ip_without_mask := without_mask ip in
            failed <- try_except is_InvalidPortIP
                        (bt <- routing_table_of bv.1 ;;
                         lladdr <- mac_field row 0 ;;
                         linux_net.add_ip_rule env ip_without_mask bt.2 bt.1 (Some lladdr) ;;
                         ret false)
                        (λ _, LOG_exception
                                ("Invalid IP to create a rule for the router gateway port: "
                                 +:+ ip_without_mask) ;;
                              ret true) ;;
            if (failed : bool) then ret (Some tt)
            else
              bt <- routing_table_of bv.1 ;;
              linux_net.add_ip_route env ip_without_mask bt.2 bt.1 bv.2 None None ;;
              (if (get_ip_version env ip_without_mask =? IP_VERSION_6)%Z
               then linux_net.add_ndp_proxy ip bt.1 bv.2
               else ret tt) ;;
              ret None) ;;
          match returned with
          | Some _ => ret None
          | None =>
              tenant <- gets (λ s, expose_tenant_networks (agent s)) ;;
              if negb tenant then ret None
              else
                for_each (get_lrp_ports_for_router sb (p_datapath row)) (λ lrp,
                  if bool_decide (p_chassis lrp ≠ []) then ret tt
                  else
                    cr_lrps <- gets (λ s, ovn_local_cr_lrps (agent s)) ;;
                    info <- from_option KeyError (cr_lrps !! p_logical_port row) ;;
                    (* the defaults [exposed_ips=[]] and [ovn_ip_rules={}]:
                       only ever removed from, so they stay empty *)
                    _ensure_network_exposed lrp info ([], ∅) ;;
                    ret tt) ;;
                ret None
          end
        else ret None
    | None => ret None
    end
  else ret None.

Definition expose_ip (ips : list string) (row : PortRow)
    (associated_port : option string) : M unit :=
  _expose_ip ips row associated_port ;; ret tt.

(** The loop of lines 549-556 and 590-597. *)
Definition del_rules_and_routes (rule_bridge : option string) (vlan_tag : option Z)
    (ips : list string) : M unit :=
  for_each ips (λ ip,
    bt <- routing_table_of rule_bridge ;;
    linux_net.del_ip_rule env ip bt.2 bt.1 None ;;
    bt <- routing_table_of rule_bridge ;;
    linux_net.del_ip_route env ip bt.2 bt.1 vlan_tag None None).

(** [[p for p in self.ovn_local_cr_lrps.values()
      if p['provider_datapath'] == cr_lrp_datapath]]. *)
Definition cr_lrps_on_same_provider (cr_lrps : gmap string CrLrpInfo)
    (cr_lrp_datapath : string) : list CrLrpInfo :=
  filter (λ p, provider_datapath p = cr_lrp_datapath) (map_to_list cr_lrps).*2.

Definition withdraw_ip (ips : list string) (row : PortRow)
    (associated_port : option string) : M unit :=
  (* VM on provider network *)
  if is_vm_or_virtual row && is_provider_network sb (p_datapath row) then
    linux_net.del_ips_from_dev ips ;;
    bv <- _get_bridge_for_datapath (p_datapath row) ;;
    del_rules_and_routes bv.1 bv.2 ips
  (* VM with FIP *)
  else if is_vm_or_virtual row then
    match get_fip_associated sb (p_logical_port row) with
    | Some (fip_address, fip_datapath) =>
        if truthy fip_address then
          linux_net.del_ips_from_dev [fip_address] ;;
          bv <- _get_bridge_for_datapath fip_datapath ;;
          bt <- routing_table_of bv.1 ;;
          linux_net.del_ip_rule env fip_address bt.2 bt.1 None ;;
          bt <- routing_table_of bv.1 ;;
          linux_net.del_ip_route env fip_address bt.2 bt.1 bv.2 None None
        else ret tt
    | None => ret tt
    end
  (* FIP association to VM *)
  else if String.eqb (p_type row) OVN_PATCH_VIF_PORT_TYPE then
    chassis_name <- gets (λ s, chassis (agent s)) ;;
    match associated_port with
    | Some port =>
        if truthy port
           && (is_port_on_chassis sb port chassis_name || is_port_deleted sb port)
        then
          linux_net.del_ips_from_dev ips ;;
          bv <- _get_bridge_for_datapath (p_datapath row) ;;
          del_rules_and_routes bv.1 bv.2 ips
        else ret tt
    | None => ret tt
    end
  (* CR-LRP port *)
  else if String.eqb (p_type row) OVN_CHASSISREDIRECT_VIF_PORT_TYPE
          && String.prefix "cr-" (p_logical_port row) then
    cr_lrps <- gets (λ s, ovn_local_cr_lrps (agent s)) ;;
    match provider_datapath <$> (cr_lrps !! p_logical_port row) with
    | Some cr_lrp_datapath =>
        if truthy cr_lrp_datapath then
          let ips_without_mask := map without_mask ips in
          linux_net.del_ips_from_dev ips_without_mask ;;
          bv <- _get_bridge_for_datapath cr_lrp_datapath ;;
          for_each ips_without_mask (λ ip,
            let cr_lrp_ip :=
              if (get_ip_version env ip =? IP_VERSION_6)%Z
              then ip +:+ "/128" else ip +:+ "/32" in
            bt <- routing_table_of bv.1 ;;
            lladdr <- mac_field row 0 ;;
            linux_net.del_ip_rule env cr_lrp_ip bt.2 bt.1 (Some lladdr) ;;
            bt <- routing_table_of bv.1 ;;
            linux_net.del_ip_route env ip bt.2 bt.1 bv.2 None None ;;
            (* del proxy ndp config for ipv6 *)
            if (get_ip_version env ip =? IP_VERSION_6)%Z then
              cr_lrps <- gets (λ s, ovn_local_cr_lrps (agent s)) ;;
              if bool_decide (1 < length (cr_lrps_on_same_provider cr_lrps cr_lrp_datapath))
              then linux_net.del_ndp_proxy ip bt.1 bv.2
              else ret tt
            else ret tt) ;;
          for_each (get_lrp_ports_for_router sb (p_datapath row)) (λ lrp,
            if bool_decide (p_chassis lrp ≠ []) then ret tt
            else
              cr_lrps <- gets (λ s, ovn_local_cr_lrps (agent s)) ;;
              match cr_lrps !! p_logical_port row with
              | Some local_cr_lrp_info => _remove_network_exposed lrp local_cr_lrp_info
              | None => ret tt
              end) ;;
          (* [del] of a missing key raises [KeyError], which is caught *)
          modify (with_agent (λ a,
            set_local_cr_lrps (delete (p_logical_port row) (ovn_local_cr_lrps a)) a))
        else ret tt
    | None => ret tt
    end
  else ret tt.

(** [port_lrp in self.ovn_local_lrps], where [port_lrp] may be [None]. *)
Definition lrp_is_local (port_lrp : option string) (s : State) : bool :=
  match port_lrp with
  | Some lrp => bool_decide (lrp ∈ ovn_local_lrps (agent s))
  | None => false
  end.

Definition expose_remote_ip (ips : list string) (row : PortRow) : M unit :=
  tenant <- gets (λ s, expose_tenant_networks (agent s)) ;;
  if is_provider_network sb (p_datapath row) || negb tenant then ret tt
  else
    let port_lrp := get_lrp_port_for_datapath sb (p_datapath row) in
    is_local <- gets (lrp_is_local port_lrp) ;;
    if (is_local : bool) then linux_net.add_ips_to_dev ips else ret tt.

Definition withdraw_remote_ip (ips : list string) (row : PortRow) : M unit :=
  tenant <- gets (λ s, expose_tenant_networks (agent s)) ;;
  if is_provider_network sb (p_datapath row) || negb tenant then ret tt
  else
    let port_lrp := get_lrp_port_for_datapath sb (p_datapath row) in
    is_local <- gets (lrp_is_local port_lrp) ;;
    if (is_local : bool) then linux_net.del_ips_from_dev ips else ret tt.

Definition expose_subnet (ip : string) (row : PortRow) : M unit :=
  tenant <- gets (λ s, expose_tenant_networks (agent s)) ;;
  if negb tenant then ret tt
  else
    chassis_name <- gets (λ s, chassis (agent s)) ;;
    let cr_lrp := is_router_gateway_on_chassis sb (p_datapath row) chassis_name in
    match cr_lrp with
    | Some cr_lrp_name =>
        if truthy cr_lrp_name then
          modify (with_agent (λ a,
            set_local_lrps (ovn_local_lrps a ∪ {[p_logical_port row]}) a)) ;;
          cr_lrps <- gets (λ s, ovn_local_cr_lrps (agent s)) ;;
          match cr_lrps !! cr_lrp_name with
          | Some cr_lrp_info =>
              if truthy (provider_datapath cr_lrp_info) then
                let cr_lrp_ips := map without_mask (cr_ips cr_lrp_info) in
                bv <- _get_bridge_for_datapath (provider_datapath cr_lrp_info) ;;
                try_except is_InvalidPortIP
                  (bt <- routing_table_of bv.1 ;;
                   linux_net.add_ip_rule env ip bt.2 bt.1 None)
                  (λ _, LOG_exception
                          ("Invalid IP to create a rule for the network router"
                           +:+ " interface port: " +:+ ip)) ;;
                let ip_version := get_ip_version env ip in
                add_route_via_gateway cr_lrp_ips ip_version ip bv.1 bv.2 ;;
                (* Check if there are VMs on the network *)
                peer <- from_option KeyError (p_options row !! "peer") ;;
                match get_port_datapath sb peer with
                | Some dp =>
                    if truthy dp then
                      for_each (get_ports_on_datapath sb dp) (λ port,
                        if negb (is_vm_or_virtual port) then ret tt
                        else
                          ips <- tenant_port_ips port ;;
                          match ips with
                          | None => ret tt
                          | Some port_ips =>
                              for_each port_ips (λ port_ip,
                                if (get_ip_version env port_ip =? ip_version)%Z
                                then linux_net.add_ips_to_dev [port_ip]
                                else ret tt)
                          end)
                    else ret tt
                | None => ret tt
                end
              else ret tt
          | None => ret tt
          end
        else ret tt
    | None => ret tt
    end.

Definition withdraw_subnet (ip : string) (row : PortRow) : M unit :=
  tenant <- gets (λ s, expose_tenant_networks (agent s)) ;;
  if negb tenant then ret tt
  else
    chassis_name <- gets (λ s, chassis (agent s)) ;;
    let cr_lrp := is_router_gateway_on_chassis sb (p_datapath row) chassis_name in
    match cr_lrp with
    | Some cr_lrp_name =>
        if truthy cr_lrp_name then
          modify (with_agent (λ a,
            set_local_lrps (ovn_local_lrps a ∖ {[p_logical_port row]}) a)) ;;
          cr_lrps <- gets (λ s, ovn_local_cr_lrps (agent s)) ;;
          match cr_lrps !! cr_lrp_name with
          | Some cr_lrp_info =>
              if truthy (provider_datapath cr_lrp_info) then
                let cr_lrp_ips := map without_mask (cr_ips cr_lrp_info) in
                bv <- _get_bridge_for_datapath (provider_datapath cr_lrp_info) ;;
                bt <- routing_table_of bv.1 ;;
                linux_net.del_ip_rule env ip bt.2 bt.1 None ;;
                let ip_version := get_ip_version env ip in
                net <- for_until cr_lrp_ips (λ cr_lrp_ip,
                         if (get_ip_version env cr_lrp_ip =? ip_version)%Z then
                           bt <- routing_table_of bv.1 ;;
                           mask <- from_option IndexError
                                     (py_index (split_on SLASH ip) 1) ;;
                           linux_net.del_ip_route env (without_mask ip) bt.2 bt.1 bv.2
                             (Some mask) (Some cr_lrp_ip) ;;
                           ret (Some ((get_ip_version env cr_lrp_ip =? IP_VERSION_6)%Z, ip))
                         else ret None) ;;
                (* Check if there are VMs on the network *)
                net <- from_option UnboundLocalError (net : option Net) ;;
                vms_on_net <- linux_net.get_exposed_ips_on_network env net ;;
                linux_net.delete_exposed_ips vms_on_net
              else ret tt
          | None => ret tt
          end
        else ret tt
    | None => ret tt
    end.

(** [ip_dst] of lines 214-218 and 242-246. *)
Definition host_dst (versioned ip : string) : string :=
  if (get_ip_version env versioned =? IP_VERSION_6)%Z
  then ip +:+ "/128" else ip +:+ "/32".

Definition _ensure_cr_lrp_associated_ports_exposed (cr_lrp_port : string)
    (snap : Snapshots) : M Snapshots :=
  let info := get_cr_lrp_nat_addresses_info sb cr_lrp_port in
  let ips := info.1 in
  if bool_decide (ips = []) then ret snap
  else
    patch_port_row <- from_option AttributeError info.2 ;;
    _expose_ip ips patch_port_row (Some cr_lrp_port) ;;
    for_fold ips (λ ip snap, ret (mark_kept ip (host_dst ip ip) snap)) snap.

Definition _ensure_port_exposed (port : PortRow) (snap : Snapshots) : M Snapshots :=
  if bool_decide (p_type port ∉ OVN_VIF_PORT_TYPES) then ret snap
  else
    ips <- checked_port_ips port ;;
    match ips with
    | None => ret snap
    | Some port_ips =>
        fip <- _expose_ip port_ips port None ;;
        let snap :=
          match fip with
          | Some fip => if truthy fip then mark_kept fip (fip +:+ "/32") snap else snap
          | None => snap
          end in
        for_fold port_ips (λ port_ip snap,
          let ip_address := without_mask port_ip in
          (* remove each ip to add from the list of current ips on dev OVN *)
          ret (mark_kept ip_address (host_dst port_ip ip_address) snap)) snap
    end.

(** The locals of the loop over the bridge mappings in [sync]:
    [extra_routes] and [flows_info]. *)
Definition BridgeLocals : Type :=
  gmap string (gset Route) * gmap string (string * list string).

Definition sync_bridge_mapping (indexed : nat * string) (locals : BridgeLocals) :
    M BridgeLocals :=
  let bridge_index := indexed.1 in
  let bridge_mapping := indexed.2 in
  network <- from_option IndexError (py_index (split_on COLON bridge_mapping) 0) ;;
  bridge <- from_option IndexError (py_index (split_on COLON bridge_mapping) 1) ;;
  modify (with_agent (λ a,
    set_bridge_mappings (<[network := bridge]> (ovn_bridge_mappings a)) a)) ;;
  linux_net.ensure_arp_ndp_enabed_for_bridge bridge bridge_index ;;
  extra_routes <-
    (if bool_decide (default ∅ (locals.1 !! bridge) = ∅)
     then found <- linux_net.ensure_routing_table_for_bridge env bridge ;;
          ret (<[bridge := found]> locals.1)
     else ret locals.1) ;;
  match get_network_vlan_tag_by_network_name sb network with
  | vlan_tag :: _ => linux_net.ensure_vlan_device_for_network bridge vlan_tag
  | [] => ret tt
  end ;;
  match locals.2 !! bridge with
  | Some _ => ret (extra_routes, locals.2)
  | None =>
      interfaces <- gets (λ s, k_interfaces (kernel s)) ;;
      mac <- from_option KeyError (interfaces !! bridge) ;;
      (* 3) Get in_port for bridge mappings (br-ex, br-ex2) *)
      flows_info <- linux_net.get_ovs_flows_info env bridge (<[bridge := (mac, [])]> locals.2) ;;
      ret (extra_routes, flows_info)
  end.

(** The first three statements of [sync]. *)
Definition reset_bookkeeping : M unit :=
  modify (with_agent (λ a,
    set_routes_store ∅ (set_local_lrps ∅ (set_local_cr_lrps ∅ a)))).

Definition sync : M unit :=
  reset_bookkeeping ;;
  (* Create VRF *)
  linux_net.ensure_vrf OVN_BGP_VRF OVN_BGP_VRF_TABLE ;;
  (* Create OVN dummy device *)
  linux_net.ensure_ovn_device OVN_BGP_NIC OVN_BGP_VRF ;;
  (* 1) Get bridge mappings: xxxx:br-ex,yyyy:br-ex2 *)
  let bridge_mappings := get_ovn_bridge_mappings env in
  (* 2) Get macs for bridge mappings *)
  locals <- for_fold (zip (seq 0 (length bridge_mappings)) bridge_mappings)
              sync_bridge_mapping (∅, ∅) ;;
  let extra_routes := locals.1 in
  (* 4) Add/Remove flows for each bridge mappings *)
  linux_net.remove_extra_ovs_flows env locals.2 ;;
  exposed_ips <- linux_net.get_exposed_ips ;;
  (* get the rules pointing to ovn bridges *)
  tables <- gets (λ s, (map_to_list (ovn_routing_tables (agent s))).*2) ;;
  ovn_ip_rules <- linux_net.get_ovn_ip_rules tables ;;
  (* add missing routes/ips for fips/provider VMs *)
  chassis_name <- gets (λ s, chassis (agent s)) ;;
  snap <- for_fold (get_ports_on_chassis sb chassis_name)
            _ensure_port_exposed (exposed_ips, ovn_ip_rules) ;;
  snap <- for_fold (get_cr_lrp_ports_on_chassis sb chassis_name)
            _ensure_cr_lrp_associated_ports_exposed snap ;;
  (* add missing route/ips for tenant network VMs *)
  tenant <- gets (λ s, expose_tenant_networks (agent s)) ;;
  snap <-
    (if (tenant : bool) then
       (* [self.ovn_local_cr_lrps.values()]: a dict goes in insertion order,
          [map_to_list] in the order of the keys *)
       cr_lrps <- gets (λ s, (map_to_list (ovn_local_cr_lrps (agent s))).*2) ;;
       for_fold cr_lrps (λ cr_lrp_info snap,
         for_fold (get_lrp_ports_for_router sb (router_datapath cr_lrp_info))
           (λ lrp snap,
              if bool_decide (p_chassis lrp ≠ []) then ret snap
              else _ensure_network_exposed lrp cr_lrp_info snap) snap) snap
     else ret snap) ;;
  (* remove extra routes/ips *)
  (* remove all the leftovers on the list of current ips on dev OVN *)
  linux_net.delete_exposed_ips snap.1 ;;
  (* remove all the leftovers on the list of current ip rules for ovn bridges *)
  linux_net.delete_ip_rules snap.2 ;;
  (* remove all the extra rules not needed *)
  linux_net.delete_bridge_ip_routes extra_routes.

End Driver.

(** ** Concrete scenarios *)

Fixpoint has_char (c : ascii) (s : string) : bool :=
  match s with
  | EmptyString => false
  | String d rest => Ascii.eqb c d || has_char c rest
  end.

(** An instance of the parameters: an address is IPv6 when it holds a colon,
    a rule takes an address with at most one mask, a network holds the
    addresses that start with the text before its mask, and table ids count
    up from 200. *)
Definition demo_env : Env := {|
  get_ip_version ip := if has_char COLON ip then 6%Z else 4%Z;
  parsable_ip ip := bool_decide (length (split_on SLASH ip) ≤ 2);
  ip_in_network v6 cidr ip := String.prefix (without_mask cidr) ip;
  alloc_table tables bridge := (200 + Z.of_nat (size tables))%Z;
  get_ovn_bridge_mappings := ["public:br-ex"];
  ovs_flows_in_ports bridge flows := [];
  ovs_remove_extra_flows flows_info flows := flows;
  ovs_ensure_default_flows bridges flows := flows;
|}.

(** A VM on the tenant network behind the router of the gateway scenarios. *)
Definition tenant_vm6 : PortRow :=
  mkPort "vm" "dp-tenant" "vm6" ["fa:16:3e:aa:bb:ee 2001:db8:1::a"] ["host2"] ∅.

(** A southbound view with the given ports on this chassis; the datapath
    [dp-public] is the provider network [public].  With [gateway], the
    ports named [cr-...] are router gateways on [dp-public], and the router
    [dp-router] has the gateway [cr-lrp-1] and the router ports [lrps],
    whose peer [lsp-1] is on the tenant datapath [dp-tenant]. *)
Definition demo_sb (ports : list PortRow) (gateway : bool) (lrps : list PortRow) : SbIdl := {|
  get_ports_on_chassis c := ports;
  get_cr_lrp_ports_on_chassis c := [];
  get_cr_lrp_nat_addresses_info p := ([], None);
  is_provider_network dp := String.eqb dp "dp-public";
  get_fip_associated lp :=
    if gateway && String.prefix "cr-" lp then Some ("172.24.4.10", "dp-public") else None;
  get_network_name_and_tag dp nets :=
    if String.eqb dp "dp-public" && bool_decide ("public" ∈ nets)
    then (Some "public", []) else (None, []);
  get_network_vlan_tag_by_network_name n := [];
  get_lrp_ports_for_router dp := if String.eqb dp "dp-router" then lrps else [];
  get_port_datapath p := if String.eqb p "lsp-1" then Some "dp-tenant" else None;
  get_ports_on_datapath dp := if String.eqb dp "dp-tenant" then [tenant_vm6] else [];
  is_router_gateway_on_chassis dp c :=
    if gateway && String.eqb dp "dp-router" then Some "cr-lrp-1" else None;
  is_port_on_chassis p c := false;
  is_port_deleted p := false;
  get_lrp_port_for_datapath dp := None;
|}.

(** Scenario 1 of section 8: a VM bound on the provider network. *)
Definition provider_vm : PortRow :=
  mkPort "vm" "dp-public" "vm1" ["fa:16:3e:aa:bb:cc 10.0.0.5"] ["host1"] ∅.

(** A VM of a tenant network (not a provider network), without floating IP. *)
Definition tenant_vm : PortRow :=
  mkPort "vm" "dp-tenant" "vm2" ["fa:16:3e:aa:bb:dd 10.0.0.5"] ["host1"] ∅.

(** Scenario 3 of section 8: a router gateway with an IPv6 address. *)
Definition cr_lrp_1 : PortRow :=
  mkPort "chassisredirect" "dp-router" "cr-lrp-1" ["fa:16:3e:11:22:33 2001:db8::1/64"]
    ["host1"] ∅.

(** Scenario 4 of section 8: a router port of the tenant subnet. *)
Definition lrp_1 : PortRow :=
  mkPort "patch" "dp-router" "lrp-1" ["fa:16:3e:44:55:66 2001:db8:1::1/64"] []
    {["peer" := "lsp-1"]}.

Definition demo_kernel (ips : gset string) (rules : gmap string Rule) : Kernel :=
  mkKernel ∅ ∅ {["br-ex" := "52:54:00:00:00:01"]} ∅ ∅ ips rules ∅ ∅ [].

Definition demo_agent (tenant : bool) (mappings : gmap string string) : Agent :=
  mkAgent tenant "host1" {["br-ex" := 200%Z]} mappings ∅ ∅ ∅.

(** The agent after a start: the bridge [br-ex] of [public] has table 200. *)
Definition started : State :=
  mkState (demo_agent false {["public" := "br-ex"]}) (demo_kernel ∅ ∅) [].

(** The same agent, but the bridge mapping of [public] is not known. *)
Definition unmapped : State :=
  mkState (demo_agent false ∅) (demo_kernel ∅ ∅) [].

(** Scenario 6 of section 8: two gateways are tracked on the provider
    datapath of [br-ex], each with the NDP proxy of its IPv6 address. *)
Definition two_gateways : State :=
  mkState
    (mkAgent false "host1" {["br-ex" := 200%Z]} {["public" := "br-ex"]}
       {["cr-lrp-1" := mkCrLrp "dp-router" "dp-public" ["2001:db8::1/64"];
         "cr-lrp-2" := mkCrLrp "dp-router2" "dp-public" ["2001:db8::2/64"]]} ∅ ∅)
    (mkKernel ∅ ∅ {["br-ex" := "52:54:00:00:00:01"]} ∅ ∅ ∅ ∅ ∅
       {[("2001:db8::1", "br-ex", None); ("2001:db8::2", "br-ex", None)]} [])
    [].

(** Scenario 4 of section 8, before the subnet is attached: tenant exposure
    is on and the gateway [cr-lrp-1] is tracked. *)
Definition gateway_exposed : State :=
  mkState
    (mkAgent true "host1" {["br-ex" := 200%Z]} {["public" := "br-ex"]}
       {["cr-lrp-1" := mkCrLrp "dp-router" "dp-public" ["2001:db8::1/64"]]} ∅ ∅)
    (demo_kernel {["2001:db8::1"]} ∅)
    [].

(** Scenario 5 of section 8, after a restart: the dummy device holds
    [10.0.0.99], which no port has, and [10.0.0.5], and a rule for each. *)
Definition restarted : State :=
  mkState (demo_agent false {["public" := "br-ex"]})
    (demo_kernel {["10.0.0.5"; "10.0.0.99"]}
       {["10.0.0.5/32" := (200%Z, None); "10.0.0.99/32" := (200%Z, None)]})
    [].

(** ** The exposed addresses, in the words of the spec *)

(** The IPs of a port row, as section 4.3 reads the first [mac] entry:
    [<hwaddr> <ip1> [<ip2>]]. *)
Definition row_ips (port : PortRow) : list string :=
  match p_mac port with
  | mac0 :: _ =>
      match split_on SPACE mac0 with
      | [_; ip1] => [ip1]
      | [_; ip1; ip2] => [ip1; ip2]
      | _ => []
      end
  | [] => []
  end.

(** The VM addresses on the tenant network behind a distributed router
    port, of the family of the router port. *)
Definition tenant_addresses (env : Env) (sb : SbIdl) (lrp : PortRow) : gset string :=
  match p_chassis lrp, row_ips lrp, p_options lrp !! "peer" ≫= get_port_datapath sb with
  | [], lrp_ip :: _, Some dp =>
      ⋃ ((λ vm,
            if is_vm_or_virtual vm
            then list_to_set
                   (filter (λ ip, get_ip_version env ip = get_ip_version env lrp_ip)
                      (row_ips vm))
            else ∅) <$> get_ports_on_datapath sb dp)
  | _, _, _ => ∅
  end.

(** The classification table of section 4.3, row by row. *)
Definition classified_port (env : Env) (sb : SbIdl) (tenant : bool) (port : PortRow) :
    gset string :=
  if is_vm_or_virtual port then
    if is_provider_network sb (p_datapath port)
    then list_to_set (row_ips port)
    else match get_fip_associated sb (p_logical_port port) with
         | Some (fip, _) => {[fip]}
         | None => ∅
         end
  else if String.eqb (p_type port) OVN_CHASSISREDIRECT_VIF_PORT_TYPE
          && String.prefix "cr-" (p_logical_port port)
  then list_to_set (without_mask <$> row_ips port)
       ∪ (if tenant
          then ⋃ (tenant_addresses env sb <$> get_lrp_ports_for_router sb (p_datapath port))
          else ∅)
  else ∅.

(** Section 3: the exposed address set is the union of the provider-VM
    IPs on this host, the floating IPs bound to local VMs, the gateway IPs of
    the locally hosted routers and, with tenant exposure on, the VM IPs on
    the tenant networks attached to them. *)
Definition classified_addresses (env : Env) (sb : SbIdl) (a : Agent) : gset string :=
  ⋃ (classified_port env sb (expose_tenant_networks a) <$> get_ports_on_chassis sb (chassis a))
  ∪ ⋃ ((λ cr_lrp, list_to_set (get_cr_lrp_nat_addresses_info sb cr_lrp).1)
         <$> get_cr_lrp_ports_on_chassis sb (chassis a)).

(** ** Reasoning about driver computations *)

(** [inv I E m]: from a state in [I], [m] ends in a state in [I], and an
    exception it raises is in [E]. *)
Definition inv {A} (I : State → Prop) (E : exn → Prop) (m : M A) : Prop :=
  ∀ s, I s → I (m s).2 ∧ ∀ e, (m s).1 = inl e → E e.

Definition not_InvalidPortIP (e : exn) : Prop := is_InvalidPortIP e = false.

(** The routing-table assignment only grows, and so do the names of the
    bridge mapping. *)
Definition tables_persist (s0 s : State) : Prop :=
  (∀ bridge table, ovn_routing_tables (agent s0) !! bridge = Some table →
                   ovn_routing_tables (agent s) !! bridge = Some table)
  ∧ dom (ovn_bridge_mappings (agent s0)) ⊆ dom (ovn_bridge_mappings (agent s)).

(** [port.mac[0].split(' ')[i]] as a value. *)
Definition mac_field_opt (port : PortRow) (i : nat) : option string :=
  p_mac port !! 0 ≫= λ mac0, split_on SPACE mac0 !! i.

(** Every route that is not in [routes0] is a route to the subnet of [cidr]
    through a gateway in [G] of family [v]. *)
Definition family_routes (env : Env) (routes0 : gset Route) (G : string → Prop)
    (cidr : string) (v : Z) (s : State) : Prop :=
  ∀ r, r ∈ k_ip_routes (kernel s) →
    r ∈ routes0
    ∨ ∃ g mask, route_via r = Some g ∧ G g ∧ get_ip_version env g = v
                ∧ route_dst r = without_mask cidr +:+ "/" +:+ mask.

(** The state once [ip] has its rule and its on-link route: a round of the
    loop of [add_rules_and_routes] in which nothing is raised. *)
Definition exposed_one (env : Env) (bridge : string) (table : Z) (vlan : option Z)
    (s : State) (ip : string) : State :=
  (linux_net.add_ip_route env ip table bridge vlan None None
     (with_kernel (λ k,
        set_ip_rules (<[linux_net.rule_dst env ip := (table, None)]> (k_ip_rules k)) k) s)).2.

(** The state once the rule and the on-link route of [ip] are gone: a round
    of the loop of [del_rules_and_routes]. *)
Definition withdrawn_one (env : Env) (bridge : string) (table : Z) (vlan : option Z)
    (s : State) (ip : string) : State :=
  (linux_net.del_ip_route env ip table bridge vlan None None
     (linux_net.del_ip_rule env ip table bridge None s).2).2.

(** The rows whose listed IPs [expose_ip] puts on the device one by one: a
    VM or virtual port on a provider network, or a patch port whose
    associated port is on this chassis. *)
Definition exposes_listed_ips (sb : SbIdl) (row : PortRow) (associated_port : option string)
    (s : State) : bool :=
  (is_vm_or_virtual row && is_provider_network sb (p_datapath row))
  || (negb (is_vm_or_virtual row)
      && String.eqb (p_type row) OVN_PATCH_VIF_PORT_TYPE
      && match associated_port with
         | Some port => truthy port && is_port_on_chassis sb port (chassis (agent s))
         | None => false
         end).

(** The [LOG.exception] line of the branch of [_expose_ip] that takes a row
    of [exposes_listed_ips]. *)
Definition invalid_ip_msg (row : PortRow) : string :=
  if is_vm_or_virtual row
  then "Invalid IP to create a rule for the VM ip on the provider network: "
  else "Invalid IP to create a rule for the floating IP associated to the VM: ".

(** A round of the loop of [withdraw_ip] over the addresses of a gateway
    (lines 615-633) in which nothing is raised: the rule and the route go,
    and for an IPv6 address the NDP proxy goes when more than one tracked
    gateway is on the provider datapath. *)
Definition cr_withdrawn_one (env : Env) (bridge : string) (table : Z) (vlan : option Z)
    (lladdr cr_lrp_datapath : string) (s : State) (ip : string) : State :=
  let s1 := (linux_net.del_ip_rule env (host_dst env ip ip) table bridge (Some lladdr) s).2 in
  let s2 := (linux_net.del_ip_route env ip table bridge vlan None None s1).2 in
  if (get_ip_version env ip =? IP_VERSION_6)%Z
     && bool_decide (1 < length (cr_lrps_on_same_provider
                                   (ovn_local_cr_lrps (agent s2)) cr_lrp_datapath))
  then (linux_net.del_ndp_proxy ip bridge vlan s2).2
  else s2.

(** Another tracked gateway shares the provider datapath of [port]. *)
Definition has_sibling (s : State) (port : string) (cr_lrp_datapath : string) : Prop :=
  ∃ other info, other ≠ port
                ∧ ovn_local_cr_lrps (agent s) !! other = Some info
                ∧ provider_datapath info = cr_lrp_datapath.

(** For the rows that are not router gateways: the datapath whose bridge
    takes the rules, and the addresses that [expose_ip] puts on the device:
    the listed IPs of a VM or virtual port on a provider network and of a
    patch port whose associated port is on this chassis, the floating IP of
    another VM or virtual port. *)
Definition exposed_addresses (sb : SbIdl) (row : PortRow) (associated_port : option string)
    (s : State) (ips : list string) : option (string * list string) :=
  if is_vm_or_virtual row then
    if is_provider_network sb (p_datapath row) then Some (p_datapath row, ips)
    else match get_fip_associated sb (p_logical_port row) with
         | Some (fip_address, fip_datapath) =>
             if truthy fip_address then Some (fip_datapath, [fip_address]) else None
         | None => None
         end
  else if exposes_listed_ips sb row associated_port s then Some (p_datapath row, ips)
  else None.

(** ** The events the driver subscribes to *)

(** The second list of [_get_events] (lines 110-113). *)
Definition tenant_events : list string :=
  ["SubnetRouterAttachedEvent"; "SubnetRouterDetachedEvent";
   "TenantPortCreatedEvent"; "TenantPortDeletedEvent"].

(** [_get_events]: the names of the watcher classes that [start] goes
    through. *)
Definition _get_events (a : Agent) : gset string :=
  let events : gset string :=
    list_to_set ["PortBindingChassisCreatedEvent"; "PortBindingChassisDeletedEvent";
                 "FIPSetEvent"; "FIPUnsetEvent"; "ChassisCreateEvent"] in
  if expose_tenant_networks a then events ∪ list_to_set tenant_events else events.

(** ** What a method leaves alone *)

(** The part of the state that only [sync] writes: the configuration, the
    routing tables, the bridge mappings, and the devices of the kernel. *)
Definition same_configuration (s0 s : State) : Prop :=
  expose_tenant_networks (agent s) = expose_tenant_networks (agent s0)
  ∧ chassis (agent s) = chassis (agent s0)
  ∧ ovn_routing_tables (agent s) = ovn_routing_tables (agent s0)
  ∧ ovn_bridge_mappings (agent s) = ovn_bridge_mappings (agent s0)
  ∧ k_vrfs (kernel s) = k_vrfs (kernel s0)
  ∧ k_nic_vrf (kernel s) = k_nic_vrf (kernel s0)
  ∧ k_interfaces (kernel s) = k_interfaces (kernel s0)
  ∧ k_arp_ndp (kernel s) = k_arp_ndp (kernel s0)
  ∧ k_vlan_devices (kernel s) = k_vlan_devices (kernel s0).

(** The routes that the bookkeeping holds for a bridge. *)
Definition store_routes (s : State) (bridge : string) : gset Route :=
  default ∅ (ovn_routing_tables_routes (agent s) !! bridge).

(** Nothing is on the kernel surface or in the bookkeeping of [s] that was
    not in [s0]. *)
Definition nothing_added (s0 s : State) : Prop :=
  k_dev_ips (kernel s) ⊆ k_dev_ips (kernel s0)
  ∧ k_ip_rules (kernel s) ⊆ k_ip_rules (kernel s0)
  ∧ k_ip_routes (kernel s) ⊆ k_ip_routes (kernel s0)
  ∧ k_ndp_proxies (kernel s) ⊆ k_ndp_proxies (kernel s0)
  ∧ ovn_local_lrps (agent s) ⊆ ovn_local_lrps (agent s0)
  ∧ ovn_local_cr_lrps (agent s) ⊆ ovn_local_cr_lrps (agent s0)
  ∧ (∀ bridge, store_routes s bridge ⊆ store_routes s0 bridge)
  ∧ k_ovs_flows (kernel s) = k_ovs_flows (kernel s0)
  ∧ log s = log s0.

(** Nothing that was on the kernel surface or in the bookkeeping of [s0]
    is missing in [s]; a rule may have been written again. *)
Definition nothing_removed (s0 s : State) : Prop :=
  k_dev_ips (kernel s0) ⊆ k_dev_ips (kernel s)
  ∧ dom (k_ip_rules (kernel s0)) ⊆ dom (k_ip_rules (kernel s))
  ∧ k_ip_routes (kernel s0) ⊆ k_ip_routes (kernel s)
  ∧ k_ndp_proxies (kernel s0) ⊆ k_ndp_proxies (kernel s)
  ∧ ovn_local_lrps (agent s0) ⊆ ovn_local_lrps (agent s)
  ∧ dom (ovn_local_cr_lrps (agent s0)) ⊆ dom (ovn_local_cr_lrps (agent s))
  ∧ (∀ bridge, store_routes s0 bridge ⊆ store_routes s bridge)
  ∧ log s0 `prefix_of` log s.

(** ** Tracked gateways *)

(** The provider datapath under which [_expose_ip] tracks a row: the row
    is a router gateway (lines 471-475) and the southbound view knows its
    datapath. *)
Definition gateway_datapath (sb : SbIdl) (row : PortRow) : option string :=
  if String.eqb (p_type row) OVN_CHASSISREDIRECT_VIF_PORT_TYPE
     && String.prefix "cr-" (p_logical_port row)
  then match get_fip_associated sb (p_logical_port row) with
       | Some (_, cr_lrp_datapath) =>
           if truthy cr_lrp_datapath then Some cr_lrp_datapath else None
       | None => None
       end
  else None.

(** The provider datapath of a row that [withdraw_ip] takes for a tracked
    router gateway (lines 600-604). *)
Definition tracked_datapath (s : State) (row : PortRow) : option string :=
  if String.eqb (p_type row) OVN_CHASSISREDIRECT_VIF_PORT_TYPE
     && String.prefix "cr-" (p_logical_port row)
  then match ovn_local_cr_lrps (agent s) !! p_logical_port row with
       | Some info =>
           if truthy (provider_datapath info) then Some (provider_datapath info) else None
       | None => None
       end
  else None.

(** ** Values that a computation returns *)

(** [returns m Q]: whatever the state, a value that [m] returns is in [Q]. *)
Definition returns {A} (m : M A) (Q : A → Prop) : Prop :=
  ∀ s a s', m s = (inr a, s') → Q a.

(** [x] is an address of a VM or virtual port on the network behind the
    router port [lrp]: the second or third field of the [mac] column of a port
    on the datapath of the peer of [lrp]. *)
Definition tenant_vm_address (sb : SbIdl) (lrp : PortRow) (x : string) : Prop :=
  ∃ peer dp port i,
    p_options lrp !! "peer" = Some peer
    ∧ get_port_datapath sb peer = Some dp
    ∧ port ∈ get_ports_on_datapath sb dp
    ∧ is_vm_or_virtual port = true
    ∧ (i = 1 ∨ i = 2)
    ∧ mac_field_opt port i = Some x.

(** Every address on the dummy device that is not in [ips0] is a VM
    address of family [v] on the network behind [lrp]. *)
Definition tenant_vm_addresses (env : Env) (sb : SbIdl) (ips0 : gset string)
    (lrp : PortRow) (v : Z) (s : State) : Prop :=
  ∀ x, x ∈ k_dev_ips (kernel s) →
    x ∈ ips0 ∨ (get_ip_version env x = v ∧ tenant_vm_address sb lrp x).

(** ** Bridges and routing tables *)

(** Every bridge that a network is mapped to has a routing table, so that
    [self.ovn_routing_tables[rule_bridge]] finds the table of a bridge that
    [_get_bridge_for_datapath] returns. *)
Definition mapped_bridges_have_tables (s : State) : Prop :=
  ∀ network bridge,
    ovn_bridge_mappings (agent s) !! network = Some bridge →
    is_Some (ovn_routing_tables (agent s) !! bridge).

(** The bridges that the loop of [sync] over the bridge mappings has found
    routes for are bridges with a routing table. *)
Definition found_bridges_have_tables (locals : BridgeLocals) (s : State) : Prop :=
  ∀ bridge,
    default ∅ (locals.1 !! bridge) ≠ ∅ →
    is_Some (ovn_routing_tables (agent s) !! bridge).

(** The network of an entry of the configured bridge mappings is a key of
    [ovn_bridge_mappings]. *)
Definition network_recorded (indexed : nat * string) (s : State) : Prop :=
  ∃ network, split_on COLON indexed.2 !! 0 = Some network
             ∧ is_Some (ovn_bridge_mappings (agent s) !! network).

(** The addresses, rules, routes and NDP proxies of the kernel are those
    of [s0]. *)
Definition same_surface (s0 s : State) : Prop :=
  k_dev_ips (kernel s) = k_dev_ips (kernel s0)
  ∧ k_ip_rules (kernel s) = k_ip_rules (kernel s0)
  ∧ k_ip_routes (kernel s) = k_ip_routes (kernel s0)
  ∧ k_ndp_proxies (kernel s) = k_ndp_proxies (kernel s0).

(** ** What [sync] accounts for *)

(** The addresses that a round of the loops of [sync] takes out of the
    snapshot [exposed_ips]: an IP of a port on this chassis (without its
    mask), the floating IP of such a port, a NAT address of a gateway on
    this chassis, the address of a VM on the network behind a router
    port. *)
Definition accounted_address (sb : SbIdl) (chassis_name : string) (x : string) : Prop :=
  (∃ port i ip,
     port ∈ get_ports_on_chassis sb chassis_name
     ∧ (i = 1 ∨ i = 2) ∧ mac_field_opt port i = Some ip ∧ x = without_mask ip)
  ∨ (∃ port datapath,
       port ∈ get_ports_on_chassis sb chassis_name
       ∧ get_fip_associated sb (p_logical_port port) = Some (x, datapath))
  ∨ (∃ cr_lrp,
       cr_lrp ∈ get_cr_lrp_ports_on_chassis sb chassis_name
       ∧ x ∈ (get_cr_lrp_nat_addresses_info sb cr_lrp).1)
  ∨ (∃ router lrp,
       lrp ∈ get_lrp_ports_for_router sb router ∧ tenant_vm_address sb lrp x).

(** The destinations that a round of the loops of [sync] takes out of the
    snapshot [ovn_ip_rules]: the host route of an accounted address, or the
    address of a router port as its [mac] column has it. *)
Definition accounted_rule (sb : SbIdl) (chassis_name : string) (dst : string) : Prop :=
  (∃ x, accounted_address sb chassis_name x ∧ (dst = x +:+ "/32" ∨ dst = x +:+ "/128"))
  ∨ (∃ router lrp,
       lrp ∈ get_lrp_ports_for_router sb router ∧ mac_field_opt lrp 1 = Some dst).

(** The snapshots still hold an entry, an address of [exposed_ips] or a
    destination of [ovn_ip_rules], unless it is accounted for. *)
Definition keeps_unaccounted (sb : SbIdl) (chassis_name : string)
    (entry : string + string) (snap : Snapshots) : Prop :=
  match entry with
  | inl x => ¬ accounted_address sb chassis_name x → x ∈ snap.1
  | inr dst => ¬ accounted_rule sb chassis_name dst → dst ∈ dom snap.2
  end.

(** ** The routes that [sync] finds in the tables of the bridges *)



(** ** The addresses that [sync] keeps *)

(** The snapshot [exposed_ips] has no address twice; and [x] is on the
    dummy device if it was there when [sync] began ([before]). *)
Definition snapshot_sound (x : string) (before : Prop) (snap : Snapshots) (s : State) : Prop :=
  NoDup snap.1 ∧ (before → x ∈ k_dev_ips (kernel s)).

(** The address [x] is out of the snapshot [exposed_ips] and on the dummy
    device, so that the last statements of [sync] leave it there. *)
Definition address_kept (x : string) (snap : Snapshots) (s : State) : Prop :=
  (x ∉ snap.1) ∧ x ∈ k_dev_ips (kernel s).

(** A round of a loop of [sync] only takes addresses out of the snapshot
    [exposed_ips], and leaves [x] on the dummy device if it was there. *)
Definition round_keeps (x : string) (body : Snapshots → M Snapshots) : Prop :=
  ∀ snap s snap' s',
    body snap s = (inr snap', s') →
    (snap'.1 `sublist_of` snap.1)
    ∧ (x ∈ k_dev_ips (kernel s) → x ∈ k_dev_ips (kernel s')).

(** ** The addresses of a router gateway *)

(** The state once the address [ip] of a gateway has its rule (with the
    link-layer address of the gateway), its on-link route and, for IPv6, its
    NDP proxy: a round of the loop of [_expose_ip] over the addresses of a
    gateway (lines 491-510) in which nothing is raised. *)
Definition cr_exposed_one (env : Env) (bridge : string) (table : Z) (vlan : option Z)
    (lladdr : string) (s : State) (ip : string) : State :=
  let ip_without_mask := without_mask ip in
  let s1 := with_kernel (λ k,
              set_ip_rules (<[linux_net.rule_dst env ip_without_mask := (table, Some lladdr)]>
                              (k_ip_rules k)) k) s in
  let s2 := (linux_net.add_ip_route env ip_without_mask table bridge vlan None None s1).2 in
  if (get_ip_version env ip_without_mask =? IP_VERSION_6)%Z
  then (linux_net.add_ndp_proxy ip bridge vlan s2).2
  else s2.

(** The address [x] of a gateway is exposed through [bridge]: it is on the
    dummy device, it has a rule and its on-link route, which the bookkeeping
    holds, and, for IPv6, its NDP proxy. *)
Definition gateway_address_exposed (env : Env) (bridge : string) (table : Z)
    (vlan : option Z) (x : string) (s : State) : Prop :=
  x ∈ k_dev_ips (kernel s)
  ∧ linux_net.rule_dst env x ∈ dom (k_ip_rules (kernel s))
  ∧ linux_net.mk_route env x table bridge vlan None None ∈ k_ip_routes (kernel s)
  ∧ linux_net.mk_route env x table bridge vlan None None ∈ store_routes s bridge
  ∧ (get_ip_version env x = IP_VERSION_6 → (x, bridge, vlan) ∈ k_ndp_proxies (kernel s)).

(** The address [x] of a gateway is withdrawn from [bridge]: it is not on
    the dummy device, and neither its rule nor its on-link route is left,
    in the kernel or in the bookkeeping. *)
Definition gateway_address_withdrawn (env : Env) (bridge : string) (table : Z)
    (vlan : option Z) (x : string) (s : State) : Prop :=
  (x ∉ k_dev_ips (kernel s))
  ∧ (linux_net.rule_dst env x ∉ dom (k_ip_rules (kernel s)))
  ∧ (linux_net.mk_route env x table bridge vlan None None ∉ k_ip_routes (kernel s))
  ∧ (linux_net.mk_route env x table bridge vlan None None ∉ store_routes s bridge).

(** The gateway [port] is tracked in [ovn_local_cr_lrps] with the provider
    datapath [datapath]. *)
Definition gateway_tracked (port datapath : string) (s : State) : Prop :=
  ∃ info, ovn_local_cr_lrps (agent s) !! port = Some info
          ∧ provider_datapath info = datapath.

(** ** Rules for [inv] *)

Section Inv.
Context (I : State → Prop) (E : exn → Prop).

Lemma inv_ret {A} (a : A) : inv I E (ret a).
Proof. intros s Hs. split; [done|]. intros e He. discriminate He. Qed.

Lemma inv_gets {A} (f : State → A) : inv I E (gets f).
Proof. intros s Hs. split; [done|]. intros e He. discriminate He. Qed.

Lemma inv_raise {A} e : E e → inv I E (raise (A:=A) e).
Proof. intros He s Hs. split; [done|]. intros e' [= <-]. done. Qed.

Lemma inv_modify f : (∀ s, I s → I (f s)) → inv I E (modify f).
Proof. intros Hf s Hs. split; [by apply Hf|]. intros e He. discriminate He. Qed.

Lemma inv_from_option {A} e (o : option A) :
  (o = None → E e) → inv I E (from_option e o).
Proof. destruct o; intros H; [apply inv_ret | apply inv_raise; auto]. Qed.

Lemma inv_bind {A B} (m : M A) (k : A → M B) :
  inv I E m → (∀ a, inv I E (k a)) → inv I E (bind m k).
Proof.
  intros Hm Hk s Hs. unfold bind. destruct (Hm s Hs) as [HI HE].
  destruct (m s) as [[e|a] s']; simpl in *.
  - split; [done|]. intros e' [= <-]. by apply HE.
  - by apply Hk.
Qed.

(** The body may raise what the handler catches. *)
Lemma inv_try_except {A} (catches : exn → bool) (m : M A) (h : exn → M A) :
  inv I (λ e, if catches e then True else E e) m →
  (∀ e, inv I E (h e)) →
  inv I E (try_except catches m h).
Proof.
  intros Hm Hh s Hs. unfold try_except. destruct (Hm s Hs) as [HI HE].
  destruct (m s) as [[e|a] s']; simpl in *.
  - specialize (HE e eq_refl). destruct (catches e).
    + by apply Hh.
    + split; [done|]. by intros e' [= <-].
  - split; [done|]. intros e He. discriminate He.
Qed.

Lemma inv_for_each {A} (l : list A) body :
  (∀ x, x ∈ l → inv I E (body x)) → inv I E (for_each l body).
Proof.
  induction l as [|x l IH]; intros Hb; simpl; [apply inv_ret|].
  apply inv_bind; [apply Hb; left | intros _; apply IH].
  intros y Hy. apply Hb. by right.
Qed.

Lemma inv_for_until {A R} (l : list A) (body : A → M (option R)) :
  (∀ x, x ∈ l → inv I E (body x)) → inv I E (for_until l body).
Proof.
  induction l as [|x l IH]; intros Hb; simpl; [apply inv_ret|].
  apply inv_bind; [apply Hb; left | intros [r|]; [apply inv_ret | apply IH]].
  intros y Hy. apply Hb. by right.
Qed.

Lemma inv_for_fold {A B} (l : list A) (body : A → B → M B) acc :
  (∀ x b, x ∈ l → inv I E (body x b)) → inv I E (for_fold l body acc).
Proof.
  revert acc. induction l as [|x l IH]; intros acc Hb; simpl; [apply inv_ret|].
  apply inv_bind; [apply Hb; left | intros b; apply IH].
  intros y b' Hy. apply Hb. by right.
Qed.
End Inv.

(** One step of a proof of [inv] along the structure of the computation. *)
Ltac inv_step :=
  lazymatch goal with
  | |- inv _ _ (bind _ _) => apply inv_bind; [| intros ?]
  | |- inv _ _ (ret _) => apply inv_ret
  | |- inv _ _ (gets _) => apply inv_gets
  | |- inv _ _ (from_option _ _) => apply inv_from_option; intros ?
  | |- inv _ _ (raise _) => apply inv_raise
  | |- inv _ _ (try_except _ _ _) => apply inv_try_except; [| intros ?]
  | |- inv _ _ (for_each _ _) => apply inv_for_each; intros ? ?
  | |- inv _ _ (for_until _ _) => apply inv_for_until; intros ? ?
  | |- inv _ _ (for_fold _ _ _) => apply inv_for_fold; intros ? ? ?
  | |- inv _ _ (modify _) => apply inv_modify; intros ? ?
  | |- inv _ _ (match ?x with _ => _ end) => destruct x eqn:?
  | |- inv _ _ (let _ := _ in _) => cbv zeta
  end.

Ltac unfold_driver :=
  unfold sync, sync_bridge_mapping, reset_bookkeeping, _ensure_port_exposed,
    _ensure_cr_lrp_associated_ports_exposed, expose_ip, _expose_ip, withdraw_ip,
    expose_subnet, withdraw_subnet, expose_remote_ip, withdraw_remote_ip,
    _ensure_network_exposed, _remove_network_exposed, add_rules_and_routes,
    del_rules_and_routes, checked_port_ips, tenant_port_ips,
    mac_field, mac_field_count, _get_bridge_for_datapath, routing_table_of, LOG_exception;
  unfold linux_net.add_ips_to_dev, linux_net.del_ips_from_dev, linux_net.add_ip_rule,
    linux_net.del_ip_rule, linux_net.add_ip_route, linux_net.del_ip_route,
    linux_net.add_ndp_proxy, linux_net.del_ndp_proxy, linux_net.ensure_vrf,
    linux_net.ensure_ovn_device, linux_net.ensure_arp_ndp_enabed_for_bridge,
    linux_net.ensure_vlan_device_for_network, linux_net.ensure_routing_table_for_bridge,
    linux_net.get_exposed_ips, linux_net.get_ovn_ip_rules,
    linux_net.get_exposed_ips_on_network, linux_net.delete_exposed_ips,
    linux_net.delete_ip_rules, linux_net.delete_bridge_ip_routes,
    linux_net.get_ovs_flows_info, linux_net.remove_extra_ovs_flows,
    linux_net.ensure_default_ovs_flows.

Ltac inv_auto :=
  unfold_driver; unfold add_route_via_gateway; unfold_driver; repeat inv_step; try done.

(** ** Running the small pieces *)

Lemma bind_run {A B} (m : M A) (k : A → M B) s a s' :
  m s = (inr a, s') → bind m k s = k a s'.
Proof. unfold bind. by intros ->. Qed.

Lemma split_on_nonempty sep s : split_on sep s ≠ [].
Proof.
  destruct s as [|c s]; simpl; [done|].
  destruct (Ascii.eqb c sep); [done|]. by destruct (split_on sep s).
Qed.

Lemma mac_field_run port i s :
  mac_field port i s
  = (match mac_field_opt port i with Some x => inr x | None => inl IndexError end, s).
Proof.
  unfold mac_field, mac_field_opt, bind, from_option, py_index.
  destruct (p_mac port !! 0) as [mac0|]; simpl; [|done].
  by destruct (split_on SPACE mac0 !! i).
Qed.

Lemma try_mac_field_run port i s :
  try_except is_IndexError (ip <- mac_field port i ;; ret (Some ip)) (λ _, ret None) s
  = (inr (mac_field_opt port i), s).
Proof.
  unfold try_except, bind. rewrite mac_field_run.
  by destruct (mac_field_opt port i).
Qed.

(** ** MAC-field parsing *)

(** C5: the first [mac] entry of a port row is split on spaces; with fewer
    than two fields the row is skipped and contributes no IP (and
    [_ensure_port_exposed] leaves the state and the snapshots as they are),
    with exactly two fields it contributes the one IP, with three fields both
    IPs.  This holds for the reading of [_ensure_port_exposed] and for the
    reading of the tenant-VM enumerations. *)
Theorem mac_fields_port_ips env sb port mac0 snap s :
  p_mac port !! 0 = Some mac0 →
  let fields := split_on SPACE mac0 in
  (length fields < 2 →
     checked_port_ips port s = (inr None, s)
     ∧ tenant_port_ips port s = (inr None, s)
     ∧ _ensure_port_exposed env sb port snap s = (inr snap, s))
  ∧ (∀ hw ip1, fields = [hw; ip1] →
     checked_port_ips port s = (inr (Some [ip1]), s)
     ∧ tenant_port_ips port s = (inr (Some [ip1]), s))
  ∧ (∀ hw ip1 ip2, fields = [hw; ip1; ip2] →
     checked_port_ips port s = (inr (Some [ip1; ip2]), s)
     ∧ tenant_port_ips port s = (inr (Some [ip1; ip2]), s)).
Proof.
  intros Hmac fields.
  unfold _ensure_port_exposed, checked_port_ips, tenant_port_ips, mac_field_count, mac_field,
    try_except, bind, ret, from_option, py_index.
  rewrite Hmac. simpl. fold fields.
  split; [|split].
  - intros Hlen.
    destruct fields as [|hw [|ip1 rest]] eqn:Hf; simpl in *; [|split_and!; try done |lia].
    + by destruct (split_on_nonempty SPACE mac0).
    + by case_bool_decide.
  - intros hw ip1 ->. done.
  - intros hw ip1 ip2 ->. done.
Qed.

Lemma mac_fields_port_ips_witness :
  checked_port_ips provider_vm started = (inr (Some ["10.0.0.5"]), started)
  ∧ tenant_port_ips provider_vm started = (inr (Some ["10.0.0.5"]), started).
Proof.
  pose proof (mac_fields_port_ips demo_env (demo_sb [] false []) provider_vm
                "fa:16:3e:aa:bb:cc 10.0.0.5" ([], ∅) started eq_refl) as (_ & H2 & _).
  exact (H2 "fa:16:3e:aa:bb:cc" "10.0.0.5" eq_refl).
Defined.

(** ** Remote tenant IPs *)

Lemma remote_ip_dev_only sb ips row s :
  expose_remote_ip sb ips row s
    = (inr tt,
       if expose_tenant_networks (agent s)
          && negb (is_provider_network sb (p_datapath row))
          && lrp_is_local (get_lrp_port_for_datapath sb (p_datapath row)) s
       then with_kernel (λ k, set_dev_ips (k_dev_ips k ∪ list_to_set ips) k) s
       else s)
  ∧ withdraw_remote_ip sb ips row s
    = (inr tt,
       if expose_tenant_networks (agent s)
          && negb (is_provider_network sb (p_datapath row))
          && lrp_is_local (get_lrp_port_for_datapath sb (p_datapath row)) s
       then with_kernel (λ k, set_dev_ips (k_dev_ips k ∖ list_to_set ips) k) s
       else s).
Proof.
  unfold expose_remote_ip, withdraw_remote_ip, bind, gets, ret; simpl.
  destruct (expose_tenant_networks (agent s)), (is_provider_network sb (p_datapath row));
    simpl; try done.
  destruct (lrp_is_local _ s); done.
Qed.

(** C8: [expose_remote_ip] and [withdraw_remote_ip] return normally; when
    tenant exposure is on, the row's datapath is not a provider network and
    the LRP of the datapath is in [ovn_local_lrps], the only change is that
    the given IPs are added to, or removed from, the dummy device; otherwise
    the state is untouched. *)
Theorem remote_ip_only_touches_device sb ips row s :
  let gate := expose_tenant_networks (agent s)
              && negb (is_provider_network sb (p_datapath row))
              && lrp_is_local (get_lrp_port_for_datapath sb (p_datapath row)) s in
  expose_remote_ip sb ips row s
    = (inr tt, if gate
               then with_kernel (λ k, set_dev_ips (k_dev_ips k ∪ list_to_set ips) k) s
               else s)
  ∧ withdraw_remote_ip sb ips row s
    = (inr tt, if gate
               then with_kernel (λ k, set_dev_ips (k_dev_ips k ∖ list_to_set ips) k) s
               else s).
Proof. apply remote_ip_dev_only. Qed.

(** ** Withdrawing a gateway that is not tracked *)

(** C10: [withdraw_ip] on a chassisredirect row whose logical port has no
    entry in [ovn_local_cr_lrps] returns with the whole state (kernel
    surface, bookkeeping, log) unchanged, whatever the southbound view says. *)
Theorem withdraw_untracked_cr_lrp_noop env sb ips row associated_port s :
  p_type row = OVN_CHASSISREDIRECT_VIF_PORT_TYPE →
  ovn_local_cr_lrps (agent s) !! p_logical_port row = None →
  withdraw_ip env sb ips row associated_port s = (inr tt, s).
Proof.
  intros Hty Hnone. unfold withdraw_ip, is_vm_or_virtual. rewrite Hty. simpl.
  destruct (String.prefix _ _); [|done].
  unfold bind, gets. simpl. rewrite Hnone. done.
Qed.

Lemma withdraw_untracked_cr_lrp_noop_witness :
  withdraw_ip demo_env (demo_sb [] true []) ["2001:db8::1/64"] cr_lrp_1 None started
  = (inr tt, started).
Proof.
  apply (withdraw_untracked_cr_lrp_noop demo_env (demo_sb [] true []) ["2001:db8::1/64"]
           cr_lrp_1 None started); reflexivity.
Defined.

(** ** What [sync] resets and what it keeps *)

Lemma sync_tables_persist env sb s0 :
  inv (tables_persist s0) (λ _, True) (sync env sb).
Proof.
  inv_auto.
  all: unfold tables_persist in *; simpl in *.
  all: match goal with H : _ ∧ _ |- _ => destruct H as [HT HM] end.
  - split; [done|]. rewrite dom_insert. set_solver.
  - match goal with |- context [ovn_routing_tables (agent ?s) !! ?b] =>
      destruct (ovn_routing_tables (agent s) !! b) eqn:Hlk end; simpl; [done|].
    split; [|done]. intros bridge table Hb. rewrite lookup_insert_ne; [by apply HT|].
    intros ->. apply HT in Hb. congruence.
Qed.

(** C9: [sync] starts by emptying [ovn_local_cr_lrps], [ovn_local_lrps] and
    [ovn_routing_tables_routes], so that what it does is the same whatever
    they held; the table id of every bridge in [ovn_routing_tables] is the
    same after [sync], and no name of [ovn_bridge_mappings] is lost. *)
Theorem sync_resets_bookkeeping_keeps_tables env sb s :
  let emptied := with_agent (λ a,
                   set_routes_store ∅ (set_local_lrps ∅ (set_local_cr_lrps ∅ a))) s in
  (reset_bookkeeping s).2 = emptied
  ∧ sync env sb s = sync env sb emptied
  ∧ (∀ bridge table,
       ovn_routing_tables (agent s) !! bridge = Some table →
       ovn_routing_tables (agent (sync env sb s).2) !! bridge = Some table)
  ∧ dom (ovn_bridge_mappings (agent s))
      ⊆ dom (ovn_bridge_mappings (agent (sync env sb s).2)).
Proof.
  intros emptied. split_and!; try done.
  - apply (sync_tables_persist env sb s s). by split.
  - apply (sync_tables_persist env sb s s). by split.
Qed.

Lemma sync_resets_bookkeeping_keeps_tables_witness :
  ovn_routing_tables
    (agent (sync demo_env (demo_sb [provider_vm] false []) two_gateways).2) !! "br-ex"
  = Some 200%Z.
Proof.
  apply (proj1 (proj2 (proj2 (sync_resets_bookkeeping_keeps_tables demo_env
                                (demo_sb [provider_vm] false []) two_gateways)))).
  reflexivity.
Defined.

(** ** Exceptions that reach the caller *)

Lemma no_ipi_sync env sb : inv (λ _, True) not_InvalidPortIP (sync env sb).
Proof. inv_auto. Qed.

Lemma no_ipi_expose_ip env sb ips row ap :
  inv (λ _, True) not_InvalidPortIP (expose_ip env sb ips row ap).
Proof. inv_auto. Qed.

Lemma no_ipi_withdraw_ip env sb ips row ap :
  inv (λ _, True) not_InvalidPortIP (withdraw_ip env sb ips row ap).
Proof. inv_auto. Qed.

Lemma no_ipi_expose_subnet env sb ip row :
  inv (λ _, True) not_InvalidPortIP (expose_subnet env sb ip row).
Proof. inv_auto. Qed.

Lemma no_ipi_withdraw_subnet env sb ip row :
  inv (λ _, True) not_InvalidPortIP (withdraw_subnet env sb ip row).
Proof. inv_auto. Qed.

Lemma inv_no_ipi {A} (m : M A) s bad :
  inv (λ _, True) not_InvalidPortIP m → (m s).1 ≠ inl (InvalidPortIP bad).
Proof. intros Hm He. by destruct (Hm s I) as [_ H]; specialize (H _ He). Qed.


(** ** The loops over the listed IPs *)

Lemma bind_gets {A B} (f : State → A) (k : A → M B) s : bind (gets f) k s = k (f s) s.
Proof. done. Qed.

Lemma routing_table_of_run b t s :
  ovn_routing_tables (agent s) !! b = Some t →
  routing_table_of (Some b) s = (inr (b, t), s).
Proof. intros H. unfold routing_table_of, bind, gets, from_option. simpl. by rewrite H. Qed.

(** The bridge of a datapath depends on the bridge mappings only. *)
Lemma get_bridge_frame sb dp s s' r :
  ovn_bridge_mappings (agent s') = ovn_bridge_mappings (agent s) →
  _get_bridge_for_datapath sb dp s = (inr r, s) →
  _get_bridge_for_datapath sb dp s' = (inr r, s').
Proof.
  intros Hm. unfold _get_bridge_for_datapath, bind, gets, from_option, ret. simpl. rewrite Hm.
  destruct (get_network_name_and_tag sb dp _) as [[name|] tags]; simpl.
  - destruct (truthy name).
    + destruct (ovn_bridge_mappings (agent s) !! name); simpl; [|done].
      destruct tags; simpl; by intros [= <-].
    + by intros [= <-].
  - by intros [= <-].
Qed.

Lemma for_until_cons_none {A R} (x : A) l (body : A → M (option R)) s s' :
  body x s = (inr None, s') → for_until (x :: l) body s = for_until l body s'.
Proof. intros H. simpl. by rewrite (bind_run _ _ _ _ _ H). Qed.

Lemma for_until_cons_some {A R} (x : A) l (body : A → M (option R)) s s' v :
  body x s = (inr (Some v), s') → for_until (x :: l) body s = (inr (Some v), s').
Proof. intros H. simpl. by rewrite (bind_run _ _ _ _ _ H). Qed.

Lemma for_each_cons {A} (x : A) l (body : A → M unit) s s' :
  body x s = (inr tt, s') → for_each (x :: l) body s = for_each l body s'.
Proof. intros H. simpl. by rewrite (bind_run _ _ _ _ _ H). Qed.

Lemma add_rules_and_routes_run env msg b t vlan ips s :
  ovn_routing_tables (agent s) !! b = Some t →
  Forall (λ ip, parsable_ip env ip = true) ips →
  add_rules_and_routes env msg (Some b) vlan ips s
  = (inr None, foldl (exposed_one env b t vlan) s ips).
Proof.
  intros Ht Hok. revert s Ht. induction Hok as [|ip ips Hip Hok IH]; intros s Ht; [done|].
  unfold add_rules_and_routes in *.
  rewrite (for_until_cons_none _ _ _ _ (exposed_one env b t vlan s ip)); [apply IH|].
  - exact Ht.
  - unfold try_except, bind. rewrite (routing_table_of_run b t s Ht). simpl.
    unfold linux_net.add_ip_rule. rewrite Hip. simpl.
    rewrite (routing_table_of_run b t); [done | exact Ht].
Qed.

(** With an IP that [add_ip_rule] rejects, the loop stops there: the IPs
    before it are done, the failure is logged, and the method returns. *)
Lemma add_rules_and_routes_stop env msg b t vlan pre bad post s :
  ovn_routing_tables (agent s) !! b = Some t →
  Forall (λ ip, parsable_ip env ip = true) pre →
  parsable_ip env bad = false →
  add_rules_and_routes env msg (Some b) vlan (pre ++ bad :: post) s
  = (inr (Some tt),
     with_log (λ l, l ++ [msg +:+ bad]) (foldl (exposed_one env b t vlan) s pre)).
Proof.
  intros Ht Hok Hbad. revert s Ht. induction Hok as [|ip ips Hip Hok IH]; intros s Ht.
  - unfold add_rules_and_routes. simpl app.
    rewrite (for_until_cons_some _ _ _ _ (with_log (λ l, l ++ [msg +:+ bad]) s) tt); [done|].
    unfold try_except, bind. rewrite (routing_table_of_run b t s Ht). simpl.
    unfold linux_net.add_ip_rule. by rewrite Hbad.
  - unfold add_rules_and_routes in *. simpl app.
    rewrite (for_until_cons_none _ _ _ _ (exposed_one env b t vlan s ip)); [apply IH|].
    + exact Ht.
    + unfold try_except, bind. rewrite (routing_table_of_run b t s Ht). simpl.
      unfold linux_net.add_ip_rule. rewrite Hip. simpl.
      rewrite (routing_table_of_run b t); [done | exact Ht].
Qed.

Lemma del_rules_and_routes_run env b t vlan ips s :
  ovn_routing_tables (agent s) !! b = Some t →
  del_rules_and_routes env (Some b) vlan ips s
  = (inr tt, foldl (withdrawn_one env b t vlan) s ips).
Proof.
  revert s. induction ips as [|ip ips IH]; intros s Ht; [done|].
  unfold del_rules_and_routes in *.
  rewrite (for_each_cons _ _ _ _ (withdrawn_one env b t vlan s ip)); [apply IH|].
  - exact Ht.
  - unfold bind. rewrite (routing_table_of_run b t s Ht). simpl.
    rewrite (routing_table_of_run b t); [done | exact Ht].
Qed.

(** The kernel surface after the rounds of the two loops. *)
Lemma exposed_kernel env b t vlan l s :
  kernel (foldl (exposed_one env b t vlan) s l)
  = set_ip_routes
      (k_ip_routes (kernel s)
       ∪ list_to_set ((λ ip, linux_net.mk_route env ip t b vlan None None) <$> l))
      (set_ip_rules
         (foldl (λ R ip, <[linux_net.rule_dst env ip := (t, None)]> R)
            (k_ip_rules (kernel s)) l)
         (kernel s)).
Proof.
  revert s. induction l as [|ip l IH]; intros s; simpl.
  - destruct (kernel s); unfold set_ip_routes, set_ip_rules; simpl.
    f_equal. by rewrite union_empty_r_L.
  - rewrite IH. destruct s as [a [] lg]; unfold set_ip_routes, set_ip_rules; simpl.
    f_equal. by rewrite (assoc_L (∪)).
Qed.

Lemma withdrawn_kernel env b t vlan l s :
  kernel (foldl (withdrawn_one env b t vlan) s l)
  = set_ip_routes
      (k_ip_routes (kernel s)
       ∖ list_to_set ((λ ip, linux_net.mk_route env ip t b vlan None None) <$> l))
      (set_ip_rules
         (foldl (λ R ip, delete (linux_net.rule_dst env ip) R) (k_ip_rules (kernel s)) l)
         (kernel s)).
Proof.
  revert s. induction l as [|ip l IH]; intros s; simpl.
  - destruct (kernel s); unfold set_ip_routes, set_ip_rules; simpl.
    f_equal. by rewrite difference_empty_L.
  - rewrite IH. destruct s as [a [] lg]; unfold set_ip_routes, set_ip_rules; simpl.
    f_equal. by rewrite difference_difference_l_L.
Qed.

Lemma exposed_store env b t vlan l s :
  ovn_routing_tables_routes (agent (foldl (exposed_one env b t vlan) s l))
  = foldl (λ S ip, <[b := default ∅ (S !! b)
                          ∪ {[linux_net.mk_route env ip t b vlan None None]}]> S)
      (ovn_routing_tables_routes (agent s)) l.
Proof. revert s. induction l as [|ip l IH]; intros s; simpl; [done|]. by rewrite IH. Qed.

Lemma exposed_log env b t vlan l s :
  log (foldl (exposed_one env b t vlan) s l) = log s.
Proof. revert s. induction l as [|ip l IH]; intros s; simpl; [done|]. by rewrite IH. Qed.

Lemma withdrawn_agent_frame env b t vlan l s :
  ovn_routing_tables (agent (foldl (withdrawn_one env b t vlan) s l))
    = ovn_routing_tables (agent s)
  ∧ ovn_bridge_mappings (agent (foldl (withdrawn_one env b t vlan) s l))
    = ovn_bridge_mappings (agent s).
Proof. revert s. induction l as [|ip l IH]; intros s; simpl; [done|]. by rewrite !(proj1 (IH _)), !(proj2 (IH _)). Qed.

Lemma exposed_agent_frame env b t vlan l s :
  ovn_routing_tables (agent (foldl (exposed_one env b t vlan) s l))
    = ovn_routing_tables (agent s)
  ∧ ovn_bridge_mappings (agent (foldl (exposed_one env b t vlan) s l))
    = ovn_bridge_mappings (agent s)
  ∧ chassis (agent (foldl (exposed_one env b t vlan) s l)) = chassis (agent s).
Proof.
  revert s. induction l as [|ip l IH]; intros s; simpl; [done|].
  destruct (IH (exposed_one env b t vlan s ip)) as (-> & -> & ->). done.
Qed.


(** For the rows of [exposes_listed_ips], [expose_ip] is: the addresses
    on the device, the bridge, then the loop. *)
Lemma expose_listed_run env sb ips row ap s :
  exposes_listed_ips sb row ap s = true →
  expose_ip env sb ips row ap s
  = (linux_net.add_ips_to_dev ips ;;
     bv <- _get_bridge_for_datapath sb (p_datapath row) ;;
     add_rules_and_routes env (invalid_ip_msg row) bv.1 bv.2 ips ;;
     ret tt) s.
Proof.
  unfold exposes_listed_ips, expose_ip, _expose_ip, invalid_ip_msg.
  destruct (is_vm_or_virtual row); simpl.
  - rewrite orb_false_r. intros ->.
    unfold bind. simpl.
    destruct (_get_bridge_for_datapath sb (p_datapath row) _) as [[e|bv] s1]; [done|].
    by destruct (add_rules_and_routes _ _ _ _ _ _) as [[e|r] s2].
  - destruct (String.eqb (p_type row) OVN_PATCH_VIF_PORT_TYPE); simpl; [|done].
    destruct ap as [port|]; [|done]. intros Hp.
    unfold bind at 1. rewrite bind_gets, Hp.
    unfold bind. simpl.
    destruct (_get_bridge_for_datapath sb (p_datapath row) _) as [[e|bv] s1]; [done|].
    by destruct (add_rules_and_routes _ _ _ _ _ _) as [[e|r] s2].
Qed.

Lemma withdraw_listed_run env sb ips row ap s :
  exposes_listed_ips sb row ap s = true →
  withdraw_ip env sb ips row ap s
  = (linux_net.del_ips_from_dev ips ;;
     bv <- _get_bridge_for_datapath sb (p_datapath row) ;;
     del_rules_and_routes env bv.1 bv.2 ips) s.
Proof.
  unfold exposes_listed_ips, withdraw_ip.
  destruct (is_vm_or_virtual row); simpl.
  - rewrite orb_false_r. by intros ->.
  - destruct (String.eqb (p_type row) OVN_PATCH_VIF_PORT_TYPE); simpl; [|done].
    destruct ap as [port|]; [|done]. intros [Hp1 Hp2]%andb_prop.
    rewrite bind_gets. by rewrite Hp1, Hp2.
Qed.

(** ** An address that [add_ip_rule] rejects *)

Lemma expose_listed_stop env sb row ap pre bad post s b vlan t :
  exposes_listed_ips sb row ap s = true →
  _get_bridge_for_datapath sb (p_datapath row) s = (inr (Some b, vlan), s) →
  ovn_routing_tables (agent s) !! b = Some t →
  Forall (λ ip, parsable_ip env ip = true) pre →
  parsable_ip env bad = false →
  expose_ip env sb (pre ++ bad :: post) row ap s
  = (inr tt,
     with_log (λ l, l ++ [invalid_ip_msg row +:+ bad])
       (foldl (exposed_one env b t vlan)
          (linux_net.add_ips_to_dev (pre ++ bad :: post) s).2 pre)).
Proof.
  intros Hrow Hbr Ht Hpre Hbad. rewrite expose_listed_run by done.
  set (s1 := (linux_net.add_ips_to_dev (pre ++ bad :: post) s).2).
  assert (linux_net.add_ips_to_dev (pre ++ bad :: post) s = (inr tt, s1)) as H1 by done.
  assert (_get_bridge_for_datapath sb (p_datapath row) s1 = (inr (Some b, vlan), s1)) as H2
    by (by apply (get_bridge_frame sb _ s)).
  rewrite (bind_run _ _ _ _ _ H1), (bind_run _ _ _ _ _ H2).
  erewrite bind_run; [done|].
  by apply add_rules_and_routes_stop.
Qed.

Lemma expose_listed_ok env sb row ap ips s b vlan t :
  exposes_listed_ips sb row ap s = true →
  _get_bridge_for_datapath sb (p_datapath row) s = (inr (Some b, vlan), s) →
  ovn_routing_tables (agent s) !! b = Some t →
  Forall (λ ip, parsable_ip env ip = true) ips →
  expose_ip env sb ips row ap s
  = (inr tt, foldl (exposed_one env b t vlan) (linux_net.add_ips_to_dev ips s).2 ips).
Proof.
  intros Hrow Hbr Ht Hips. rewrite expose_listed_run by done.
  set (s1 := (linux_net.add_ips_to_dev ips s).2).
  assert (linux_net.add_ips_to_dev ips s = (inr tt, s1)) as H1 by done.
  assert (_get_bridge_for_datapath sb (p_datapath row) s1 = (inr (Some b, vlan), s1)) as H2
    by (by apply (get_bridge_frame sb _ s)).
  rewrite (bind_run _ _ _ _ _ H1), (bind_run _ _ _ _ _ H2).
  erewrite bind_run; [done|].
  by apply add_rules_and_routes_run.
Qed.

(** C3, as the code has it: when [add_ip_rule] raises [InvalidPortIP] for
    one IP of the list, for a VM on a provider network or for a floating-IP
    patch port, the failure is logged and [expose_ip] returns at once.  Rules,
    routes and route bookkeeping are those of the IPs before the rejected
    one, as if the list had ended there: the rejected IP and the IPs after it
    get none, although every IP of the list is on the dummy device. *)
Theorem expose_ip_stops_at_invalid_ip env sb row ap pre bad post s b vlan t :
  exposes_listed_ips sb row ap s = true →
  _get_bridge_for_datapath sb (p_datapath row) s = (inr (Some b, vlan), s) →
  ovn_routing_tables (agent s) !! b = Some t →
  Forall (λ ip, parsable_ip env ip = true) pre →
  parsable_ip env bad = false →
  (expose_ip env sb (pre ++ bad :: post) row ap s).1 = inr tt
  ∧ k_ip_rules (kernel (expose_ip env sb (pre ++ bad :: post) row ap s).2)
    = k_ip_rules (kernel (expose_ip env sb pre row ap s).2)
  ∧ k_ip_routes (kernel (expose_ip env sb (pre ++ bad :: post) row ap s).2)
    = k_ip_routes (kernel (expose_ip env sb pre row ap s).2)
  ∧ ovn_routing_tables_routes (agent (expose_ip env sb (pre ++ bad :: post) row ap s).2)
    = ovn_routing_tables_routes (agent (expose_ip env sb pre row ap s).2)
  ∧ log (expose_ip env sb (pre ++ bad :: post) row ap s).2
    = log (expose_ip env sb pre row ap s).2 ++ [invalid_ip_msg row +:+ bad]
  ∧ k_dev_ips (kernel (expose_ip env sb (pre ++ bad :: post) row ap s).2)
    = k_dev_ips (kernel s) ∪ list_to_set (pre ++ bad :: post).
Proof.
  intros Hrow Hbr Ht Hpre Hbad.
  rewrite (expose_listed_stop env sb row ap pre bad post s b vlan t) by done.
  rewrite (expose_listed_ok env sb row ap pre s b vlan t) by done.
  simpl. rewrite !exposed_kernel, !exposed_store, !exposed_log. done.
Qed.

Lemma expose_ip_stops_at_invalid_ip_witness :
  k_ip_rules (kernel (expose_ip demo_env (demo_sb [] false [])
                        (["10.0.0.5"] ++ "10.0.0.6//" :: ["10.0.0.7"])
                        provider_vm None started).2)
  = k_ip_rules (kernel (expose_ip demo_env (demo_sb [] false []) ["10.0.0.5"]
                          provider_vm None started).2).
Proof.
  refine (proj1 (proj2 (expose_ip_stops_at_invalid_ip demo_env (demo_sb [] false [])
            provider_vm None ["10.0.0.5"] "10.0.0.6//" ["10.0.0.7"] started
            "br-ex" None 200%Z _ _ _ _ _))).
  - reflexivity.
  - reflexivity.
  - reflexivity.
  - repeat constructor.
  - reflexivity.
Defined.

(** C3 fails as stated: with the list [10.0.0.5//], [10.0.0.6] for a VM on
    the provider network, the first address is rejected by [add_ip_rule] and
    the second, which it would accept and which is on the dummy device, is
    left without rule and without route. *)
Lemma invalid_ip_abandons_later_ips :
  parsable_ip demo_env "10.0.0.5//" = false
  ∧ parsable_ip demo_env "10.0.0.6" = true
  ∧ (expose_ip demo_env (demo_sb [] false []) ["10.0.0.5//"; "10.0.0.6"]
       provider_vm None started).1 = inr tt
  ∧ "10.0.0.6" ∈ k_dev_ips (kernel (expose_ip demo_env (demo_sb [] false [])
                      ["10.0.0.5//"; "10.0.0.6"] provider_vm None started).2)
  ∧ k_ip_rules (kernel (expose_ip demo_env (demo_sb [] false [])
                  ["10.0.0.5//"; "10.0.0.6"] provider_vm None started).2) = ∅
  ∧ k_ip_routes (kernel (expose_ip demo_env (demo_sb [] false [])
                   ["10.0.0.5//"; "10.0.0.6"] provider_vm None started).2) = ∅.
Proof. split_and!; reflexivity. Qed.

(** ** An unresolved bridge *)

Lemma expose_listed_unresolved env sb row ap ip ips s vlan :
  exposes_listed_ips sb row ap s = true →
  _get_bridge_for_datapath sb (p_datapath row) s = (inr (None, vlan), s) →
  expose_ip env sb (ip :: ips) row ap s
  = (inl KeyError, (linux_net.add_ips_to_dev (ip :: ips) s).2).
Proof.
  intros Hrow Hbr. rewrite expose_listed_run by done.
  set (s1 := (linux_net.add_ips_to_dev (ip :: ips) s).2).
  assert (linux_net.add_ips_to_dev (ip :: ips) s = (inr tt, s1)) as H1 by done.
  assert (_get_bridge_for_datapath sb (p_datapath row) s1 = (inr (None, vlan), s1)) as H2
    by (by apply (get_bridge_frame sb _ s)).
  by rewrite (bind_run _ _ _ _ _ H1), (bind_run _ _ _ _ _ H2).
Qed.

(** C2, as the code has it: an [InvalidPortIP] raised by [add_ip_rule]
    never leaves a public method of the driver, whatever the row and the
    state, and [expose_remote_ip] and [withdraw_remote_ip] raise nothing.
    An unresolved bridge is not skipped: for a VM on a provider network or a
    floating-IP patch port, [expose_ip] puts the addresses on the dummy device
    and the look-up of the routing table raises [KeyError] to the caller. *)
Theorem no_InvalidPortIP_reaches_caller env sb s ips ip row associated_port bad :
  (sync env sb s).1 ≠ inl (InvalidPortIP bad)
  ∧ (expose_ip env sb ips row associated_port s).1 ≠ inl (InvalidPortIP bad)
  ∧ (withdraw_ip env sb ips row associated_port s).1 ≠ inl (InvalidPortIP bad)
  ∧ (expose_subnet env sb ip row s).1 ≠ inl (InvalidPortIP bad)
  ∧ (withdraw_subnet env sb ip row s).1 ≠ inl (InvalidPortIP bad)
  ∧ (expose_remote_ip sb ips row s).1 = inr tt
  ∧ (withdraw_remote_ip sb ips row s).1 = inr tt
  ∧ (∀ vlan,
       exposes_listed_ips sb row associated_port s = true →
       _get_bridge_for_datapath sb (p_datapath row) s = (inr (None, vlan), s) →
       expose_ip env sb (ip :: ips) row associated_port s
       = (inl KeyError,
          with_kernel (λ k, set_dev_ips (k_dev_ips k ∪ list_to_set (ip :: ips)) k) s)).
Proof.
  split_and!.
  - apply inv_no_ipi, no_ipi_sync.
  - apply inv_no_ipi, no_ipi_expose_ip.
  - apply inv_no_ipi, no_ipi_withdraw_ip.
  - apply inv_no_ipi, no_ipi_expose_subnet.
  - apply inv_no_ipi, no_ipi_withdraw_subnet.
  - by rewrite (proj1 (remote_ip_dev_only sb ips row s)).
  - by rewrite (proj2 (remote_ip_dev_only sb ips row s)).
  - intros vlan Hrow Hbr. by rewrite (expose_listed_unresolved env sb row _ ip ips s vlan).
Qed.

Lemma no_InvalidPortIP_reaches_caller_witness :
  expose_ip demo_env (demo_sb [] false []) ["10.0.0.5"; "10.0.0.6"] provider_vm None unmapped
  = (inl KeyError,
     with_kernel (λ k, set_dev_ips (k_dev_ips k ∪ list_to_set ["10.0.0.5"; "10.0.0.6"]) k)
       unmapped).
Proof.
  refine (proj2 (proj2 (proj2 (proj2 (proj2 (proj2 (proj2
            (no_InvalidPortIP_reaches_caller demo_env (demo_sb [] false []) unmapped
               ["10.0.0.6"] "10.0.0.5" provider_vm None "")))))))
            None _ _); reflexivity.
Defined.

(** C2 fails as stated: when the bridge of the datapath is not resolved,
    [expose_ip] for a VM on the provider network does not skip the step: the
    address is put on the dummy device and the look-up of the routing table
    raises [KeyError] to the caller. *)
Lemma expose_ip_unresolved_bridge_raises :
  _get_bridge_for_datapath (demo_sb [] false []) (p_datapath provider_vm) unmapped
    = (inr (None, None), unmapped)
  ∧ (expose_ip demo_env (demo_sb [] false []) ["10.0.0.5"] provider_vm None unmapped).1
    = inl KeyError
  ∧ k_dev_ips (kernel (expose_ip demo_env (demo_sb [] false []) ["10.0.0.5"]
                         provider_vm None unmapped).2) = {["10.0.0.5"]}.
Proof. split_and!; reflexivity. Qed.

(** ** Expose, then withdraw *)

Lemma lookup_foldl_delete {V} (f : string → string) (l : list string)
    (R : gmap string V) k :
  foldl (λ R ip, delete (f ip) R) R l !! k
  = if decide (k ∈ f <$> l) then None else R !! k.
Proof.
  revert R. induction l as [|ip l IH]; intros R.
  - done.
  - simpl foldl. rewrite IH. rewrite fmap_cons.
    destruct (decide (k ∈ f <$> l)) as [Hin|Hout].
    + rewrite decide_True; [done | by right].
    + destruct (decide (k = f ip)) as [->|Hne].
      * rewrite decide_True by left. apply lookup_delete_eq.
      * rewrite decide_False; [by apply lookup_delete_ne |].
        by intros [?|?]%elem_of_cons.
Qed.

Lemma lookup_foldl_insert_fresh {V} (f : string → string) (v : V) (l : list string)
    (R : gmap string V) k :
  k ∉ f <$> l →
  foldl (λ R ip, <[f ip := v]> R) R l !! k = R !! k.
Proof.
  revert R. induction l as [|ip l IH]; intros R Hk; simpl; [done|].
  rewrite IH by set_solver. apply lookup_insert_ne. set_solver.
Qed.

Lemma foldl_insert_delete {V} (f : string → string) (v : V) (l : list string)
    (R : gmap string V) :
  (∀ ip, ip ∈ l → R !! f ip = None) →
  foldl (λ R ip, delete (f ip) R) (foldl (λ R ip, <[f ip := v]> R) R l) l = R.
Proof.
  intros Hfresh. apply map_eq. intros k.
  rewrite lookup_foldl_delete. destruct (decide (k ∈ f <$> l)) as [Hin|Hout].
  - apply list_elem_of_fmap in Hin as (ip & -> & Hip). symmetry. by apply Hfresh.
  - by apply lookup_foldl_insert_fresh.
Qed.

Lemma withdraw_listed_all env sb row ap ips s b vlan t :
  exposes_listed_ips sb row ap s = true →
  _get_bridge_for_datapath sb (p_datapath row) s = (inr (Some b, vlan), s) →
  ovn_routing_tables (agent s) !! b = Some t →
  withdraw_ip env sb ips row ap s
  = (inr tt, foldl (withdrawn_one env b t vlan) (linux_net.del_ips_from_dev ips s).2 ips).
Proof.
  intros Hrow Hbr Ht. rewrite withdraw_listed_run by done.
  set (s1 := (linux_net.del_ips_from_dev ips s).2).
  assert (linux_net.del_ips_from_dev ips s = (inr tt, s1)) as H1 by done.
  assert (_get_bridge_for_datapath sb (p_datapath row) s1 = (inr (Some b, vlan), s1)) as H2
    by (by apply (get_bridge_frame sb _ s)).
  rewrite (bind_run _ _ _ _ _ H1), (bind_run _ _ _ _ _ H2).
  by apply del_rules_and_routes_run.
Qed.

Lemma expose_addresses_ok env sb row ap ips s dp eff b vlan t :
  exposed_addresses sb row ap s ips = Some (dp, eff) →
  _get_bridge_for_datapath sb dp s = (inr (Some b, vlan), s) →
  ovn_routing_tables (agent s) !! b = Some t →
  Forall (λ ip, parsable_ip env ip = true) eff →
  expose_ip env sb ips row ap s
  = (inr tt, foldl (exposed_one env b t vlan) (linux_net.add_ips_to_dev eff s).2 eff).
Proof.
  unfold exposed_addresses. intros Hrow Hbr Ht Heff.
  destruct (is_vm_or_virtual row) eqn:Hvm.
  - destruct (is_provider_network sb (p_datapath row)) eqn:Hprov.
    + injection Hrow as <- <-. apply expose_listed_ok; try done.
      unfold exposes_listed_ips. by rewrite Hvm, Hprov.
    + destruct (get_fip_associated sb (p_logical_port row)) as [[fip fip_dp]|] eqn:Hfip;
        [|done].
      destruct (truthy fip) eqn:Hfip_ok; [|done]. injection Hrow as <- <-.
      apply Forall_cons in Heff as [Hok _].
      unfold expose_ip, _expose_ip. rewrite Hvm, Hprov, Hfip, Hfip_ok. simpl.
      set (s1 := (linux_net.add_ips_to_dev [fip] s).2).
      assert (linux_net.add_ips_to_dev [fip] s = (inr tt, s1)) as H1 by done.
      assert (_get_bridge_for_datapath sb fip_dp s1 = (inr (Some b, vlan), s1)) as H2
        by (by apply (get_bridge_frame sb _ s)).
      unfold bind at 1.
      rewrite (bind_run _ _ _ _ _ H1), (bind_run _ _ _ _ _ H2). cbn [fst snd].
      unfold try_except, bind. rewrite (routing_table_of_run b t s1 Ht). simpl.
      unfold linux_net.add_ip_rule. rewrite Hok. simpl.
      rewrite (routing_table_of_run b t); [done | exact Ht].
  - destruct (exposes_listed_ips sb row ap s) eqn:Hl; [|done].
    injection Hrow as <- <-. by apply expose_listed_ok.
Qed.

Lemma withdraw_addresses_all env sb row ap ips s dp eff b vlan t :
  exposed_addresses sb row ap s ips = Some (dp, eff) →
  _get_bridge_for_datapath sb dp s = (inr (Some b, vlan), s) →
  ovn_routing_tables (agent s) !! b = Some t →
  withdraw_ip env sb ips row ap s
  = (inr tt, foldl (withdrawn_one env b t vlan) (linux_net.del_ips_from_dev eff s).2 eff).
Proof.
  unfold exposed_addresses. intros Hrow Hbr Ht.
  destruct (is_vm_or_virtual row) eqn:Hvm.
  - destruct (is_provider_network sb (p_datapath row)) eqn:Hprov.
    + injection Hrow as <- <-. apply withdraw_listed_all; try done.
      unfold exposes_listed_ips. by rewrite Hvm, Hprov.
    + destruct (get_fip_associated sb (p_logical_port row)) as [[fip fip_dp]|] eqn:Hfip;
        [|done].
      destruct (truthy fip) eqn:Hfip_ok; [|done]. injection Hrow as <- <-.
      unfold withdraw_ip. rewrite Hvm, Hprov, Hfip, Hfip_ok. simpl.
      set (s1 := (linux_net.del_ips_from_dev [fip] s).2).
      assert (linux_net.del_ips_from_dev [fip] s = (inr tt, s1)) as H1 by done.
      assert (_get_bridge_for_datapath sb fip_dp s1 = (inr (Some b, vlan), s1)) as H2
        by (by apply (get_bridge_frame sb _ s)).
      rewrite (bind_run _ _ _ _ _ H1), (bind_run _ _ _ _ _ H2). cbn [fst snd].
      unfold bind. rewrite (routing_table_of_run b t s1 Ht). simpl.
      rewrite (routing_table_of_run b t); [done | exact Ht].
  - destruct (exposes_listed_ips sb row ap s) eqn:Hl; [|done].
    injection Hrow as <- <-. by apply withdraw_listed_all.
Qed.

(** What a row exposes depends on the chassis name only. *)
Lemma exposed_addresses_frame sb row ap s s' ips :
  chassis (agent s') = chassis (agent s) →
  exposed_addresses sb row ap s' ips = exposed_addresses sb row ap s ips.
Proof. intros Hc. unfold exposed_addresses, exposes_listed_ips. by rewrite Hc. Qed.

(** C7, as the code has it: for a row that is not a router gateway (a VM
    or virtual port on a provider network, a VM with a floating IP, a
    floating-IP patch port whose associated port is on this chassis), with
    the bridge of the relevant datapath resolved and assigned a routing table,
    and exposed addresses that [add_ip_rule] accepts and of which the kernel
    surface held neither the address, nor the rule, nor the on-link route,
    [expose_ip] followed by [withdraw_ip] on the same row returns the whole
    kernel surface to what it was; the routing-table assignment is untouched. *)
Theorem expose_then_withdraw_restores env sb row ap ips s dp eff b vlan t :
  exposed_addresses sb row ap s ips = Some (dp, eff) →
  _get_bridge_for_datapath sb dp s = (inr (Some b, vlan), s) →
  ovn_routing_tables (agent s) !! b = Some t →
  Forall (λ ip, parsable_ip env ip = true) eff →
  (∀ ip, ip ∈ eff →
     (ip ∉ k_dev_ips (kernel s))
     ∧ k_ip_rules (kernel s) !! linux_net.rule_dst env ip = None
     ∧ (linux_net.mk_route env ip t b vlan None None ∉ k_ip_routes (kernel s))) →
  (expose_ip env sb ips row ap s).1 = inr tt
  ∧ (withdraw_ip env sb ips row ap (expose_ip env sb ips row ap s).2).1 = inr tt
  ∧ kernel (withdraw_ip env sb ips row ap (expose_ip env sb ips row ap s).2).2 = kernel s
  ∧ ovn_routing_tables (agent (withdraw_ip env sb ips row ap (expose_ip env sb ips row ap s).2).2)
    = ovn_routing_tables (agent s).
Proof.
  intros Hrow Hbr Ht Hips Hfresh.
  rewrite (expose_addresses_ok env sb row ap ips s dp eff b vlan t) by done.
  simpl fst. simpl snd.
  set (s1 := foldl _ _ eff).
  destruct (exposed_agent_frame env b t vlan eff (linux_net.add_ips_to_dev eff s).2)
    as (HT & HM & HC). fold s1 in HT, HM, HC.
  change (ovn_routing_tables (agent s1) = ovn_routing_tables (agent s)) in HT.
  change (ovn_bridge_mappings (agent s1) = ovn_bridge_mappings (agent s)) in HM.
  change (chassis (agent s1) = chassis (agent s)) in HC.
  rewrite (withdraw_addresses_all env sb row ap ips s1 dp eff b vlan t).
  - simpl fst. simpl snd. split_and!; [done|done| |].
    + rewrite withdrawn_kernel. simpl. unfold s1. rewrite exposed_kernel. simpl.
      destruct (kernel s) as [vrfs nv ifs an vd dev rules routes ndp flows] eqn:Hk.
      unfold set_ip_routes, set_ip_rules, set_dev_ips. simpl. f_equal.
      * assert (∀ ip, ip ∈ eff → ip ∉ dev) as Hd by (intros ip Hip; by apply Hfresh).
        set_solver.
      * apply foldl_insert_delete. intros ip Hip. by apply Hfresh.
      * assert (∀ ip, ip ∈ eff → linux_net.mk_route env ip t b vlan None None ∉ routes)
          as Hr by (intros ip Hip; by apply Hfresh).
        set_solver.
    + rewrite (proj1 (withdrawn_agent_frame _ _ _ _ _ _)). done.
  - by rewrite (exposed_addresses_frame sb row ap s s1).
  - apply (get_bridge_frame sb _ s); done.
  - by rewrite HT.
Qed.

Lemma expose_then_withdraw_restores_witness :
  kernel (withdraw_ip demo_env (demo_sb [] false []) ["10.0.0.5"] provider_vm None
            (expose_ip demo_env (demo_sb [] false []) ["10.0.0.5"] provider_vm None
               started).2).2
  = kernel started.
Proof.
  refine (proj1 (proj2 (proj2 (expose_then_withdraw_restores demo_env (demo_sb [] false [])
            provider_vm None ["10.0.0.5"] started "dp-public" ["10.0.0.5"]
            "br-ex" None 200%Z _ _ _ _ _)))).
  - reflexivity.
  - reflexivity.
  - reflexivity.
  - repeat constructor.
  - intros ip ->%list_elem_of_singleton. split_and!; [set_solver | reflexivity | set_solver].
Defined.

(** C7 fails as stated: exposing and then withdrawing the router gateway
    [cr-lrp-1] with its IPv6 address leaves an NDP proxy entry on the bridge
    that was not there before, since no other gateway shares the provider
    datapath. *)
Lemma expose_withdraw_leaves_ndp_proxy :
  (expose_ip demo_env (demo_sb [] true []) ["2001:db8::1/64"] cr_lrp_1 None started).1
    = inr tt
  ∧ (withdraw_ip demo_env (demo_sb [] true []) ["2001:db8::1/64"] cr_lrp_1 None
       (expose_ip demo_env (demo_sb [] true []) ["2001:db8::1/64"] cr_lrp_1 None
          started).2).1 = inr tt
  ∧ k_ndp_proxies (kernel started) = ∅
  ∧ k_ndp_proxies
      (kernel (withdraw_ip demo_env (demo_sb [] true []) ["2001:db8::1/64"] cr_lrp_1 None
                 (expose_ip demo_env (demo_sb [] true []) ["2001:db8::1/64"] cr_lrp_1 None
                    started).2).2)
    = {[("2001:db8::1", "br-ex", None)]}.
Proof. split_and!; reflexivity. Qed.

(** ** The NDP proxy of a withdrawn gateway *)

(** A loop whose rounds all return is a fold of its rounds. *)
Lemma for_each_run {A} (l : list A) (body : A → M unit) (step : State → A → State)
    (P : State → Prop) s :
  P s →
  (∀ s x, P s → x ∈ l → body x s = (inr tt, step s x) ∧ P (step s x)) →
  for_each l body s = (inr tt, foldl step s l).
Proof.
  revert s. induction l as [|x l IH]; intros s Hs Hbody; [done|].
  destruct (Hbody s x Hs) as [Hx HP]; [left|].
  rewrite (for_each_cons _ _ _ _ _ Hx). apply IH; [done|].
  intros s' y Hs' Hy. apply Hbody; [done | by right].
Qed.

Lemma split_on_head sep s w ws : split_on sep s = w :: ws → split_on sep w = [w].
Proof.
  revert w ws. induction s as [|c s IH]; intros w ws; simpl.
  - by intros [= <- <-].
  - destruct (Ascii.eqb c sep) eqn:Hc.
    + by intros [= <- <-].
    + destruct (split_on sep s) as [|w' ws'] eqn:Hs.
      * intros [= <- <-]. simpl. by rewrite Hc.
      * intros [= <- <-]. simpl. rewrite Hc. by rewrite (IH w' ws').
Qed.

Lemma without_mask_idemp ip : without_mask (without_mask ip) = without_mask ip.
Proof.
  unfold without_mask. destruct (split_on SLASH ip) as [|w ws] eqn:Hs.
  - by destruct (split_on_nonempty SLASH ip).
  - by rewrite (split_on_head _ _ _ _ Hs).
Qed.

(** More than one tracked gateway is on the provider datapath of a tracked
    gateway exactly when it has a sibling there. *)
Lemma same_provider_sibling s port info :
  ovn_local_cr_lrps (agent s) !! port = Some info →
  1 < length (cr_lrps_on_same_provider (ovn_local_cr_lrps (agent s)) (provider_datapath info))
  ↔ has_sibling s port (provider_datapath info).
Proof.
  intros Hport. unfold cr_lrps_on_same_provider, has_sibling.
  set (m := ovn_local_cr_lrps (agent s)) in *.
  set (P := λ p : CrLrpInfo, provider_datapath p = provider_datapath info).
  assert (map_to_list m ≡ₚ (port, info) :: map_to_list (delete port m)) as Hperm.
  { rewrite <-(insert_delete_id m port info) at 1 by done.
    apply map_to_list_insert, lookup_delete_eq. }
  rewrite Hperm. rewrite fmap_cons. simpl. rewrite filter_cons_True by done. simpl.
  split.
  - intros Hlen.
    destruct (filter P (map_to_list (delete port m)).*2) as [|p rest] eqn:Hf; [simpl in *; lia|].
    assert (p ∈ filter P (map_to_list (delete port m)).*2) as Hp by (rewrite Hf; left).
    apply list_elem_of_filter in Hp as [HP Hp].
    apply list_elem_of_fmap in Hp as ([other info'] & -> & Hin).
    apply elem_of_map_to_list in Hin.
    apply lookup_delete_Some in Hin as [Hne Hin].
    by exists other, info'.
  - intros (other & info' & Hne & Hin & HP).
    assert (info' ∈ filter P (map_to_list (delete port m)).*2) as Hp.
    { apply list_elem_of_filter. split; [done|].
      apply list_elem_of_fmap. exists (other, info'). split; [done|].
      apply elem_of_map_to_list. by rewrite lookup_delete_ne. }
    destruct (filter P _); [by apply elem_of_nil in Hp | simpl; lia].
Qed.

Lemma cr_withdrawn_frame env b t vlan lladdr dp l s :
  ovn_routing_tables (agent (foldl (cr_withdrawn_one env b t vlan lladdr dp) s l))
    = ovn_routing_tables (agent s)
  ∧ ovn_local_cr_lrps (agent (foldl (cr_withdrawn_one env b t vlan lladdr dp) s l))
    = ovn_local_cr_lrps (agent s).
Proof.
  revert s. induction l as [|ip l IH]; intros s; [done|]. simpl foldl.
  destruct (IH (cr_withdrawn_one env b t vlan lladdr dp s ip)) as [-> ->].
  unfold cr_withdrawn_one. simpl. by destruct (_ && _).
Qed.

(** What the rounds leave of the NDP proxies. *)
Lemma cr_withdrawn_ndp env b t vlan lladdr dp l s e :
  e ∈ k_ndp_proxies (kernel (foldl (cr_withdrawn_one env b t vlan lladdr dp) s l))
  ↔ e ∈ k_ndp_proxies (kernel s)
    ∧ ¬ (1 < length (cr_lrps_on_same_provider (ovn_local_cr_lrps (agent s)) dp)
         ∧ ∃ ip, ip ∈ l ∧ get_ip_version env ip = IP_VERSION_6
                 ∧ e = (without_mask ip, b, vlan)).
Proof.
  revert s. induction l as [|ip l IH]; intros s.
  - simpl. split; [|by intros [? _]]. intros He. split; [done|].
    intros (_ & ip & Hip & _). by apply elem_of_nil in Hip.
  - simpl foldl. rewrite IH. clear IH.
    assert (ovn_local_cr_lrps (agent (cr_withdrawn_one env b t vlan lladdr dp s ip))
            = ovn_local_cr_lrps (agent s)) as ->.
    { apply (proj2 (cr_withdrawn_frame env b t vlan lladdr dp [ip] s)). }
    unfold cr_withdrawn_one. simpl.
    destruct (Z.eqb_spec (get_ip_version env ip) IP_VERSION_6) as [Hv|Hv]; simpl.
    + case_bool_decide as Hsib; simpl.
      * rewrite elem_of_difference, elem_of_singleton. split.
        -- intros [[He Hne] Hno]. split; [done|]. intros (_ & ip' & [->|Hip']%elem_of_cons & Hv' & ->).
           ++ done.
           ++ apply Hno. split; [done|]. by exists ip'.
        -- intros [He Hno]. split_and!; [done| |].
           ++ intros ->. apply Hno. split; [done|]. exists ip. split_and!; [left|done|done].
           ++ intros (_ & ip' & Hip' & Hv' & ->). apply Hno. split; [done|].
              exists ip'. split_and!; [by right|done|done].
      * split; intros [He Hno]; (split; [done|]); by intros [? _].
    + split; intros [He Hno]; (split; [done|]); intros (Hs & ip' & Hip' & Hv' & ->); apply Hno;
        (split; [done|]).
      * apply elem_of_cons in Hip' as [->|Hip']; [done|]. by exists ip'.
      * exists ip'. split_and!; [by right|done|done].
Qed.

(** C4: for an IPv6 address of a tracked gateway that [withdraw_ip]
    withdraws, with the bridge of its provider datapath resolved, the NDP
    proxy entry of the address on the bridge is gone afterwards if and only
    if another gateway in [ovn_local_cr_lrps] shares the provider datapath;
    when the withdrawn gateway is the last one there, the entry stays. *)
Theorem withdraw_cr_lrp_ndp_proxy env sb ips row ap s info b vlan t mac0 ip :
  p_type row = OVN_CHASSISREDIRECT_VIF_PORT_TYPE →
  String.prefix "cr-" (p_logical_port row) = true →
  ovn_local_cr_lrps (agent s) !! p_logical_port row = Some info →
  truthy (provider_datapath info) = true →
  _get_bridge_for_datapath sb (provider_datapath info) s = (inr (Some b, vlan), s) →
  ovn_routing_tables (agent s) !! b = Some t →
  p_mac row !! 0 = Some mac0 →
  ip ∈ ips →
  get_ip_version env (without_mask ip) = IP_VERSION_6 →
  (without_mask ip, b, vlan) ∈ k_ndp_proxies (kernel s) →
  (without_mask ip, b, vlan) ∉ k_ndp_proxies (kernel (withdraw_ip env sb ips row ap s).2)
  ↔ has_sibling s (p_logical_port row) (provider_datapath info).
Proof.
  intros Hty Hpre Hport Htruthy Hbr Ht Hmac Hip Hv6 Hndp.
  destruct (split_on SPACE mac0) as [|lladdr rest] eqn:Hsplit;
    [by destruct (split_on_nonempty SPACE mac0)|].
  assert (mac_field_opt row 0 = Some lladdr) as Hll
    by (unfold mac_field_opt; rewrite Hmac; simpl; by rewrite Hsplit).
  unfold withdraw_ip, is_vm_or_virtual. rewrite Hty. simpl. rewrite Hpre.
  rewrite bind_gets, Hport. simpl. rewrite Htruthy.
  set (dp := provider_datapath info) in *.
  set (s1 := (linux_net.del_ips_from_dev (map without_mask ips) s).2).
  assert (linux_net.del_ips_from_dev (map without_mask ips) s = (inr tt, s1)) as H1 by done.
  assert (_get_bridge_for_datapath sb dp s1 = (inr (Some b, vlan), s1)) as H2
    by (by apply (get_bridge_frame sb _ s)).
  rewrite (bind_run _ _ _ _ _ H1), (bind_run _ _ _ _ _ H2).
  erewrite (bind_run _ _ _ _ _
              (for_each_run _ _ (cr_withdrawn_one env b t vlan lladdr dp)
                 (λ s', ovn_routing_tables (agent s') !! b = Some t) s1 _ _)).
  Unshelve.
  2: exact Ht.
  2: { intros s' x Hs' _. cbn [fst snd]. split.
       - unfold bind at 1. rewrite (routing_table_of_run b t s' Hs').
         unfold bind at 1. rewrite mac_field_run, Hll.
         unfold bind at 1. simpl.
         unfold bind at 1. rewrite (routing_table_of_run b t); [|exact Hs'].
         unfold bind at 1. simpl.
         unfold cr_withdrawn_one, host_dst. simpl.
         destruct (get_ip_version env x =? IP_VERSION_6)%Z; simpl; [|done].
         rewrite bind_gets. simpl. by case_bool_decide.
       - unfold cr_withdrawn_one. simpl. by destruct (_ && _). }
  set (s2 := foldl _ s1 _).
  match goal with |- context [(?m s2).2] =>
    assert (inv (λ s', k_ndp_proxies (kernel s') = k_ndp_proxies (kernel s2)) (λ _, True) m)
      as Hinv by (inv_auto; simpl; congruence)
  end.
  destruct (Hinv s2 eq_refl) as [-> _]. unfold s2.
  rewrite cr_withdrawn_ndp.
  pose proof (same_provider_sibling s (p_logical_port row) info Hport) as Hiff.
  fold dp in Hiff. rewrite <-Hiff. clear Hiff.
  change (ovn_local_cr_lrps (agent s1)) with (ovn_local_cr_lrps (agent s)).
  change (k_ndp_proxies (kernel s1)) with (k_ndp_proxies (kernel s)).
  split.
  - intros Hnot. destruct (decide (1 < length (cr_lrps_on_same_provider
                                     (ovn_local_cr_lrps (agent s)) dp))) as [|Hle]; [done|].
    exfalso. apply Hnot. split; [done|]. by intros [? _].
  - intros Hsib [_ Hno]. apply Hno. split; [done|].
    exists (without_mask ip). split_and!.
    + by apply list_elem_of_fmap_2.
    + done.
    + by rewrite without_mask_idemp.
Qed.

Lemma withdraw_cr_lrp_ndp_proxy_witness :
  ("2001:db8::1", "br-ex", None)
  ∉ k_ndp_proxies (kernel (withdraw_ip demo_env (demo_sb [] true []) ["2001:db8::1/64"]
                             cr_lrp_1 None two_gateways).2).
Proof.
  apply (withdraw_cr_lrp_ndp_proxy demo_env (demo_sb [] true []) ["2001:db8::1/64"]
           cr_lrp_1 None two_gateways (mkCrLrp "dp-router" "dp-public" ["2001:db8::1/64"])
           "br-ex" None 200%Z "fa:16:3e:11:22:33 2001:db8::1/64" "2001:db8::1/64");
    try reflexivity.
  - left.
  - exists "cr-lrp-2", (mkCrLrp "dp-router2" "dp-public" ["2001:db8::2/64"]).
    split_and!; [discriminate | reflexivity | reflexivity].
Defined.

(** ** The gateway of a tenant-subnet route *)

Lemma add_route_via_gateway_family env routes0 (G : string → Prop) v gws cidr rb vlan :
  (∀ g, g ∈ gws → G g) →
  inv (family_routes env routes0 G cidr v) (λ _, True)
    (add_route_via_gateway env gws v cidr rb vlan).
Proof.
  intros Hsub. unfold add_route_via_gateway. unfold_driver. repeat inv_step; try done.
  unfold family_routes in *. simpl. intros r [Hr| ->%elem_of_singleton]%elem_of_union; [auto|].
  right. eexists _, _. split_and!; [done | by apply Hsub | by apply Z.eqb_eq | done].
Qed.

Lemma add_route_via_gateway_none env gws v cidr rb vlan s :
  (∀ g, g ∈ gws → get_ip_version env g ≠ v) →
  add_route_via_gateway env gws v cidr rb vlan s = (inr None, s).
Proof.
  unfold add_route_via_gateway.
  induction gws as [|g gws IH]; intros Hno; simpl; [done|].
  unfold bind at 1.
  destruct (Z.eqb_spec (get_ip_version env g) v) as [Heq|Hne].
  - exfalso. apply (Hno g); [left | done].
  - simpl. apply IH. intros g' Hg'. apply Hno. by right.
Qed.

Ltac family_leaf :=
  try done;
  try (unfold family_routes in *; simpl; by auto).

(** C6: a route that [_ensure_network_exposed] or [expose_subnet] adds is
    the route to the subnet of the LRP interface address through one of the
    IPs of the gateway (without mask) whose IP version is that of the
    interface address, so none is added when the gateway has no IP of that
    version: the loop over the gateway IPs then changes nothing. *)
Theorem tenant_route_same_family env sb router_port gateway snap ip row s r :
  (r ∈ k_ip_routes (kernel (_ensure_network_exposed env sb router_port gateway snap s).2) →
   r ∉ k_ip_routes (kernel s) →
   ∃ g router_port_ip mask,
     mac_field_opt router_port 1 = Some router_port_ip
     ∧ route_via r = Some g
     ∧ g ∈ map without_mask (cr_ips gateway)
     ∧ get_ip_version env g = get_ip_version env router_port_ip
     ∧ route_dst r = without_mask router_port_ip +:+ "/" +:+ mask)
  ∧ (r ∈ k_ip_routes (kernel (expose_subnet env sb ip row s).2) →
     r ∉ k_ip_routes (kernel s) →
     ∃ g mask cr_lrp info,
       is_router_gateway_on_chassis sb (p_datapath row) (chassis (agent s)) = Some cr_lrp
       ∧ ovn_local_cr_lrps (agent s) !! cr_lrp = Some info
       ∧ route_via r = Some g
       ∧ g ∈ map without_mask (cr_ips info)
       ∧ get_ip_version env g = get_ip_version env ip
       ∧ route_dst r = without_mask ip +:+ "/" +:+ mask)
  ∧ (∀ gateway_ips cidr rule_bridge vlan_tag,
       (∀ g, g ∈ gateway_ips → get_ip_version env g ≠ get_ip_version env cidr) →
       add_route_via_gateway env gateway_ips (get_ip_version env cidr) cidr
         rule_bridge vlan_tag s = (inr None, s)).
Proof.
  split_and!.
  - unfold _ensure_network_exposed.
    rewrite (bind_run _ _ _ _ _ (try_mac_field_run router_port 1 s)).
    destruct (mac_field_opt router_port 1) as [rip|] eqn:Hrip; [|done].
    intros Hin Hout.
    match type of Hin with context [(?m s).2] =>
      assert (inv (family_routes env (k_ip_routes (kernel s))
                     (λ g, g ∈ map without_mask (cr_ips gateway)) rip
                     (get_ip_version env rip))
                (λ _, True) m) as Hinv
    end.
    { unfold_driver. repeat inv_step; family_leaf.
      apply add_route_via_gateway_family. auto. }
    destruct (Hinv s) as [HI _]; [by left|].
    destruct (HI r Hin) as [?|(g & mask & Hvia & Hg & Hv & Hdst)]; [done|].
    by exists g, rip, mask.
  - unfold expose_subnet. rewrite bind_gets.
    destruct (expose_tenant_networks (agent s)); cbn [negb]; [|done].
    rewrite bind_gets.
    destruct (is_router_gateway_on_chassis sb (p_datapath row) (chassis (agent s)))
      as [cr_lrp|] eqn:Hgw; [|done].
    destruct (truthy cr_lrp); [|done].
    set (s1 := with_agent (λ a,
                 set_local_lrps (ovn_local_lrps a ∪ {[p_logical_port row]}) a) s).
    assert (modify (with_agent (λ a,
              set_local_lrps (ovn_local_lrps a ∪ {[p_logical_port row]}) a)) s = (inr tt, s1))
      as H1 by done.
    rewrite (bind_run _ _ _ _ _ H1). rewrite bind_gets.
    change (ovn_local_cr_lrps (agent s1)) with (ovn_local_cr_lrps (agent s)).
    destruct (ovn_local_cr_lrps (agent s) !! cr_lrp) as [info|] eqn:Hinfo; [|done].
    intros Hin Hout.
    match type of Hin with context [(?m s1).2] =>
      assert (inv (family_routes env (k_ip_routes (kernel s))
                     (λ g, g ∈ map without_mask (cr_ips info)) ip (get_ip_version env ip))
                (λ _, True) m) as Hinv
    end.
    { unfold_driver. repeat inv_step; family_leaf.
      apply add_route_via_gateway_family. auto. }
    destruct (Hinv s1) as [HI _]; [by left|].
    destruct (HI r Hin) as [?|(g & mask & Hvia & Hg & Hv & Hdst)]; [done|].
    by exists g, mask, cr_lrp, info.
  - intros. by apply add_route_via_gateway_none.
Qed.

Lemma tenant_route_same_family_witness :
  ∃ g mask cr_lrp info,
    is_router_gateway_on_chassis (demo_sb [] true [lrp_1]) (p_datapath lrp_1)
      (chassis (agent gateway_exposed)) = Some cr_lrp
    ∧ ovn_local_cr_lrps (agent gateway_exposed) !! cr_lrp = Some info
    ∧ route_via ("2001:db8:1::1/64", 200%Z, "br-ex", None, Some "2001:db8::1") = Some g
    ∧ g ∈ map without_mask (cr_ips info)
    ∧ get_ip_version demo_env g = get_ip_version demo_env "2001:db8:1::1/64"
    ∧ route_dst ("2001:db8:1::1/64", 200%Z, "br-ex", None, Some "2001:db8::1")
      = without_mask "2001:db8:1::1/64" +:+ "/" +:+ mask.
Proof.
  refine (proj1 (proj2 (tenant_route_same_family demo_env (demo_sb [] true [lrp_1])
            lrp_1 (mkCrLrp "dp-router" "dp-public" ["2001:db8::1/64"]) ([], ∅)
            "2001:db8:1::1/64" lrp_1 gateway_exposed
            ("2001:db8:1::1/64", 200%Z, "br-ex", None, Some "2001:db8::1"))) _ _).
  - by vm_compute.
  - by vm_compute.
Defined.

(** ** What [sync] leaves on the dummy device *)

(** C1 does not hold of the code: after a restart with [10.0.0.5] and
    [10.0.0.99] on the dummy device, and a southbound view whose only port
    is a VM of a tenant network, bound on this chassis, with address
    [10.0.0.5] and no floating IP, the classification exposes no address;
    [sync] returns and deletes [10.0.0.99] with its rule, but keeps
    [10.0.0.5] and its rule: [_ensure_port_exposed] takes the port's own
    address out of the snapshots although [_expose_ip] did not expose it. *)
Theorem sync_keeps_unexposed_port_address :
  classified_addresses demo_env (demo_sb [tenant_vm] false []) (agent restarted) = ∅
  ∧ (sync demo_env (demo_sb [tenant_vm] false []) restarted).1 = inr tt
  ∧ k_dev_ips (kernel (sync demo_env (demo_sb [tenant_vm] false []) restarted).2)
    = {["10.0.0.5"]}
  ∧ k_ip_rules (kernel (sync demo_env (demo_sb [tenant_vm] false []) restarted).2)
    = {["10.0.0.5/32" := (200%Z, None)]}
  ∧ (_expose_ip demo_env (demo_sb [tenant_vm] false []) ["10.0.0.5"] tenant_vm None
       restarted).1 = inr None
  ∧ (_ensure_port_exposed demo_env (demo_sb [tenant_vm] false []) tenant_vm
       (["10.0.0.5"; "10.0.0.99"],
        {["10.0.0.5/32" := (200%Z, None); "10.0.0.99/32" := (200%Z, None)]}) restarted).1
    = inr (["10.0.0.99"], {["10.0.0.99/32" := (200%Z, None)]}).
Proof. split_and!; by vm_compute. Qed.

(** ** What the event handlers leave alone *)

Lemma same_configuration_refl s : same_configuration s s.
Proof. by repeat split. Qed.

Ltac config_leaf :=
  try done;
  try (unfold same_configuration in *; simpl in *; done).

Lemma config_expose_ip env sb ips row ap s0 :
  inv (same_configuration s0) (λ _, True) (expose_ip env sb ips row ap).
Proof. inv_auto; config_leaf. Qed.

Lemma config_withdraw_ip env sb ips row ap s0 :
  inv (same_configuration s0) (λ _, True) (withdraw_ip env sb ips row ap).
Proof. inv_auto; config_leaf. Qed.

Lemma config_expose_subnet env sb ip row s0 :
  inv (same_configuration s0) (λ _, True) (expose_subnet env sb ip row).
Proof. inv_auto; config_leaf. Qed.

Lemma config_withdraw_subnet env sb ip row s0 :
  inv (same_configuration s0) (λ _, True) (withdraw_subnet env sb ip row).
Proof. inv_auto; config_leaf. Qed.

Lemma config_expose_remote_ip sb ips row s0 :
  inv (same_configuration s0) (λ _, True) (expose_remote_ip sb ips row).
Proof. inv_auto; config_leaf. Qed.

Lemma config_withdraw_remote_ip sb ips row s0 :
  inv (same_configuration s0) (λ _, True) (withdraw_remote_ip sb ips row).
Proof. inv_auto; config_leaf. Qed.

(** The six event handlers write neither the configuration
    ([expose_tenant_networks], [chassis]), nor [ovn_routing_tables], nor
    [ovn_bridge_mappings], nor the VRF, the dummy device, the interfaces,
    the ARP/NDP settings or the VLAN devices of the kernel, whatever the
    row and whether they return or raise: these are written by [sync]
    only. *)
Theorem handlers_keep_configuration env sb ips ip row ap s :
  same_configuration s (expose_ip env sb ips row ap s).2
  ∧ same_configuration s (withdraw_ip env sb ips row ap s).2
  ∧ same_configuration s (expose_subnet env sb ip row s).2
  ∧ same_configuration s (withdraw_subnet env sb ip row s).2
  ∧ same_configuration s (expose_remote_ip sb ips row s).2
  ∧ same_configuration s (withdraw_remote_ip sb ips row s).2.
Proof.
  split_and!.
  - apply (config_expose_ip env sb ips row ap s s), same_configuration_refl.
  - apply (config_withdraw_ip env sb ips row ap s s), same_configuration_refl.
  - apply (config_expose_subnet env sb ip row s s), same_configuration_refl.
  - apply (config_withdraw_subnet env sb ip row s s), same_configuration_refl.
  - apply (config_expose_remote_ip sb ips row s s), same_configuration_refl.
  - apply (config_withdraw_remote_ip sb ips row s s), same_configuration_refl.
Qed.

(** ** Withdrawing never adds, exposing never removes *)

Lemma nothing_added_refl s : nothing_added s s.
Proof. by repeat split. Qed.

Lemma nothing_removed_refl s : nothing_removed s s.
Proof. by repeat split. Qed.

Lemma store_routes_alter (s0 : State) (store : gmap string (gset Route))
    (bridge dev : string) (r : Route) :
  default ∅ (store !! bridge) ⊆ store_routes s0 bridge →
  default ∅ (alter (λ rs, rs ∖ {[r]}) dev store !! bridge) ⊆ store_routes s0 bridge.
Proof.
  intros H. destruct (decide (dev = bridge)) as [->|Hne].
  - rewrite lookup_alter_eq. destruct (store !! bridge); simpl in *; set_solver.
  - by rewrite lookup_alter_ne.
Qed.

Lemma store_routes_insert (s0 : State) (store : gmap string (gset Route))
    (bridge dev : string) (r : Route) :
  store_routes s0 bridge ⊆ default ∅ (store !! bridge) →
  store_routes s0 bridge
  ⊆ default ∅ (<[dev := default ∅ (store !! dev) ∪ {[r]}]> store !! bridge).
Proof.
  intros H. destruct (decide (dev = bridge)) as [->|Hne].
  - rewrite lookup_insert_eq. simpl. set_solver.
  - by rewrite lookup_insert_ne.
Qed.

Ltac added_leaf :=
  try done;
  try (match goal with H : nothing_added _ _ |- _ =>
         destruct H as (Hd & Hr & Hro & Hn & Hl & Hc & Hs & Hf & Hlg) end;
       unfold nothing_added; simpl; split_and!; try done;
       first [ by apply subseteq_difference_l
             | by (etrans; [apply delete_subseteq|])
             | by (intros ?; unfold store_routes; simpl; apply store_routes_alter;
                   match goal with H : ∀ b, _ ⊆ _ |- _ => apply H end) ]).

Lemma added_withdraw_ip env sb ips row ap s0 :
  inv (nothing_added s0) (λ _, True) (withdraw_ip env sb ips row ap).
Proof. inv_auto; added_leaf. Qed.

Lemma added_withdraw_subnet env sb ip row s0 :
  inv (nothing_added s0) (λ _, True) (withdraw_subnet env sb ip row).
Proof. inv_auto; added_leaf. Qed.

Lemma added_withdraw_remote_ip sb ips row s0 :
  inv (nothing_added s0) (λ _, True) (withdraw_remote_ip sb ips row).
Proof. inv_auto; added_leaf. Qed.

Lemma added_remove_network env sb lrp gateway s0 :
  inv (nothing_added s0) (λ _, True) (_remove_network_exposed env sb lrp gateway).
Proof. inv_auto; added_leaf. Qed.

(** Withdrawing never adds: whatever the row and the state, and whether
    the method returns or raises, after [withdraw_ip], [withdraw_subnet],
    [withdraw_remote_ip] or [_remove_network_exposed] every address of the
    dummy device, every rule, route and NDP proxy of the kernel, every
    tracked gateway and router port and every route of the bookkeeping was
    there before; the flows and the log are unchanged. *)
Theorem withdraw_never_adds env sb ips ip row ap gateway s :
  nothing_added s (withdraw_ip env sb ips row ap s).2
  ∧ nothing_added s (withdraw_subnet env sb ip row s).2
  ∧ nothing_added s (withdraw_remote_ip sb ips row s).2
  ∧ nothing_added s (_remove_network_exposed env sb row gateway s).2.
Proof.
  split_and!.
  - apply (added_withdraw_ip env sb ips row ap s s), nothing_added_refl.
  - apply (added_withdraw_subnet env sb ip row s s), nothing_added_refl.
  - apply (added_withdraw_remote_ip sb ips row s s), nothing_added_refl.
  - apply (added_remove_network env sb row gateway s s), nothing_added_refl.
Qed.

Ltac removed_leaf :=
  try done;
  try (match goal with H : nothing_removed _ _ |- _ =>
         destruct H as (Hd & Hr & Hro & Hn & Hl & Hc & Hs & Hlg) end;
       unfold nothing_removed; simpl; split_and!; try done;
       first [ by apply union_subseteq_l'
             | by (rewrite dom_insert; apply union_subseteq_r')
             | by (intros ?; unfold store_routes; simpl; apply store_routes_insert;
                   match goal with H : ∀ b, _ ⊆ _ |- _ => apply H end)
             | by (etrans; [eassumption | apply prefix_app_r]) ]).

Lemma removed_expose_ip env sb ips row ap s0 :
  inv (nothing_removed s0) (λ _, True) (expose_ip env sb ips row ap).
Proof. inv_auto; removed_leaf. Qed.

Lemma removed_expose_subnet env sb ip row s0 :
  inv (nothing_removed s0) (λ _, True) (expose_subnet env sb ip row).
Proof. inv_auto; removed_leaf. Qed.

Lemma removed_expose_remote_ip sb ips row s0 :
  inv (nothing_removed s0) (λ _, True) (expose_remote_ip sb ips row).
Proof. inv_auto; removed_leaf. Qed.

Lemma removed_ensure_network env sb lrp gateway snap s0 :
  inv (nothing_removed s0) (λ _, True) (_ensure_network_exposed env sb lrp gateway snap).
Proof. inv_auto; removed_leaf. Qed.

(** Exposing never removes: whatever the row and the state, and whether
    the method returns or raises, after [expose_ip], [expose_subnet],
    [expose_remote_ip] or [_ensure_network_exposed] every address of the
    dummy device, every rule destination, route and NDP proxy of the
    kernel, every tracked gateway and router port and every route of the
    bookkeeping that was there before is still there, and the log has only
    grown. *)
Theorem expose_never_removes env sb ips ip row ap gateway snap s :
  nothing_removed s (expose_ip env sb ips row ap s).2
  ∧ nothing_removed s (expose_subnet env sb ip row s).2
  ∧ nothing_removed s (expose_remote_ip sb ips row s).2
  ∧ nothing_removed s (_ensure_network_exposed env sb row gateway snap s).2.
Proof.
  split_and!.
  - apply (removed_expose_ip env sb ips row ap s s), nothing_removed_refl.
  - apply (removed_expose_subnet env sb ip row s s), nothing_removed_refl.
  - apply (removed_expose_remote_ip sb ips row s s), nothing_removed_refl.
  - apply (removed_ensure_network env sb row gateway snap s s), nothing_removed_refl.
Qed.

(** ** Tracking of the router gateways *)

Lemma bind_outcome {A B} (I : State → Prop) (P : (exn + B) * State → Prop)
    (m : M A) (k : A → M B) s :
  inv I (λ _, True) m → I s →
  (∀ e s', I s' → P (inl e, s')) →
  (∀ a s', I s' → P (k a s')) →
  P (bind m k s).
Proof.
  intros Hm Hs He Hk. unfold bind. destruct (Hm s Hs) as [HI _].
  destruct (m s) as [[e|a] s']; simpl in *; auto.
Qed.

Lemma chassisredirect_not_vm row :
  String.eqb (p_type row) OVN_CHASSISREDIRECT_VIF_PORT_TYPE = true →
  is_vm_or_virtual row = false
  ∧ String.eqb (p_type row) OVN_PATCH_VIF_PORT_TYPE = false.
Proof. intros H%String.eqb_eq. unfold is_vm_or_virtual. by rewrite H. Qed.

(** [expose_ip] tracks a router gateway before anything else: for a
    [chassisredirect] row named [cr-...] whose datapath the southbound
    view knows, [ovn_local_cr_lrps] afterwards is the map before with the
    entry of the row (router datapath, provider datapath, IPs as given)
    written, whether the rest of the method returns or raises; for every
    other row [ovn_local_cr_lrps] is unchanged. *)
Theorem expose_ip_tracks_gateway env sb ips row ap s :
  ovn_local_cr_lrps (agent (expose_ip env sb ips row ap s).2)
  = match gateway_datapath sb row with
    | Some cr_lrp_datapath =>
        <[p_logical_port row := mkCrLrp (p_datapath row) cr_lrp_datapath ips]>
          (ovn_local_cr_lrps (agent s))
    | None => ovn_local_cr_lrps (agent s)
    end.
Proof.
  destruct (gateway_datapath sb row) as [dp|] eqn:Hgw.
  - unfold gateway_datapath in Hgw.
    destruct (String.eqb (p_type row) OVN_CHASSISREDIRECT_VIF_PORT_TYPE) eqn:Hty;
      [|done].
    destruct (chassisredirect_not_vm row Hty) as [Hvm Hpatch].
    simpl in Hgw.
    destruct (String.prefix "cr-" (p_logical_port row)) eqn:Hpre; [|done].
    destruct (get_fip_associated sb (p_logical_port row)) as [[fip dp']|] eqn:Hfip; [|done].
    destruct (truthy dp') eqn:Hdp; [|done]. injection Hgw as ->.
    unfold expose_ip, _expose_ip. rewrite Hvm, Hpatch, Hty, Hpre, Hfip, Hdp. simpl.
    set (s1 := with_agent (λ a,
                 set_local_cr_lrps
                   (<[p_logical_port row := mkCrLrp (p_datapath row) dp ips]>
                      (ovn_local_cr_lrps a)) a) s).
    match goal with |- context [bind (bind (modify ?f) ?k) ?k' s] =>
      change (bind (bind (modify f) k) k' s) with (bind (k tt) k' s1)
    end.
    match goal with |- context [(?m s1).2] =>
      assert (inv (λ s', ovn_local_cr_lrps (agent s')
                         = ovn_local_cr_lrps (agent s1)) (λ _, True) m) as Hinv
    end.
    { inv_auto; simpl in *; congruence. }
    by destruct (Hinv s1 eq_refl) as [-> _].
  - match goal with |- context [(?m s).2] =>
      assert (inv (λ s', ovn_local_cr_lrps (agent s')
                         = ovn_local_cr_lrps (agent s)) (λ _, True) m) as Hinv
    end.
    { inv_auto; simpl in *; try congruence.
      exfalso. unfold gateway_datapath in Hgw.
      match goal with
      | H1 : _ && String.prefix _ _ = true, H2 : get_fip_associated _ _ = Some _,
        H3 : truthy _ = true |- _ => rewrite H1, H2, H3 in Hgw
      end.
      done. }
    by destruct (Hinv s eq_refl) as [-> _].
Qed.

Ltac frame_cr_lrps s :=
  match goal with |- context [(?m s).2] =>
    let Hinv := fresh "Hinv" in
    assert (inv (λ s', ovn_local_cr_lrps (agent s') = ovn_local_cr_lrps (agent s))
              (λ _, True) m) as Hinv
      by (inv_auto; simpl in *; congruence);
    by destruct (Hinv s eq_refl) as [-> _]
  end.

(** [withdraw_ip] forgets a tracked router gateway with its last
    statement only: when it returns, [ovn_local_cr_lrps] has lost the
    entry of the row and nothing else; when it raises (the bridge of the
    gateway is not resolved, say), the gateway is still tracked, and so is
    every other gateway.  For a row that is not a tracked gateway
    [ovn_local_cr_lrps] is unchanged. *)
Theorem withdraw_ip_untracks_gateway env sb ips row ap s :
  ovn_local_cr_lrps (agent (withdraw_ip env sb ips row ap s).2)
  = match tracked_datapath s row, (withdraw_ip env sb ips row ap s).1 with
    | Some _, inr _ => delete (p_logical_port row) (ovn_local_cr_lrps (agent s))
    | _, _ => ovn_local_cr_lrps (agent s)
    end.
Proof.
  destruct (tracked_datapath s row) as [dp|] eqn:Hgw.
  - unfold tracked_datapath in Hgw.
    destruct (String.eqb (p_type row) OVN_CHASSISREDIRECT_VIF_PORT_TYPE) eqn:Hty;
      [|done].
    destruct (chassisredirect_not_vm row Hty) as [Hvm Hpatch].
    simpl in Hgw.
    destruct (String.prefix "cr-" (p_logical_port row)) eqn:Hpre; [|done].
    destruct (ovn_local_cr_lrps (agent s) !! p_logical_port row) as [info|] eqn:Hinfo;
      [|done].
    destruct (truthy (provider_datapath info)) eqn:Hdp; [|done]. injection Hgw as <-.
    unfold withdraw_ip. rewrite Hvm, Hpatch, Hty, Hpre. simpl.
    rewrite bind_gets, Hinfo. simpl. rewrite Hdp.
    set (I := λ s', ovn_local_cr_lrps (agent s') = ovn_local_cr_lrps (agent s)).
    set (P := λ r : (exn + unit) * State,
           ovn_local_cr_lrps (agent r.2)
           = match r.1 with
             | inr _ => delete (p_logical_port row) (ovn_local_cr_lrps (agent s))
             | inl _ => ovn_local_cr_lrps (agent s)
             end).
    assert (∀ e s', I s' → P (inl e, s')) as Hraise by done.
    match goal with |- ovn_local_cr_lrps (agent (?m s).2) = _ => change (P (m s)) end.
    apply (bind_outcome I); [by inv_auto | done | done |]. intros _ s1 Hs1.
    apply (bind_outcome I); [by inv_auto | done | done |]. intros bv s2 Hs2.
    apply (bind_outcome I); [by inv_auto | done | done |]. intros _ s3 Hs3.
    apply (bind_outcome I); [by inv_auto | done | done |]. intros _ s4 Hs4.
    unfold P, modify. simpl. by rewrite Hs4.
  - unfold withdraw_ip, tracked_datapath in *.
    destruct (is_vm_or_virtual row && is_provider_network sb (p_datapath row));
      [frame_cr_lrps s|].
    destruct (is_vm_or_virtual row); [frame_cr_lrps s|].
    destruct (String.eqb (p_type row) OVN_PATCH_VIF_PORT_TYPE); [frame_cr_lrps s|].
    destruct (_ && String.prefix _ _); [|done].
    rewrite bind_gets.
    destruct (ovn_local_cr_lrps (agent s) !! p_logical_port row) as [info|]; [|done].
    simpl. by destruct (truthy (provider_datapath info)).
Qed.

(** ** Tenant subnets *)

Lemma for_until_all_none {A R} (l : list A) (body : A → M (option R)) s :
  (∀ x, x ∈ l → body x s = (inr None, s)) → for_until l body s = (inr None, s).
Proof.
  induction l as [|x l IH]; intros Hb; [done|].
  rewrite (for_until_cons_none _ _ _ _ s); [|apply Hb; left].
  apply IH. intros y Hy. apply Hb. by right.
Qed.

(** The state in which [withdraw_subnet] gives up: the router port is no
    longer in [ovn_local_lrps] and the rule of the subnet is gone. *)
Lemma withdraw_subnet_run env sb ip row s cr_lrp info b vlan t :
  expose_tenant_networks (agent s) = true →
  is_router_gateway_on_chassis sb (p_datapath row) (chassis (agent s)) = Some cr_lrp →
  truthy cr_lrp = true →
  ovn_local_cr_lrps (agent s) !! cr_lrp = Some info →
  truthy (provider_datapath info) = true →
  _get_bridge_for_datapath sb (provider_datapath info) s = (inr (Some b, vlan), s) →
  ovn_routing_tables (agent s) !! b = Some t →
  (∀ g, g ∈ cr_ips info →
        get_ip_version env (without_mask g) ≠ get_ip_version env ip) →
  withdraw_subnet env sb ip row s
  = (inl UnboundLocalError,
     with_kernel (λ k, set_ip_rules (delete (linux_net.rule_dst env ip) (k_ip_rules k)) k)
       (with_agent (λ a, set_local_lrps (ovn_local_lrps a ∖ {[p_logical_port row]}) a) s)).
Proof.
  intros Hten Hgw Hcr Hinfo Hdp Hbr Ht Hfam.
  unfold withdraw_subnet. rewrite bind_gets, Hten. cbn [negb].
  rewrite bind_gets, Hgw, Hcr.
  set (s1 := with_agent (λ a,
               set_local_lrps (ovn_local_lrps a ∖ {[p_logical_port row]}) a) s).
  assert (modify (with_agent (λ a,
            set_local_lrps (ovn_local_lrps a ∖ {[p_logical_port row]}) a)) s = (inr tt, s1))
    as H1 by done.
  rewrite (bind_run _ _ _ _ _ H1). rewrite bind_gets.
  change (ovn_local_cr_lrps (agent s1)) with (ovn_local_cr_lrps (agent s)).
  rewrite Hinfo, Hdp.
  assert (_get_bridge_for_datapath sb (provider_datapath info) s1 = (inr (Some b, vlan), s1))
    as H2 by (by apply (get_bridge_frame sb _ s)).
  rewrite (bind_run _ _ _ _ _ H2). cbn [fst snd].
  assert (routing_table_of (Some b) s1 = (inr (b, t), s1)) as H3
    by (by apply routing_table_of_run).
  rewrite (bind_run _ _ _ _ _ H3). cbn [fst snd].
  set (s2 := with_kernel (λ k,
               set_ip_rules (delete (linux_net.rule_dst env ip) (k_ip_rules k)) k) s1).
  assert (linux_net.del_ip_rule env ip t b None s1 = (inr tt, s2)) as H4 by done.
  rewrite (bind_run _ _ _ _ _ H4).
  erewrite bind_run; [|apply for_until_all_none].
  - done.
  - intros g [g' [-> Hg']]%list_elem_of_fmap.
    destruct (Z.eqb_spec (get_ip_version env (without_mask g')) (get_ip_version env ip));
      [|done].
    by destruct (Hfam g' Hg').
Qed.

(** [withdraw_subnet] for a subnet of a family that the tracked gateway of
    its router has no address of: the loop over the gateway's addresses
    (lines 762-777) never binds [net], so after the router port has left
    [ovn_local_lrps] and the rule of the subnet has been deleted, line 781
    raises [UnboundLocalError]; no route is deleted and the addresses of the
    subnet's VMs stay on the dummy device. *)
Theorem withdraw_subnet_unbound_net env sb ip row s cr_lrp info b vlan t :
  expose_tenant_networks (agent s) = true →
  is_router_gateway_on_chassis sb (p_datapath row) (chassis (agent s)) = Some cr_lrp →
  truthy cr_lrp = true →
  ovn_local_cr_lrps (agent s) !! cr_lrp = Some info →
  truthy (provider_datapath info) = true →
  _get_bridge_for_datapath sb (provider_datapath info) s = (inr (Some b, vlan), s) →
  ovn_routing_tables (agent s) !! b = Some t →
  (∀ g, g ∈ cr_ips info →
        get_ip_version env (without_mask g) ≠ get_ip_version env ip) →
  let s' := (withdraw_subnet env sb ip row s).2 in
  (withdraw_subnet env sb ip row s).1 = inl UnboundLocalError
  ∧ k_ip_rules (kernel s') = delete (linux_net.rule_dst env ip) (k_ip_rules (kernel s))
  ∧ ovn_local_lrps (agent s') = ovn_local_lrps (agent s) ∖ {[p_logical_port row]}
  ∧ k_ip_routes (kernel s') = k_ip_routes (kernel s)
  ∧ k_dev_ips (kernel s') = k_dev_ips (kernel s).
Proof.
  intros Hten Hgw Hcr Hinfo Hdp Hbr Ht Hfam s'. unfold s'.
  by rewrite (withdraw_subnet_run env sb ip row s cr_lrp info b vlan t).
Qed.

Lemma withdraw_subnet_unbound_net_witness :
  (withdraw_subnet demo_env (demo_sb [] true [lrp_1]) "10.1.0.1/24" lrp_1 gateway_exposed).1
  = inl UnboundLocalError.
Proof.
  apply (withdraw_subnet_unbound_net demo_env (demo_sb [] true [lrp_1]) "10.1.0.1/24" lrp_1
           gateway_exposed "cr-lrp-1" (mkCrLrp "dp-router" "dp-public" ["2001:db8::1/64"])
           "br-ex" None 200%Z); try reflexivity.
  intros g ->%list_elem_of_singleton. by vm_compute.
Defined.

(** [_remove_network_exposed] has the same slip (lines 344-363): for a
    router port whose address is of a family that the gateway has no
    address of, the router port leaves [ovn_local_lrps], its rule is
    deleted, and the method raises [UnboundLocalError] at line 363; no
    route is deleted and no address leaves the dummy device. *)
Theorem remove_network_unbound_net env sb router_port gateway s rip b vlan t :
  mac_field_opt router_port 1 = Some rip →
  without_mask rip ∉ map without_mask (cr_ips gateway) →
  _get_bridge_for_datapath sb (provider_datapath gateway) s = (inr (Some b, vlan), s) →
  ovn_routing_tables (agent s) !! b = Some t →
  (∀ g, g ∈ cr_ips gateway →
        get_ip_version env (without_mask g) ≠ get_ip_version env rip) →
  _remove_network_exposed env sb router_port gateway s
  = (inl UnboundLocalError,
     with_kernel (λ k, set_ip_rules (delete (linux_net.rule_dst env rip) (k_ip_rules k)) k)
       (with_agent (λ a,
          set_local_lrps (ovn_local_lrps a ∖ {[p_logical_port router_port]}) a) s)).
Proof.
  intros Hrip Hown Hbr Ht Hfam.
  unfold _remove_network_exposed.
  rewrite (bind_run _ _ _ _ _ (try_mac_field_run router_port 1 s)), Hrip.
  rewrite bool_decide_eq_false_2 by done.
  set (s1 := with_agent (λ a,
               set_local_lrps (ovn_local_lrps a ∖ {[p_logical_port router_port]}) a) s).
  assert (modify (with_agent (λ a,
            set_local_lrps (ovn_local_lrps a ∖ {[p_logical_port router_port]}) a)) s
          = (inr tt, s1)) as H1 by done.
  rewrite (bind_run _ _ _ _ _ H1).
  assert (_get_bridge_for_datapath sb (provider_datapath gateway) s1
          = (inr (Some b, vlan), s1)) as H2 by (by apply (get_bridge_frame sb _ s)).
  rewrite (bind_run _ _ _ _ _ H2). cbn [fst snd].
  assert (routing_table_of (Some b) s1 = (inr (b, t), s1)) as H3
    by (by apply routing_table_of_run).
  rewrite (bind_run _ _ _ _ _ H3). cbn [fst snd].
  set (s2 := with_kernel (λ k,
               set_ip_rules (delete (linux_net.rule_dst env rip) (k_ip_rules k)) k) s1).
  assert (linux_net.del_ip_rule env rip t b None s1 = (inr tt, s2)) as H4 by done.
  rewrite (bind_run _ _ _ _ _ H4).
  erewrite bind_run; [|apply for_until_all_none].
  - done.
  - intros g [g' [-> Hg']]%list_elem_of_fmap.
    destruct (Z.eqb_spec (get_ip_version env (without_mask g')) (get_ip_version env rip));
      [|done].
    by destruct (Hfam g' Hg').
Qed.

Lemma remove_network_unbound_net_witness :
  (_remove_network_exposed demo_env (demo_sb [] true [])
     (mkPort "patch" "dp-router" "lrp-4" ["fa:16:3e:44:55:77 10.1.0.1/24"] []
        {["peer" := "lsp-4"]})
     (mkCrLrp "dp-router" "dp-public" ["2001:db8::1/64"]) gateway_exposed).1
  = inl UnboundLocalError.
Proof.
  rewrite (remove_network_unbound_net demo_env (demo_sb [] true [])
             (mkPort "patch" "dp-router" "lrp-4" ["fa:16:3e:44:55:77 10.1.0.1/24"] []
                {["peer" := "lsp-4"]})
             (mkCrLrp "dp-router" "dp-public" ["2001:db8::1/64"]) gateway_exposed
             "10.1.0.1/24" "br-ex" None 200%Z); try reflexivity.
  - apply (bool_decide_unpack _). by vm_compute.
  - intros g ->%list_elem_of_singleton. by vm_compute.
Defined.

(** The loop of [add_route_via_gateway] stops at the first gateway address
    of the family. *)
Lemma add_route_via_gateway_first env pre g post v cidr b vlan t mask s :
  ovn_routing_tables (agent s) !! b = Some t →
  split_on SLASH cidr !! 1 = Some mask →
  (∀ g', g' ∈ pre → get_ip_version env g' ≠ v) →
  get_ip_version env g = v →
  add_route_via_gateway env (pre ++ g :: post) v cidr (Some b) vlan s
  = (inr (Some tt),
     (linux_net.add_ip_route env (without_mask cidr) t b vlan (Some mask) (Some g) s).2).
Proof.
  intros Ht Hmask Hpre Hg. unfold add_route_via_gateway.
  induction pre as [|g' pre IH]; simpl app.
  - erewrite for_until_cons_some; [done|].
    rewrite (proj2 (Z.eqb_eq _ _) Hg).
    rewrite (bind_run _ _ _ _ _ (routing_table_of_run b t s Ht)).
    unfold py_index. rewrite Hmask. done.
  - rewrite (for_until_cons_none _ _ _ _ s).
    + apply IH. intros g'' Hg''. apply Hpre. by right.
    + rewrite (proj2 (Z.eqb_neq _ _)); [done|]. apply Hpre. left.
Qed.

(** Unlike [_expose_ip], [expose_subnet] goes on after [add_ip_rule] has
    rejected the address of the subnet (lines 691-696 log and do not
    return): the failure is logged once, no rule is written, and the route
    to the subnet through the first gateway address of its family is
    added all the same. *)
Theorem expose_subnet_goes_on_after_invalid_ip env sb ip row s cr_lrp info b vlan t :
  expose_tenant_networks (agent s) = true →
  is_router_gateway_on_chassis sb (p_datapath row) (chassis (agent s)) = Some cr_lrp →
  truthy cr_lrp = true →
  ovn_local_cr_lrps (agent s) !! cr_lrp = Some info →
  truthy (provider_datapath info) = true →
  _get_bridge_for_datapath sb (provider_datapath info) s = (inr (Some b, vlan), s) →
  ovn_routing_tables (agent s) !! b = Some t →
  parsable_ip env ip = false →
  let s' := (expose_subnet env sb ip row s).2 in
  log s' = log s ++ ["Invalid IP to create a rule for the network router"
                     +:+ " interface port: " +:+ ip]
  ∧ k_ip_rules (kernel s') = k_ip_rules (kernel s)
  ∧ (∀ pre g post mask,
       cr_ips info = pre ++ g :: post →
       (∀ g', g' ∈ pre → get_ip_version env (without_mask g') ≠ get_ip_version env ip) →
       get_ip_version env (without_mask g) = get_ip_version env ip →
       split_on SLASH ip !! 1 = Some mask →
       linux_net.mk_route env (without_mask ip) t b vlan (Some mask) (Some (without_mask g))
       ∈ k_ip_routes (kernel s')).
Proof.
  intros Hten Hgw Hcr Hinfo Hdp Hbr Ht Hbad s'. unfold s'. clear s'.
  unfold expose_subnet. rewrite bind_gets, Hten. cbn [negb].
  rewrite bind_gets, Hgw, Hcr.
  set (s1 := with_agent (λ a,
               set_local_lrps (ovn_local_lrps a ∪ {[p_logical_port row]}) a) s).
  assert (modify (with_agent (λ a,
            set_local_lrps (ovn_local_lrps a ∪ {[p_logical_port row]}) a)) s = (inr tt, s1))
    as H1 by done.
  rewrite (bind_run _ _ _ _ _ H1). rewrite bind_gets.
  change (ovn_local_cr_lrps (agent s1)) with (ovn_local_cr_lrps (agent s)).
  rewrite Hinfo, Hdp.
  assert (_get_bridge_for_datapath sb (provider_datapath info) s1 = (inr (Some b, vlan), s1))
    as H2 by (by apply (get_bridge_frame sb _ s)).
  rewrite (bind_run _ _ _ _ _ H2). cbn [fst snd].
  set (msg := "Invalid IP to create a rule for the network router"
              +:+ " interface port: " +:+ ip).
  set (s2 := with_log (λ l, l ++ [msg]) s1).
  erewrite (bind_run _ _ _ tt s2).
  2: { unfold try_except, bind. rewrite (routing_table_of_run b t s1 Ht). simpl.
       unfold linux_net.add_ip_rule. by rewrite Hbad. }
  split_and!.
  - match goal with |- context [(?m s2).2] =>
      assert (inv (λ s', log s' = log s2) (λ _, True) m) as Hinv
        by (inv_auto; simpl in *; congruence)
    end.
    by destruct (Hinv s2 eq_refl) as [-> _].
  - match goal with |- context [(?m s2).2] =>
      assert (inv (λ s', k_ip_rules (kernel s') = k_ip_rules (kernel s2)) (λ _, True) m)
        as Hinv by (inv_auto; simpl in *; congruence)
    end.
    by destruct (Hinv s2 eq_refl) as [-> _].
  - intros pre g post mask Hips Hpre Hg Hmask.
    rewrite Hips, map_app. simpl map.
    erewrite (bind_run _ _ _ (Some tt)).
    2: { apply (add_route_via_gateway_first env _ _ _ _ ip b vlan t mask); try done.
         intros g' [g'' [-> Hg'']]%list_elem_of_fmap. by apply Hpre. }
    set (r := linux_net.mk_route env (without_mask ip) t b vlan (Some mask)
                (Some (without_mask g))).
    match goal with |- context [(?m ?s3).2] =>
      assert (inv (λ s', r ∈ k_ip_routes (kernel s')) (λ _, True) m) as Hinv
        by (inv_auto; simpl in *; done)
    end.
    match goal with |- context [(?m ?s3).2] => destruct (Hinv s3) as [HI _] end; [|done].
    simpl. apply elem_of_union_r, elem_of_singleton. done.
Qed.

Lemma expose_subnet_goes_on_after_invalid_ip_witness :
  linux_net.mk_route demo_env "2001:db8:1::1" 200%Z "br-ex" None (Some "64")
    (Some "2001:db8::1")
  ∈ k_ip_routes
      (kernel (expose_subnet demo_env (demo_sb [] true [lrp_1]) "2001:db8:1::1/64/64" lrp_1
                 gateway_exposed).2).
Proof.
  pose proof (expose_subnet_goes_on_after_invalid_ip demo_env (demo_sb [] true [lrp_1])
                "2001:db8:1::1/64/64" lrp_1 gateway_exposed "cr-lrp-1"
                (mkCrLrp "dp-router" "dp-public" ["2001:db8::1/64"]) "br-ex" None 200%Z
                eq_refl eq_refl eq_refl eq_refl eq_refl eq_refl eq_refl eq_refl)
    as (_ & _ & H).
  apply (H [] "2001:db8::1/64" [] "64" eq_refl); [|reflexivity..].
  intros g' Hg'. by apply elem_of_nil in Hg'.
Defined.

(** The gate of the two subnet handlers (lines 676-686 and 740-752): with
    tenant exposure off, or with no gateway of the router on this chassis,
    [expose_subnet] and [withdraw_subnet] return with the state unchanged;
    with a gateway on this chassis that [ovn_local_cr_lrps] does not hold
    (or holds without provider datapath), all they do is to add the router
    port to [ovn_local_lrps], or to take it out: no rule, route or address
    is touched. *)
Theorem subnet_handlers_gate env sb ip row s :
  let cr_lrp := is_router_gateway_on_chassis sb (p_datapath row) (chassis (agent s)) in
  (expose_tenant_networks (agent s) = false ∨ cr_lrp = None ∨ cr_lrp = Some "" →
   expose_subnet env sb ip row s = (inr tt, s)
   ∧ withdraw_subnet env sb ip row s = (inr tt, s))
  ∧ (∀ name,
       expose_tenant_networks (agent s) = true →
       cr_lrp = Some name →
       truthy name = true →
       match ovn_local_cr_lrps (agent s) !! name with
       | Some info => truthy (provider_datapath info) = false
       | None => True
       end →
       expose_subnet env sb ip row s
       = (inr tt, with_agent (λ a,
                    set_local_lrps (ovn_local_lrps a ∪ {[p_logical_port row]}) a) s)
       ∧ withdraw_subnet env sb ip row s
         = (inr tt, with_agent (λ a,
                      set_local_lrps (ovn_local_lrps a ∖ {[p_logical_port row]}) a) s)).
Proof.
  intros cr_lrp. subst cr_lrp. unfold expose_subnet, withdraw_subnet. rewrite !bind_gets.
  split.
  - intros [->|[Hgw|Hgw]]; [done|..].
    + destruct (expose_tenant_networks (agent s)); [|done]. cbn [negb].
      by rewrite !bind_gets, Hgw.
    + destruct (expose_tenant_networks (agent s)); [|done]. cbn [negb].
      by rewrite !bind_gets, Hgw.
  - intros name -> Hgw Hname Hinfo. cbn [negb]. rewrite !bind_gets, Hgw, Hname.
    unfold bind, modify, gets. simpl.
    destruct (ovn_local_cr_lrps (agent s) !! name) as [info|]; [|done].
    by rewrite Hinfo.
Qed.

Lemma subnet_handlers_gate_witness :
  expose_subnet demo_env (demo_sb [] true [lrp_1]) "2001:db8:1::1/64" lrp_1
    (mkState (demo_agent true {["public" := "br-ex"]}) (demo_kernel ∅ ∅) [])
  = (inr tt,
     with_agent (λ a, set_local_lrps (ovn_local_lrps a ∪ {["lrp-1"]}) a)
       (mkState (demo_agent true {["public" := "br-ex"]}) (demo_kernel ∅ ∅) []))
  ∧ expose_subnet demo_env (demo_sb [] true [lrp_1]) "2001:db8:1::1/64" lrp_1 started
    = (inr tt, started).
Proof.
  split.
  - apply (proj2 (subnet_handlers_gate demo_env (demo_sb [] true [lrp_1]) "2001:db8:1::1/64"
                    lrp_1 (mkState (demo_agent true {["public" := "br-ex"]})
                             (demo_kernel ∅ ∅) [])) "cr-lrp-1");
      reflexivity.
  - apply (proj1 (subnet_handlers_gate demo_env (demo_sb [] true [lrp_1]) "2001:db8:1::1/64"
                    lrp_1 started)).
    by left.
Defined.

(** A router port that is the gateway's own interface (its address,
    without mask, is one of the gateway's), or that has no address in its
    [mac] column, is skipped by [_ensure_network_exposed] and by
    [_remove_network_exposed] (lines 254-261 and 325-332): the state and the
    snapshots are as before, and the port does not enter
    [ovn_local_lrps]. *)
Theorem gateway_own_interface_skipped env sb router_port gateway snap s :
  (mac_field_opt router_port 1 = None
   ∨ ∃ router_port_ip,
       mac_field_opt router_port 1 = Some router_port_ip
       ∧ without_mask router_port_ip ∈ map without_mask (cr_ips gateway)) →
  _ensure_network_exposed env sb router_port gateway snap s = (inr snap, s)
  ∧ _remove_network_exposed env sb router_port gateway s = (inr tt, s).
Proof.
  intros H. unfold _ensure_network_exposed, _remove_network_exposed.
  rewrite !(bind_run _ _ _ _ _ (try_mac_field_run router_port 1 s)).
  destruct H as [->|(rip & -> & Hown)]; [done|].
  by rewrite !bool_decide_eq_true_2.
Qed.

Lemma gateway_own_interface_skipped_witness :
  _ensure_network_exposed demo_env (demo_sb [] true [])
    (mkPort "patch" "dp-router" "lrp-gw" ["fa:16:3e:11:22:33 2001:db8::1/64"] [] ∅)
    (mkCrLrp "dp-router" "dp-public" ["2001:db8::1/64"]) ([], ∅) gateway_exposed
  = (inr ([], ∅), gateway_exposed).
Proof.
  apply (gateway_own_interface_skipped demo_env (demo_sb [] true [])
           (mkPort "patch" "dp-router" "lrp-gw" ["fa:16:3e:11:22:33 2001:db8::1/64"] [] ∅)
           (mkCrLrp "dp-router" "dp-public" ["2001:db8::1/64"]) ([], ∅) gateway_exposed).
  right. exists "2001:db8::1/64". split; [reflexivity|].
  apply (bool_decide_unpack _). by vm_compute.
Defined.

(** ** The addresses of the VMs of a tenant network *)

Lemma inv_bind_val {A B} (I : State → Prop) (E : exn → Prop) (Q : A → Prop)
    (m : M A) (k : A → M B) :
  inv I E m → returns m Q → (∀ a, Q a → inv I E (k a)) → inv I E (bind m k).
Proof.
  intros Hm Hr Hk s Hs. unfold bind. destruct (Hm s Hs) as [HI HE].
  destruct (m s) as [[e|a] s'] eqn:Hms; simpl in *.
  - split; [done|]. intros e' [= <-]. by apply HE.
  - apply Hk; [|done]. by apply (Hr s a s').
Qed.

Lemma returns_from_option {A} e (o : option A) :
  returns (from_option e o) (λ a, o = Some a).
Proof. intros s a s'. destruct o; simpl; [|done]. by intros [= <-]. Qed.

(** The addresses that the tenant-VM enumerations read are the second and
    the third field of the [mac] column. *)
Lemma returns_tenant_port_ips port :
  returns (tenant_port_ips port)
    (λ r, ∀ ips ip, r = Some ips → ip ∈ ips →
          ∃ i, (i = 1 ∨ i = 2) ∧ mac_field_opt port i = Some ip).
Proof.
  intros s r s'. unfold tenant_port_ips.
  rewrite (bind_run _ _ _ _ _ (try_mac_field_run port 1 s)).
  destruct (mac_field_opt port 1) as [ip1|] eqn:H1.
  - unfold bind at 1. destruct (mac_field_count port s) as [[e|n] s1]; [done|].
    case_bool_decide.
    + unfold bind. rewrite mac_field_run.
      destruct (mac_field_opt port 2) as [ip2|] eqn:H2; [|done].
      intros [= <- <-] ips ip [= <-] Hip.
      apply elem_of_cons in Hip as [->|Hip]; [by exists 1; auto|].
      apply list_elem_of_singleton in Hip as ->. exists 2; auto.
    + intros [= <- <-] ips ip [= <-] ->%list_elem_of_singleton. exists 1; auto.
  - by intros [= <- <-] ips ip.
Qed.

Ltac unfold_but_port_ips :=
  unfold expose_subnet, _ensure_network_exposed, add_route_via_gateway,
    _get_bridge_for_datapath, routing_table_of, LOG_exception;
  unfold linux_net.add_ips_to_dev, linux_net.add_ip_rule, linux_net.add_ip_route.

Ltac inv_step_val :=
  lazymatch goal with
  | |- inv _ _ (bind (from_option _ (_ !! _)) _) =>
      eapply inv_bind_val;
        [apply inv_from_option; done | apply returns_from_option
        | intros ? ?; cbv beta in * ]
  | |- inv _ _ (bind (tenant_port_ips _) _) =>
      eapply inv_bind_val;
        [by inv_auto | apply returns_tenant_port_ips | intros ? ?; cbv beta in * ]
  | _ => inv_step
  end.

Ltac tenant_vm_leaf :=
  try done;
  try (match goal with
       | Hinv : tenant_vm_addresses _ _ _ _ _ _,
         Hpeer : _ !! _ = Some ?peer,
         Hdp : get_port_datapath _ ?peer = Some ?dp,
         Hport : ?port ∈ get_ports_on_datapath _ ?dp,
         Hvm : context [is_vm_or_virtual ?port],
         Hips : ∀ ips ip, Some ?l = Some ips → _,
         Hip : ?x ∈ ?l,
         Hv : (get_ip_version _ ?x =? _)%Z = true |- _ =>
           unfold tenant_vm_addresses in *; simpl;
           intros y [Hy|Hy]%elem_of_union; [by apply Hinv|];
           assert (y = x) as -> by set_solver;
           right; split; [by apply Z.eqb_eq|];
           destruct (Hips l x eq_refl Hip) as (i & Hi & Hfield);
           assert (is_vm_or_virtual port = true)
             by (destruct (is_vm_or_virtual port); [done | by simpl in Hvm]);
           by exists peer, dp, port, i
       end).

Lemma ensure_network_tenant_vm env sb router_port gateway snap s rip :
  mac_field_opt router_port 1 = Some rip →
  tenant_vm_addresses env sb (k_dev_ips (kernel s)) router_port (get_ip_version env rip)
    (_ensure_network_exposed env sb router_port gateway snap s).2.
Proof.
  intros Hrip. unfold _ensure_network_exposed.
  rewrite (bind_run _ _ _ _ _ (try_mac_field_run router_port 1 s)), Hrip.
  match goal with |- context [(?m s).2] =>
    assert (inv (tenant_vm_addresses env sb (k_dev_ips (kernel s)) router_port
                   (get_ip_version env rip)) (λ _, True) m) as Hinv
  end.
  { unfold_but_port_ips. repeat inv_step_val; tenant_vm_leaf. }
  apply Hinv. intros x Hx. by left.
Qed.

Lemma expose_subnet_tenant_vm env sb ip row s :
  tenant_vm_addresses env sb (k_dev_ips (kernel s)) row (get_ip_version env ip)
    (expose_subnet env sb ip row s).2.
Proof.
  assert (inv (tenant_vm_addresses env sb (k_dev_ips (kernel s)) row (get_ip_version env ip))
            (λ _, True) (expose_subnet env sb ip row)) as Hinv.
  { unfold_but_port_ips. repeat inv_step_val; tenant_vm_leaf. }
  apply Hinv. intros x Hx. by left.
Qed.

(** The comment of lines 309-310 and 731-732 holds (only the port IPs that
    match the IP version of the router port are added): an address that
    [_ensure_network_exposed] or [expose_subnet] puts on the dummy device is
    the second or third [mac] field of a VM or virtual port on the datapath
    of the router port's peer, and its IP version is that of the router
    port's address (of the subnet address given to [expose_subnet]). *)
Theorem tenant_vm_addresses_same_family env sb router_port gateway snap ip row s x :
  (x ∈ k_dev_ips (kernel (_ensure_network_exposed env sb router_port gateway snap s).2) →
   x ∉ k_dev_ips (kernel s) →
   ∃ router_port_ip,
     mac_field_opt router_port 1 = Some router_port_ip
     ∧ get_ip_version env x = get_ip_version env router_port_ip
     ∧ tenant_vm_address sb router_port x)
  ∧ (x ∈ k_dev_ips (kernel (expose_subnet env sb ip row s).2) →
     x ∉ k_dev_ips (kernel s) →
     get_ip_version env x = get_ip_version env ip ∧ tenant_vm_address sb row x).
Proof.
  split.
  - intros Hin Hout.
    destruct (mac_field_opt router_port 1) as [rip|] eqn:Hrip.
    + destruct (ensure_network_tenant_vm env sb router_port gateway snap s rip Hrip x Hin)
        as [?|[Hv Hvm]]; [done|].
      by exists rip.
    + exfalso. apply Hout. revert Hin. unfold _ensure_network_exposed.
      by rewrite (bind_run _ _ _ _ _ (try_mac_field_run router_port 1 s)), Hrip.
  - intros Hin Hout.
    by destruct (expose_subnet_tenant_vm env sb ip row s x Hin).
Qed.

Lemma tenant_vm_addresses_same_family_witness :
  get_ip_version demo_env "2001:db8:1::a" = get_ip_version demo_env "2001:db8:1::1/64"
  ∧ tenant_vm_address (demo_sb [] true [lrp_1]) lrp_1 "2001:db8:1::a".
Proof.
  apply (proj2 (tenant_vm_addresses_same_family demo_env (demo_sb [] true [lrp_1]) lrp_1
                  (mkCrLrp "dp-router" "dp-public" ["2001:db8::1/64"]) ([], ∅)
                  "2001:db8:1::1/64" lrp_1 gateway_exposed "2001:db8:1::a")).
  - by vm_compute.
  - apply (bool_decide_unpack _). by vm_compute.
Defined.

(** ** The bridge mappings that [sync] records *)

(** What a round of the loop over the bridge mappings leaves when it
    returns. *)
Lemma sync_bridge_mapping_run env sb i entry locals s locals' s' :
  sync_bridge_mapping env sb (i, entry) locals s = (inr locals', s') →
  ∃ network bridge,
    split_on COLON entry !! 0 = Some network
    ∧ split_on COLON entry !! 1 = Some bridge
    ∧ ovn_bridge_mappings (agent s') = <[network := bridge]> (ovn_bridge_mappings (agent s))
    ∧ ovn_routing_tables (agent s')
      = (if bool_decide (default ∅ (locals.1 !! bridge) = ∅)
         then match ovn_routing_tables (agent s) !! bridge with
              | Some _ => ovn_routing_tables (agent s)
              | None => <[bridge := alloc_table env (ovn_routing_tables (agent s)) bridge]>
                          (ovn_routing_tables (agent s))
              end
         else ovn_routing_tables (agent s))
    ∧ (bool_decide (default ∅ (locals.1 !! bridge) = ∅) = false → locals'.1 = locals.1)
    ∧ (∀ other, other ≠ bridge → locals'.1 !! other = locals.1 !! other).
Proof.
  unfold sync_bridge_mapping. cbn [fst snd]. unfold py_index.
  destruct (split_on COLON entry !! 0) as [network|]; [|done].
  destruct (split_on COLON entry !! 1) as [bridge|]; [|done].
  intros Hrun. exists network, bridge. split; [done|]. split; [done|].
  revert Hrun. unfold_driver. unfold bind, modify, gets, ret, from_option. simpl.
  destruct (bool_decide (default ∅ (locals.1 !! bridge) = ∅)) eqn:Hfound; simpl.
  - destruct (ovn_routing_tables (agent s) !! bridge) eqn:Ht; simpl.
    all: destruct (get_network_vlan_tag_by_network_name sb network); simpl.
    all: destruct (locals.2 !! bridge); simpl.
    all: try destruct (k_interfaces (kernel s) !! bridge); simpl.
    all: try done.
    all: intros [= <- <-]; simpl; rewrite ?Ht; split_and!; try done.
    all: intros other Hne; by rewrite lookup_insert_ne.
  - destruct (get_network_vlan_tag_by_network_name sb network); simpl.
    all: destruct (locals.2 !! bridge); simpl.
    all: try destruct (k_interfaces (kernel s) !! bridge); simpl.
    all: try done.
    all: intros [= <- <-]; simpl; split_and!; done.
Qed.

Lemma bind_modify {B} (f : State → State) (k : unit → M B) s :
  bind (modify f) k s = k tt (f s).
Proof. done. Qed.

Lemma bind_returns {A B} (m : M A) (k : A → M B) s b s' :
  bind m k s = (inr b, s') → ∃ a s1, m s = (inr a, s1) ∧ k a s1 = (inr b, s').
Proof.
  unfold bind. destruct (m s) as [[e|a] s1]; [done|]. intros H. by exists a, s1.
Qed.

(** A loop that returns has kept its invariant [J], has established [G x]
    for each element, and has kept what was established. *)
Lemma for_fold_run_each {A B} (J : B → State → Prop) (G : A → State → Prop)
    (l : list A) (body : A → B → M B) :
  (∀ x b s b' s', x ∈ l → J b s → body x b s = (inr b', s') →
                  J b' s' ∧ G x s' ∧ ∀ y, G y s → G y s') →
  ∀ acc s acc' s',
    J acc s → for_fold l body acc s = (inr acc', s') →
    J acc' s' ∧ (∀ x, x ∈ l → G x s') ∧ ∀ y, G y s → G y s'.
Proof.
  induction l as [|x l IH]; intros Hbody acc s acc' s' HJ Hrun.
  - injection Hrun as <- <-. split_and!; [done| |done]. intros x Hx. by apply elem_of_nil in Hx.
  - simpl in Hrun. apply bind_returns in Hrun as (b & s1 & Hx & Hrest).
    destruct (Hbody x acc s b s1) as (HJ1 & HG1 & Hkeep1); [left|done|done|].
    destruct (IH (λ y b0 s0 b0' s0' Hy, Hbody y b0 s0 b0' s0' (list_elem_of_further _ _ _ Hy))
                b s1 acc' s' HJ1 Hrest) as (HJ2 & HG2 & Hkeep2).
    split_and!; [done| |by auto].
    intros y [->|Hy]%elem_of_cons; [by apply Hkeep2 | by apply HG2].
Qed.

(** A round of the loop keeps, for the mapped and for the found bridges,
    that they have a routing table. *)
Lemma sync_bridge_mapping_tables env sb i entry locals s locals' s' :
  mapped_bridges_have_tables s ∧ found_bridges_have_tables locals s →
  sync_bridge_mapping env sb (i, entry) locals s = (inr locals', s') →
  (mapped_bridges_have_tables s' ∧ found_bridges_have_tables locals' s')
  ∧ (∃ network, split_on COLON entry !! 0 = Some network
                ∧ is_Some (ovn_bridge_mappings (agent s') !! network))
  ∧ dom (ovn_bridge_mappings (agent s)) ⊆ dom (ovn_bridge_mappings (agent s')).
Proof.
  intros [Hwf Hfound] Hrun.
  destruct (sync_bridge_mapping_run _ _ _ _ _ _ _ _ Hrun)
    as (network & bridge & H0 & H1 & Hmap & Htab & Hsame & Hother).
  assert (∀ b, is_Some (ovn_routing_tables (agent s) !! b) →
               is_Some (ovn_routing_tables (agent s') !! b)) as Hgrow.
  { intros b Hb. rewrite Htab. case_bool_decide; [|done].
    destruct (ovn_routing_tables (agent s) !! bridge) eqn:Ht; [done|].
    destruct (decide (b = bridge)) as [->|Hne];
      [by rewrite lookup_insert_eq | by rewrite lookup_insert_ne]. }
  assert (is_Some (ovn_routing_tables (agent s') !! bridge)) as Hbridge.
  { rewrite Htab. case_bool_decide as Hdec.
    - destruct (ovn_routing_tables (agent s) !! bridge) eqn:Ht; [by rewrite Ht|].
      by rewrite lookup_insert_eq.
    - by apply Hfound. }
  split_and!.
  - intros net b. rewrite Hmap. intros [[_ <-]|[_ Hb]]%lookup_insert_Some; [done|].
    apply Hgrow. by apply (Hwf net).
  - intros b Hb. destruct (decide (b = bridge)) as [->|Hne]; [done|].
    apply Hgrow, Hfound. by rewrite <-Hother.
  - exists network. split; [done|]. by rewrite Hmap, lookup_insert_eq.
  - rewrite Hmap, dom_insert. apply union_subseteq_r.
Qed.

Lemma elem_of_zip_seq {A} (l : list A) x :
  x ∈ l → ∃ i, (i, x) ∈ zip (seq 0 (length l)) l.
Proof.
  intros [i Hi]%list_elem_of_lookup. exists i.
  apply list_elem_of_lookup. exists i.
  apply lookup_zip_with_Some. exists i, x. split_and!; [done| |done].
  apply lookup_seq. split; [done|]. by apply lookup_lt_Some in Hi.
Qed.

Lemma sync_bridge_mapping_step env sb x b s b' s' :
  mapped_bridges_have_tables s ∧ found_bridges_have_tables b s →
  sync_bridge_mapping env sb x b s = (inr b', s') →
  (mapped_bridges_have_tables s' ∧ found_bridges_have_tables b' s')
  ∧ network_recorded x s'
  ∧ ∀ y, network_recorded y s → network_recorded y s'.
Proof.
  destruct x as [i entry]. intros HJ Hrun.
  destruct (sync_bridge_mapping_tables env sb i entry b s b' s' HJ Hrun)
    as (HJ' & HG & Hdom).
  split; [done|]. split; [done|].
  intros y (network & Hnet & Hin). exists network. split; [done|].
  apply elem_of_dom, Hdom, elem_of_dom, Hin.
Qed.

(** That every mapped bridge has a routing table is kept by a [sync] that
    returns, and such a [sync] has recorded every configured bridge
    mapping: the network of each entry of the configuration is a key of
    [ovn_bridge_mappings] afterwards, mapped to a bridge with a routing
    table. *)
Theorem sync_maps_bridges_to_tables env sb s :
  mapped_bridges_have_tables s →
  (sync env sb s).1 = inr tt →
  mapped_bridges_have_tables (sync env sb s).2
  ∧ ∀ entry, entry ∈ get_ovn_bridge_mappings env →
      ∃ network bridge,
        split_on COLON entry !! 0 = Some network
        ∧ ovn_bridge_mappings (agent (sync env sb s).2) !! network = Some bridge
        ∧ is_Some (ovn_routing_tables (agent (sync env sb s).2) !! bridge).
Proof.
  intros Hwf Hret.
  destruct (sync env sb s) as [r s'] eqn:Hsync. simpl in Hret. subst r. simpl.
  unfold sync, reset_bookkeeping, linux_net.ensure_vrf, linux_net.ensure_ovn_device in Hsync.
  rewrite !bind_modify in Hsync.
  apply bind_returns in Hsync as (locals & s1 & Hloop & Hrest).
  match type of Hloop with for_fold _ _ _ ?s3 = _ =>
    assert (mapped_bridges_have_tables s3) as Hwf3 by exact Hwf;
    assert (found_bridges_have_tables (∅, ∅) s3) as Hfound3
      by (intros b Hb; cbn [fst] in Hb; by rewrite lookup_empty in Hb)
  end.
  destruct (for_fold_run_each
              (λ b s, mapped_bridges_have_tables s ∧ found_bridges_have_tables b s)
              network_recorded _ _
              (λ x b s0 b' s0' _, sync_bridge_mapping_step env sb x b s0 b' s0')
              _ _ _ _ (conj Hwf3 Hfound3) Hloop) as ([Hwf1 _] & HG1 & _).
  match type of Hrest with ?m s1 = _ =>
    assert (inv (λ s2, ovn_bridge_mappings (agent s2) = ovn_bridge_mappings (agent s1)
                       ∧ ovn_routing_tables (agent s2) = ovn_routing_tables (agent s1))
              (λ _, True) m) as Hinv
      by (inv_auto; simpl in *; done)
  end.
  destruct (Hinv s1) as [[Hm Ht] _]; [done|].
  rewrite Hrest in Hm, Ht. simpl in Hm, Ht.
  assert (mapped_bridges_have_tables s') as Hwf'.
  { intros net b. rewrite Hm, Ht. apply Hwf1. }
  split; [done|].
  intros entry [i Hi]%elem_of_zip_seq.
  destruct (HG1 _ Hi) as (network & Hnet & [bridge Hb]).
  exists network, bridge. rewrite Hm. split_and!; [done..|].
  apply (Hwf' network). by rewrite Hm.
Qed.

Lemma sync_maps_bridges_to_tables_witness :
  mapped_bridges_have_tables (sync demo_env (demo_sb [provider_vm] false []) started).2.
Proof.
  apply (sync_maps_bridges_to_tables demo_env (demo_sb [provider_vm] false []) started).
  - intros network bridge H.
    change (({["public" := "br-ex"]} : gmap string string) !! network = Some bridge) in H.
    apply lookup_singleton_Some in H as [_ <-]. by exists 200%Z.
  - by vm_compute.
Defined.

(** ** A bridge mapping that [sync] cannot read *)

Lemma bind_raises {A B} (m : M A) (k : A → M B) s e s' :
  m s = (inl e, s') → bind m k s = (inl e, s').
Proof. unfold bind. by intros ->. Qed.

(** A loop with an element whose round always raises does not return. *)
Lemma for_fold_raises {A B} (l : list A) (body : A → B → M B) acc s x :
  x ∈ l →
  (∀ b s, ∃ e s', body x b s = (inl e, s')) →
  ∃ e s', for_fold l body acc s = (inl e, s').
Proof.
  intros Hx Hbad. revert acc s.
  induction l as [|y l IH]; intros acc s; [by apply elem_of_nil in Hx|].
  simpl. unfold bind. destruct (body y acc s) as [[e|b] s1] eqn:Hy; [by eauto|].
  apply elem_of_cons in Hx as [->|Hx]; [|by apply IH].
  destruct (Hbad acc s) as (e & s' & He). congruence.
Qed.

Lemma sync_bridge_mapping_malformed env sb i entry b s :
  split_on COLON entry !! 1 = None →
  sync_bridge_mapping env sb (i, entry) b s = (inl IndexError, s).
Proof.
  intros H1. unfold sync_bridge_mapping, py_index. cbn [fst snd].
  destruct (split_on COLON entry !! 0); [|done]. by rewrite H1.
Qed.

(** A configured bridge mapping without a colon makes [sync] raise
    ([IndexError] at line 140, or the [KeyError] of line 159 for an earlier
    mapping whose bridge is not an interface) before anything is exposed or
    deleted: the addresses of the dummy device, the rules, the routes and
    the NDP proxies are as before, and the bookkeeping of the gateways, of
    the router ports and of the routes has been emptied. *)
Theorem sync_malformed_bridge_mapping env sb s entry :
  entry ∈ get_ovn_bridge_mappings env →
  split_on COLON entry !! 1 = None →
  ∃ e, (sync env sb s).1 = inl e
       ∧ (e = IndexError ∨ e = KeyError)
       ∧ same_surface s (sync env sb s).2
       ∧ ovn_local_cr_lrps (agent (sync env sb s).2) = ∅
       ∧ ovn_local_lrps (agent (sync env sb s).2) = ∅
       ∧ ovn_routing_tables_routes (agent (sync env sb s).2) = ∅.
Proof.
  intros [i Hi]%elem_of_zip_seq Hbad.
  unfold sync, reset_bookkeeping, linux_net.ensure_vrf, linux_net.ensure_ovn_device.
  rewrite !bind_modify.
  match goal with |- context [bind (for_fold ?l ?body ?acc) ?k ?s3] =>
    destruct (for_fold_raises l body acc s3 (i, entry) Hi) as (e & s4 & Hloop);
      [intros b s0; exists IndexError, s0; by apply sync_bridge_mapping_malformed|];
    assert (inv (λ s', same_surface s s'
                       ∧ ovn_local_cr_lrps (agent s') = ∅
                       ∧ ovn_local_lrps (agent s') = ∅
                       ∧ ovn_routing_tables_routes (agent s') = ∅)
              (λ e, e = IndexError ∨ e = KeyError) (for_fold l body acc)) as Hinv;
      [|destruct (Hinv s3) as [HI HE]; [done|];
        rewrite (bind_raises _ k _ _ _ Hloop); rewrite Hloop in HI, HE]
  end.
  - inv_auto; auto.
    all: match goal with H : same_surface _ _ ∧ _ |- _ => destruct H as (Hs & ? & ? & ?) end.
    all: try by repeat split.
    simpl. unfold same_surface. simpl.
    match goal with |- context [ovn_routing_tables (agent ?s) !! ?b] =>
      destruct (ovn_routing_tables (agent s) !! b) end; simpl; by split.
  - exists e. simpl in *. destruct HI as (? & ? & ? & ?). split_and!; auto.
Qed.

Lemma sync_malformed_bridge_mapping_witness :
  ∃ e, (sync (mkEnv (get_ip_version demo_env) (parsable_ip demo_env) (ip_in_network demo_env)
                (alloc_table demo_env) ["public:br-ex"; "br-ex2"]
                (ovs_flows_in_ports demo_env) (ovs_remove_extra_flows demo_env)
                (ovs_ensure_default_flows demo_env))
          (demo_sb [provider_vm] false []) restarted).1 = inl e
       ∧ (e = IndexError ∨ e = KeyError).
Proof.
  destruct (sync_malformed_bridge_mapping
              (mkEnv (get_ip_version demo_env) (parsable_ip demo_env) (ip_in_network demo_env)
                 (alloc_table demo_env) ["public:br-ex"; "br-ex2"]
                 (ovs_flows_in_ports demo_env) (ovs_remove_extra_flows demo_env)
                 (ovs_ensure_default_flows demo_env))
              (demo_sb [provider_vm] false []) restarted "br-ex2")
    as (e & He & Hcases & _).
  - apply (bool_decide_unpack _). by vm_compute.
  - reflexivity.
  - by exists e.
Defined.

(** ** Rules for [returns] *)

Lemma returns_ret {A} (a : A) (Q : A → Prop) : Q a → returns (ret a) Q.
Proof. intros H s a' s' [= <- _]. done. Qed.

Lemma returns_bind {A B} (m : M A) (k : A → M B) (Q' : A → Prop) (Q : B → Prop) :
  returns m Q' → (∀ a, Q' a → returns (k a) Q) → returns (bind m k) Q.
Proof.
  intros Hm Hk s b s' Hrun. apply bind_returns in Hrun as (a & s1 & Ha & Hb).
  by apply (Hk a (Hm _ _ _ Ha) s1 b s').
Qed.

Lemma returns_bind_any {A B} (m : M A) (k : A → M B) (Q : B → Prop) :
  (∀ a, returns (k a) Q) → returns (bind m k) Q.
Proof. intros Hk. apply (returns_bind m k (λ _, True)); [done | auto]. Qed.

Lemma returns_for_fold {A B} (J : B → Prop) (l : list A) (body : A → B → M B) acc :
  J acc → (∀ x b, x ∈ l → J b → returns (body x b) J) → returns (for_fold l body acc) J.
Proof.
  revert acc. induction l as [|x l IH]; intros acc HJ Hbody; simpl.
  - by apply returns_ret.
  - apply (returns_bind _ _ J); [apply Hbody; [left | done]|].
    intros b Hb. apply IH; [done|]. intros y b' Hy. apply Hbody. by right.
Qed.

Lemma returns_try_mac_field port i :
  returns (try_except is_IndexError (ip <- mac_field port i ;; ret (Some ip)) (λ _, ret None))
    (λ r, r = mac_field_opt port i).
Proof. intros s r s'. rewrite try_mac_field_run. by intros [= <- _]. Qed.

Lemma returns_checked_port_ips port :
  returns (checked_port_ips port)
    (λ r, ∀ ips ip, r = Some ips → ip ∈ ips →
          ∃ i, (i = 1 ∨ i = 2) ∧ mac_field_opt port i = Some ip).
Proof.
  intros s r s'. unfold checked_port_ips.
  unfold bind at 1. destruct (mac_field_count port s) as [[e|n] s1]; [done|].
  destruct (bool_decide (n ≠ 2) && bool_decide (n ≠ 3)); [by intros [= <- _] ips ip|].
  unfold bind at 1. rewrite mac_field_run.
  destruct (mac_field_opt port 1) as [ip1|] eqn:H1; [|done].
  case_bool_decide.
  - unfold bind. rewrite mac_field_run.
    destruct (mac_field_opt port 2) as [ip2|] eqn:H2; [|done].
    intros [= <- _] ips ip [= <-] Hip.
    apply elem_of_cons in Hip as [->|Hip]; [by exists 1; auto|].
    apply list_elem_of_singleton in Hip as ->. exists 2; auto.
  - intros [= <- _] ips ip [= <-] ->%list_elem_of_singleton. exists 1; auto.
Qed.

Ltac returns_step :=
  lazymatch goal with
  | |- returns (bind (tenant_port_ips _) _) _ =>
      apply (returns_bind _ _ _ _ (returns_tenant_port_ips _)); intros ? ?; cbv beta in *
  | |- returns (bind (checked_port_ips _) _) _ =>
      apply (returns_bind _ _ _ _ (returns_checked_port_ips _)); intros ? ?; cbv beta in *
  | |- returns (bind (from_option _ (_ !! _)) _) _ =>
      apply (returns_bind _ _ _ _ (returns_from_option _ _)); intros ? ?; cbv beta in *
  | |- returns (bind (try_except is_IndexError _ _) _) _ =>
      apply (returns_bind _ _ _ _ (returns_try_mac_field _ _)); intros ? ?; cbv beta in *
  | |- returns (bind _ _) _ => apply returns_bind_any; intros ?
  | |- returns (ret _) _ => apply returns_ret
  | |- returns (for_fold _ _ _) _ => apply returns_for_fold; [| intros ? ? ? ?]
  | |- returns (match ?x with _ => _ end) _ => destruct x eqn:?
  | |- returns (let _ := _ in _) _ => cbv zeta
  end.

(** The value of [_expose_ip] is the floating IP of the row, if any. *)
Lemma returns_expose_ip env sb ips row ap :
  returns (_expose_ip env sb ips row ap)
    (λ r, ∀ fip, r = Some fip →
          ∃ datapath, get_fip_associated sb (p_logical_port row) = Some (fip, datapath)).
Proof.
  unfold _expose_ip. repeat returns_step; try (by intros fip [=]).
  intros fip [= <-]. by eexists.
Qed.

Ltac returns_step_fip :=
  lazymatch goal with
  | |- returns (bind (_expose_ip _ _ _ _ _) _) _ =>
      apply (returns_bind _ _ _ _ (returns_expose_ip _ _ _ _ _)); intros ? ?; cbv beta in *
  | _ => returns_step
  end.

(** ** What [sync] deletes *)

Lemma list_remove_first_keeps x y l :
  x ≠ y → x ∈ l → x ∈ list_remove_first y l.
Proof.
  intros Hne. induction l as [|z l IH]; [done|]. simpl.
  destruct (decide (y = z)) as [->|Hyz].
  - intros [->|H]%elem_of_cons; done.
  - intros [->|H]%elem_of_cons; [left | right; auto].
Qed.

Lemma mark_kept_keeps sb c entry ip ip_dst snap :
  accounted_address sb c ip → accounted_rule sb c ip_dst →
  keeps_unaccounted sb c entry snap → keeps_unaccounted sb c entry (mark_kept ip ip_dst snap).
Proof.
  intros Hip Hdst. destruct entry as [x|dst]; simpl; intros Hkeep Hno.
  - apply list_remove_first_keeps; [by intros -> | auto].
  - rewrite dom_delete. apply elem_of_difference. split; [auto|].
    intros ->%elem_of_singleton. done.
Qed.

Lemma host_dst_accounted env sb c versioned ip :
  accounted_address sb c ip → accounted_rule sb c (host_dst env versioned ip).
Proof.
  intros Hip. left. exists ip. split; [done|]. unfold host_dst.
  destruct (_ =? _)%Z; auto.
Qed.

Lemma ensure_port_exposed_keeps env sb c entry port snap :
  port ∈ get_ports_on_chassis sb c →
  keeps_unaccounted sb c entry snap →
  returns (_ensure_port_exposed env sb port snap) (keeps_unaccounted sb c entry).
Proof.
  intros Hport HJ. unfold _ensure_port_exposed.
  repeat returns_step_fip; try done.
  - match goal with H : ∀ fip, ?a = Some fip → _ |- _ =>
      rename H into Hfip; destruct a as [fip|]; [|done] end.
    destruct (truthy fip); [|done].
    destruct (Hfip fip eq_refl) as [datapath Hdp].
    assert (accounted_address sb c fip) as Hacc by (right; left; by exists port, datapath).
    apply mark_kept_keeps; [done| |done].
    left. exists fip. auto.
  - match goal with H : ∀ ips ip, _ = Some ips → _, Hin : ?port_ip ∈ _ |- _ =>
      destruct (H _ port_ip eq_refl Hin) as (i & Hi & Hfield);
      assert (accounted_address sb c (without_mask port_ip)) as Hacc
        by (left; by exists port, i, port_ip)
    end.
    apply mark_kept_keeps; [done| |done]. by apply host_dst_accounted.
Qed.

Lemma ensure_cr_lrp_ports_keeps env sb c entry cr_lrp snap :
  cr_lrp ∈ get_cr_lrp_ports_on_chassis sb c →
  keeps_unaccounted sb c entry snap →
  returns (_ensure_cr_lrp_associated_ports_exposed env sb cr_lrp snap)
    (keeps_unaccounted sb c entry).
Proof.
  intros Hcr HJ. unfold _ensure_cr_lrp_associated_ports_exposed. cbv zeta.
  repeat returns_step_fip; try done.
  match goal with Hin : ?ip ∈ _ |- _ =>
    assert (accounted_address sb c ip) as Hacc by (right; right; left; by exists cr_lrp)
  end.
  apply mark_kept_keeps; [done| |done]. by apply host_dst_accounted.
Qed.

Lemma router_port_rule_keeps sb c entry router lrp rip snap :
  lrp ∈ get_lrp_ports_for_router sb router →
  Some rip = mac_field_opt lrp 1 →
  keeps_unaccounted sb c entry snap →
  keeps_unaccounted sb c entry (snap.1, delete rip snap.2).
Proof.
  intros Hlrp Hrip. destruct entry as [x|dst]; simpl; [done|]. intros Hkeep Hno.
  rewrite dom_delete. apply elem_of_difference. split; [auto|].
  intros ->%elem_of_singleton. apply Hno. right. by exists router, lrp.
Qed.

Lemma ensure_network_exposed_keeps env sb c entry router lrp info snap :
  lrp ∈ get_lrp_ports_for_router sb router →
  keeps_unaccounted sb c entry snap →
  returns (_ensure_network_exposed env sb lrp info snap) (keeps_unaccounted sb c entry).
Proof.
  intros Hlrp HJ. unfold _ensure_network_exposed. cbv zeta.
  repeat returns_step_fip; try done.
  all: try by apply (router_port_rule_keeps sb c entry router lrp).
  match goal with
  | Hpeer : _ !! _ = Some ?peer,
    Hdp : get_port_datapath _ ?peer = Some ?dp,
    Hport : ?port ∈ get_ports_on_datapath _ ?dp,
    Hvm : context [is_vm_or_virtual ?port],
    Hips : ∀ ips ip, Some ?l = Some ips → _,
    Hip : ?ip ∈ ?l |- _ =>
      destruct (Hips l ip eq_refl Hip) as (i & Hi & Hfield);
      assert (is_vm_or_virtual port = true)
        by (destruct (is_vm_or_virtual port); [done | by simpl in Hvm]);
      assert (accounted_address sb c ip) as Hacc
        by (right; right; right; exists router, lrp; split; [done|];
            by exists peer, dp, port, i)
  end.
  apply mark_kept_keeps; [done| |done].
  left. eexists. split; [done|]. destruct (_ =? IP_VERSION_6)%Z; auto.
Qed.

(** The loop over the bridge mappings does not touch the addresses, the
    rules, the routes or the chassis name, and keeps the routing tables. *)
Lemma bridge_loop_keeps_surface env sb s0 l acc :
  inv (λ s, same_surface s0 s ∧ chassis (agent s) = chassis (agent s0) ∧ tables_persist s0 s)
    (λ _, True) (for_fold l (sync_bridge_mapping env sb) acc).
Proof.
  inv_auto.
  all: match goal with H : same_surface _ _ ∧ _ |- _ =>
         destruct H as ((Hd & Hr & Hro & Hn) & Hc & HT & HM) end.
  all: unfold same_surface, tables_persist in *; simpl in *.
  all: try (split_and!; done).
  - split_and!; try done. rewrite dom_insert. set_solver.
  - match goal with |- context [ovn_routing_tables (agent ?s) !! ?b] =>
      destruct (ovn_routing_tables (agent s) !! b) eqn:Hlk end; simpl; [by split_and!|].
    split_and!; try done.
    intros bridge table Hb. rewrite lookup_insert_ne; [by apply HT|].
    intros ->. apply HT in Hb. congruence.
Qed.

(** When [sync] returns, its snapshots still hold what was on the device,
    or among the rules of the bridges' tables, and is not accounted for;
    and the last statements delete what the snapshots hold. *)
Lemma sync_final_snapshots env sb s s' entry :
  sync env sb s = (inr tt, s') →
  match entry with
  | inl x => x ∈ k_dev_ips (kernel s)
  | inr dst => ∃ rule bridge, k_ip_rules (kernel s) !! dst = Some rule
                              ∧ ovn_routing_tables (agent s) !! bridge = Some rule.1
  end →
  ∃ snap s8,
    keeps_unaccounted sb (chassis (agent s)) entry snap
    ∧ k_dev_ips (kernel s') = k_dev_ips (kernel s8) ∖ list_to_set snap.1
    ∧ k_ip_rules (kernel s') = k_ip_rules (kernel s8) ∖ snap.2.
Proof.
  intros Hsync Hentry.
  unfold sync, reset_bookkeeping, linux_net.ensure_vrf, linux_net.ensure_ovn_device in Hsync.
  rewrite !bind_modify in Hsync.
  apply bind_returns in Hsync as (locals & s1 & Hloop & Hrest).
  match type of Hloop with for_fold ?l _ ?acc ?s3 = _ =>
    destruct (bridge_loop_keeps_surface env sb s3 l acc s3) as [HI _];
      [by repeat split|]
  end.
  rewrite Hloop in HI. destruct HI as ((Hdev & Hrules & _ & _) & Hchassis & Htables & _).
  simpl in Hdev, Hrules, Hchassis, Htables.
  unfold linux_net.remove_extra_ovs_flows in Hrest. rewrite bind_modify in Hrest.
  unfold linux_net.get_exposed_ips, linux_net.get_ovn_ip_rules in Hrest.
  do 4 (rewrite bind_gets in Hrest; cbv beta in Hrest).
  apply bind_returns in Hrest as (snap1 & s6 & Hports & Hrest).
  apply bind_returns in Hrest as (snap2 & s7 & Hcr & Hrest).
  rewrite bind_gets in Hrest. cbv beta in Hrest.
  apply bind_returns in Hrest as (snap3 & s8 & Htenant & Hrest).
  unfold linux_net.delete_exposed_ips, linux_net.delete_ip_rules,
    linux_net.delete_bridge_ip_routes in Hrest.
  rewrite !bind_modify in Hrest. injection Hrest as <-.
  exists snap3, s8. split; [|by split].
  simpl in Hports, Hcr. rewrite Hchassis in Hports, Hcr.
  set (c := chassis (agent s)) in *.
  set (J := keeps_unaccounted sb c entry).
  assert (J snap2) as H2.
  { refine (returns_for_fold J _ _ _ _ _ _ _ _ Hcr).
    - refine (returns_for_fold J _ _ _ _ _ _ _ _ Hports).
      + destruct entry as [x|dst]; intros _; simpl.
        * apply elem_of_elements. by rewrite Hdev.
        * destruct Hentry as (rule & bridge & Hrule & Htable).
          apply elem_of_dom. exists rule. apply map_lookup_filter_Some.
          split; [by rewrite Hrules|]. simpl.
          apply list_elem_of_fmap. exists (bridge, rule.1). split; [done|].
          apply elem_of_map_to_list. simpl. by apply Htables.
      + intros port b Hin Hb. by apply ensure_port_exposed_keeps.
    - intros cr_lrp b Hin Hb. by apply ensure_cr_lrp_ports_keeps. }
  destruct (expose_tenant_networks (agent s7)); [|by injection Htenant as <- _].
  rewrite bind_gets in Htenant.
  refine (returns_for_fold J _ _ _ H2 _ _ _ _ Htenant).
  intros info b _ Hb. apply returns_for_fold; [done|].
  intros lrp b' Hin Hb'. destruct (bool_decide (p_chassis lrp ≠ [])).
  - by apply returns_ret.
  - by apply (ensure_network_exposed_keeps env sb c entry (router_datapath info)).
Qed.

(** The last statements of [sync] remove what is left in the snapshot
    [exposed_ips]: when [sync] returns, an address that was on the dummy
    device and that nothing accounts for (it is no IP of a port on this
    chassis, no floating IP of such a port, no NAT address of a gateway on
    this chassis and no address of a VM behind a router port) is not on the
    device any more. *)
Theorem sync_deletes_unaccounted_address env sb s x :
  (sync env sb s).1 = inr tt →
  x ∈ k_dev_ips (kernel s) →
  ¬ accounted_address sb (chassis (agent s)) x →
  x ∉ k_dev_ips (kernel (sync env sb s).2).
Proof.
  intros Hret Hx Hno.
  destruct (sync env sb s) as [r s'] eqn:Hsync. simpl in Hret. subst r.
  destruct (sync_final_snapshots env sb s s' (inl x) Hsync Hx) as (snap & s8 & HJ & Hdev & _).
  simpl. rewrite Hdev. intros [_ Hout]%elem_of_difference. apply Hout.
  apply elem_of_list_to_set. by apply HJ.
Qed.

(** The same for the snapshot [ovn_ip_rules]: when [sync] returns, a rule
    that pointed at the table of a bridge and whose destination nothing
    accounts for (it is neither the host route of an accounted address nor
    the address of a router port) is gone. *)
Theorem sync_deletes_unaccounted_rule env sb s dst rule bridge :
  (sync env sb s).1 = inr tt →
  k_ip_rules (kernel s) !! dst = Some rule →
  ovn_routing_tables (agent s) !! bridge = Some rule.1 →
  ¬ accounted_rule sb (chassis (agent s)) dst →
  k_ip_rules (kernel (sync env sb s).2) !! dst = None.
Proof.
  intros Hret Hrule Htable Hno.
  destruct (sync env sb s) as [r s'] eqn:Hsync. simpl in Hret. subst r.
  destruct (sync_final_snapshots env sb s s' (inr dst) Hsync) as (snap & s8 & HJ & _ & Hrules).
  { by exists rule, bridge. }
  simpl. rewrite Hrules. apply lookup_difference_None. right.
  apply elem_of_dom. by apply HJ.
Qed.

(** In the view whose only port is the VM of scenario 1, the only
    accounted address is the VM's. *)
Lemma accounted_address_provider_vm x :
  accounted_address (demo_sb [provider_vm] false []) "host1" x → x = "10.0.0.5".
Proof.
  intros [(port & i & ip & Hp & Hi & Hf & ->)
         |[(port & dp & Hp & Hfip)|[(cr & Hcr & _)|(router & lrp & Hlrp & _)]]].
  - apply list_elem_of_singleton in Hp as ->.
    destruct Hi as [-> | ->]; vm_compute in Hf; [by injection Hf as <- | done].
  - done.
  - by apply elem_of_nil in Hcr.
  - simpl in Hlrp. destruct (String.eqb router "dp-router"); by apply elem_of_nil in Hlrp.
Qed.

Lemma sync_deletes_unaccounted_address_witness :
  "10.0.0.99" ∉ k_dev_ips (kernel (sync demo_env (demo_sb [provider_vm] false []) restarted).2).
Proof.
  apply (sync_deletes_unaccounted_address demo_env (demo_sb [provider_vm] false []) restarted).
  - by vm_compute.
  - by vm_compute.
  - intros H%accounted_address_provider_vm. discriminate H.
Defined.

Lemma sync_deletes_unaccounted_rule_witness :
  k_ip_rules (kernel (sync demo_env (demo_sb [provider_vm] false []) restarted).2)
    !! "10.0.0.99/32" = None.
Proof.
  apply (sync_deletes_unaccounted_rule demo_env (demo_sb [provider_vm] false []) restarted
           "10.0.0.99/32" (200%Z, None) "br-ex").
  - by vm_compute.
  - reflexivity.
  - reflexivity.
  - intros [(x & ->%accounted_address_provider_vm & [H|H])|(router & lrp & Hlrp & _)].
    + discriminate H.
    + discriminate H.
    + simpl in Hlrp. destruct (String.eqb router "dp-router"); by apply elem_of_nil in Hlrp.
Defined.

(** ** The subscribed events *)

Lemma tenant_event_subscribed a ev :
  ev ∈ tenant_events → (ev ∈ _get_events a ↔ expose_tenant_networks a = true).
Proof.
  intros Hev. unfold _get_events. destruct (expose_tenant_networks a).
  - split; [done|]. intros _. apply elem_of_union_r. by apply elem_of_list_to_set.
  - split; [|done]. intros Hin. exfalso. revert Hin.
    unfold tenant_events in Hev.
    repeat (apply elem_of_cons in Hev as [->|Hev]);
      [..|by apply elem_of_nil in Hev];
      apply (bool_decide_unpack _); by vm_compute.
Qed.

(** [_get_events] always subscribes the five events of port bindings,
    floating IPs and chassis, and the four events of tenant networks exactly
    when [expose_tenant_networks] is set; and when an event of tenant
    networks is not subscribed, the handlers of tenant networks
    ([expose_subnet], [withdraw_subnet], [expose_remote_ip],
    [withdraw_remote_ip]) would leave the state as it is anyway. *)
Theorem tenant_events_follow_configuration env sb ips ip row s ev :
  list_to_set ["PortBindingChassisCreatedEvent"; "PortBindingChassisDeletedEvent";
               "FIPSetEvent"; "FIPUnsetEvent"; "ChassisCreateEvent"]
    ⊆ _get_events (agent s)
  ∧ (ev ∈ tenant_events →
     (ev ∈ _get_events (agent s) ↔ expose_tenant_networks (agent s) = true)
     ∧ (ev ∉ _get_events (agent s) →
        expose_subnet env sb ip row s = (inr tt, s)
        ∧ withdraw_subnet env sb ip row s = (inr tt, s)
        ∧ expose_remote_ip sb ips row s = (inr tt, s)
        ∧ withdraw_remote_ip sb ips row s = (inr tt, s))).
Proof.
  split.
  - unfold _get_events. destruct (expose_tenant_networks (agent s)); [|done].
    apply union_subseteq_l.
  - intros Hev. split; [by apply tenant_event_subscribed|].
    intros Hout.
    assert (expose_tenant_networks (agent s) = false) as Hoff.
    { destruct (expose_tenant_networks (agent s)) eqn:Hten; [|done].
      exfalso. apply Hout. by apply tenant_event_subscribed. }
    unfold expose_subnet, withdraw_subnet, expose_remote_ip, withdraw_remote_ip.
    rewrite !bind_gets, Hoff. simpl. by rewrite orb_true_r.
Qed.

Lemma tenant_events_follow_configuration_witness :
  expose_subnet demo_env (demo_sb [] true [lrp_1]) "2001:db8:1::1/64" lrp_1 started
  = (inr tt, started).
Proof.
  apply (proj2 (tenant_events_follow_configuration demo_env (demo_sb [] true [lrp_1]) []
                  "2001:db8:1::1/64" lrp_1 started "SubnetRouterAttachedEvent")).
  - apply (bool_decide_unpack _). by vm_compute.
  - apply (bool_decide_unpack _). by vm_compute.
Defined.

(** ** The bridge of a datapath *)

(** [_get_bridge_for_datapath] reads and never writes; a bridge it returns
    is the bridge that [ovn_bridge_mappings] has for the network that the
    southbound view names, so that, when every mapped bridge has a routing
    table, the look-up [self.ovn_routing_tables[rule_bridge]] that follows
    it finds a table; and it raises only [KeyError], when the southbound
    view names a network that is no key of [ovn_bridge_mappings]. *)
Theorem resolved_bridge_has_table sb datapath s :
  let name_tag := get_network_name_and_tag sb datapath
                    (elements (dom (ovn_bridge_mappings (agent s)))) in
  (_get_bridge_for_datapath sb datapath s).2 = s
  ∧ (∀ bridge vlan,
       (_get_bridge_for_datapath sb datapath s).1 = inr (Some bridge, vlan) →
       (∃ network, name_tag.1 = Some network
                   ∧ ovn_bridge_mappings (agent s) !! network = Some bridge)
       ∧ vlan = head name_tag.2
       ∧ (mapped_bridges_have_tables s →
          ∃ table, routing_table_of (Some bridge) s = (inr (bridge, table), s)))
  ∧ (∀ e, (_get_bridge_for_datapath sb datapath s).1 = inl e →
          e = KeyError
          ∧ ∃ network, name_tag.1 = Some network
                       ∧ ovn_bridge_mappings (agent s) !! network = None).
Proof.
  intros name_tag. unfold _get_bridge_for_datapath. rewrite bind_gets. fold name_tag.
  destruct name_tag as [[network|] tags]; cbn [fst snd]; [|by split_and!].
  destruct (truthy network); [|by split_and!].
  unfold bind, from_option.
  destruct (ovn_bridge_mappings (agent s) !! network) as [bridge|] eqn:Hmap; simpl.
  - assert (∀ b vlan, (inr (Some bridge, head tags) : exn + _) = inr (Some b, vlan) →
              (∃ network0, Some network = Some network0
                           ∧ ovn_bridge_mappings (agent s) !! network0 = Some b)
              ∧ vlan = head tags
              ∧ (mapped_bridges_have_tables s →
                 ∃ table, routing_table_of (Some b) s = (inr (b, table), s))) as Hok.
    { intros b vlan [= <- <-]. split_and!; [by exists network | done |].
      intros Hwf. destruct (Hwf network bridge Hmap) as [table Ht].
      exists table. by apply routing_table_of_run. }
    destruct tags as [|tag tags]; simpl; split_and!; try done.
  - split_and!; try done. intros e [= <-]. split; [done|]. by exists network.
Qed.

Lemma resolved_bridge_has_table_witness :
  ∃ table, routing_table_of (Some "br-ex") started = (inr ("br-ex", table), started).
Proof.
  apply (proj1 (proj2 (resolved_bridge_has_table (demo_sb [] false []) "dp-public" started))
           "br-ex" None eq_refl).
  intros network bridge H.
  change (({["public" := "br-ex"]} : gmap string string) !! network = Some bridge) in H.
  apply lookup_singleton_Some in H as [_ <-]. by exists 200%Z.
Defined.

(** ** Remote tenant IPs, exposed and withdrawn *)



(** ** The routes that [sync] deletes *)






(** ** The addresses that [sync] keeps *)

Lemma list_remove_first_sublist x l : list_remove_first x l `sublist_of` l.
Proof.
  induction l as [|y l IH]; simpl; [done|].
  destruct (decide (x = y)); [by apply sublist_cons | by apply sublist_skip].
Qed.

Lemma list_remove_first_drops x l : NoDup l → x ∉ list_remove_first x l.
Proof.
  induction 1 as [|y l Hy Hl IH]; simpl; [by intros ?%elem_of_nil|].
  destruct (decide (x = y)) as [->|Hne]; [done|].
  intros [?|?]%elem_of_cons; done.
Qed.

Lemma mark_kept_sublist ip ip_dst (snap snap0 : Snapshots) :
  snap.1 `sublist_of` snap0.1 → (mark_kept ip ip_dst snap).1 `sublist_of` snap0.1.
Proof. intros H. simpl. etrans; [apply list_remove_first_sublist | done]. Qed.

Lemma for_fold_run_inv {A B} (J : B → State → Prop) (l : list A) (body : A → B → M B) :
  (∀ x b s b' s', x ∈ l → J b s → body x b s = (inr b', s') → J b' s') →
  ∀ acc s acc' s', J acc s → for_fold l body acc s = (inr acc', s') → J acc' s'.
Proof.
  induction l as [|x l IH]; intros Hbody acc s acc' s' HJ Hrun.
  - by injection Hrun as <- <-.
  - simpl in Hrun. apply bind_returns in Hrun as (b & s1 & Hx & Hrest).
    apply (IH (λ y b0 s0 b0' s0' Hy, Hbody y b0 s0 b0' s0' (list_elem_of_further _ _ _ Hy))
             b s1 acc' s'); [|done].
    apply (Hbody x acc s b s1); [left | done | done].
Qed.

(** A loop that returns has kept [J], and has kept [G] from the round of
    [x0] on. *)
Lemma for_fold_run_member {A B} (J G : B → State → Prop) (l : list A)
    (body : A → B → M B) x0 :
  x0 ∈ l →
  (∀ x b s b' s', x ∈ l → J b s → body x b s = (inr b', s') → J b' s') →
  (∀ b s b' s', J b s → body x0 b s = (inr b', s') → G b' s') →
  (∀ x b s b' s', x ∈ l → G b s → body x b s = (inr b', s') → G b' s') →
  ∀ acc s acc' s', J acc s → for_fold l body acc s = (inr acc', s') → G acc' s'.
Proof.
  induction l as [|x l IH]; intros Hx0 HJ Hest Hkeep acc s acc' s' Hacc Hrun;
    [by apply elem_of_nil in Hx0|].
  simpl in Hrun. apply bind_returns in Hrun as (b & s1 & Hx & Hrest).
  apply elem_of_cons in Hx0 as [->|Hx0].
  - assert (G b s1) as HG by (by apply (Hest acc s)).
    apply (for_fold_run_inv G l body
             (λ y b0 s0 b0' s0' Hy, Hkeep y b0 s0 b0' s0' (list_elem_of_further _ _ _ Hy))
             b s1 acc' s' HG Hrest).
  - apply (IH Hx0
             (λ y b0 s0 b0' s0' Hy, HJ y b0 s0 b0' s0' (list_elem_of_further _ _ _ Hy))
             Hest
             (λ y b0 s0 b0' s0' Hy, Hkeep y b0 s0 b0' s0' (list_elem_of_further _ _ _ Hy))
             b s1 acc' s'); [|done].
    apply (HJ x acc s b s1); [left | done | done].
Qed.

Lemma round_keeps_intro x (body : Snapshots → M Snapshots) :
  (∀ snap, returns (body snap) (λ snap', snap'.1 `sublist_of` snap.1)) →
  (∀ snap, inv (λ s, x ∈ k_dev_ips (kernel s)) (λ _, True) (body snap)) →
  round_keeps x body.
Proof.
  intros Hshrink Hdev snap s snap' s' Hrun. split.
  - by apply (Hshrink snap s snap' s').
  - intros Hx. destruct (Hdev snap s Hx) as [HI _]. by rewrite Hrun in HI.
Qed.

Lemma round_keeps_sound x before body snap s snap' s' :
  round_keeps x body → snapshot_sound x before snap s →
  body snap s = (inr snap', s') → snapshot_sound x before snap' s'.
Proof.
  intros Hbody [Hnodup Hdev] Hrun. destruct (Hbody _ _ _ _ Hrun) as [Hsub Hkeep].
  split; [by apply (sublist_NoDup _ snap.1) | auto].
Qed.

Lemma round_keeps_kept x body snap s snap' s' :
  round_keeps x body → address_kept x snap s →
  body snap s = (inr snap', s') → address_kept x snap' s'.
Proof.
  intros Hbody [Hout Hdev] Hrun. destruct (Hbody _ _ _ _ Hrun) as [Hsub Hkeep].
  split; [|auto]. intros Hin. apply Hout. by apply (elem_of_sublist snap'.1 snap.1).
Qed.

Ltac dev_leaf :=
  try done; try (simpl in *; first [done | by apply elem_of_union_l]).

Ltac shrink_leaf :=
  try done;
  try (repeat apply mark_kept_sublist; done);
  try (match goal with |- context [match ?fip with _ => _ end] =>
         destruct fip as [fip|]; [destruct (truthy fip)|];
         repeat apply mark_kept_sublist; done
       end).

Lemma ensure_port_exposed_round env sb x port :
  round_keeps x (_ensure_port_exposed env sb port).
Proof.
  apply round_keeps_intro.
  - intros snap. unfold _ensure_port_exposed. repeat returns_step; shrink_leaf.
  - intros snap. inv_auto; dev_leaf.
Qed.

Lemma ensure_cr_lrp_ports_round env sb x cr_lrp :
  round_keeps x (_ensure_cr_lrp_associated_ports_exposed env sb cr_lrp).
Proof.
  apply round_keeps_intro.
  - intros snap. unfold _ensure_cr_lrp_associated_ports_exposed. cbv zeta.
    repeat returns_step; shrink_leaf.
  - intros snap. inv_auto; dev_leaf.
Qed.

Lemma ensure_network_exposed_round env sb x lrp info :
  round_keeps x (_ensure_network_exposed env sb lrp info).
Proof.
  apply round_keeps_intro.
  - intros snap. unfold _ensure_network_exposed. cbv zeta.
    repeat returns_step; shrink_leaf.
  - intros snap. inv_auto; dev_leaf.
Qed.

Lemma checked_port_ips_pure port s s1 :
  checked_port_ips port s1 = ((checked_port_ips port s).1, s1).
Proof.
  unfold checked_port_ips, mac_field_count, mac_field, bind, from_option, ret, py_index.
  destruct (p_mac port !! 0) as [mac0|]; simpl; [|done].
  destruct (bool_decide (length (split_on SPACE mac0) ≠ 2)
            && bool_decide (length (split_on SPACE mac0) ≠ 3)); [done|].
  destruct (split_on SPACE mac0 !! 1); simpl; [|done].
  destruct (bool_decide (length (split_on SPACE mac0) = 3)); [|done].
  by destruct (split_on SPACE mac0 !! 2).
Qed.

Lemma for_fold_pure {A B} (l : list A) (f : A → B → B) acc s :
  for_fold l (λ y b, ret (f y b)) acc s = (inr (foldl (λ b y, f y b) acc l), s).
Proof. revert acc. induction l as [|y l IH]; intros acc; [done|]. simpl. apply IH. Qed.

Lemma foldl_mark_sublist (f : string → string * string) l (acc : Snapshots) :
  (foldl (λ b y, mark_kept (f y).1 (f y).2 b) acc l).1 `sublist_of` acc.1.
Proof.
  revert acc. induction l as [|y l IH]; intros acc; [done|]. simpl.
  etrans; [apply IH|]. apply list_remove_first_sublist.
Qed.

Lemma foldl_mark_drops (f : string → string * string) l (acc : Snapshots) y :
  NoDup acc.1 → y ∈ l → (f y).1 ∉ (foldl (λ b y, mark_kept (f y).1 (f y).2 b) acc l).1.
Proof.
  revert acc. induction l as [|z l IH]; intros acc Hnodup Hy; [by apply elem_of_nil in Hy|].
  simpl. apply elem_of_cons in Hy as [->|Hy].
  - intros Hin.
    apply (list_remove_first_drops (f z).1 acc.1 Hnodup).
    apply (elem_of_sublist _ _ _ Hin). apply (foldl_mark_sublist f l (mark_kept _ _ acc)).
  - apply IH; [|done]. simpl.
    apply (sublist_NoDup _ acc.1); [done | apply list_remove_first_sublist].
Qed.

(** The round of a port whose row is read takes the port's addresses out
    of the snapshot, and leaves them on the dummy device if they were there
    or if the port is a VM on a provider network. *)
Lemma ensure_port_exposed_establishes env sb before port port_ips ip snap s snap' s' :
  p_type port ∈ OVN_VIF_PORT_TYPES →
  (checked_port_ips port s).1 = inr (Some port_ips) →
  ip ∈ port_ips →
  before ∨ (is_vm_or_virtual port = true
            ∧ is_provider_network sb (p_datapath port) = true
            ∧ without_mask ip = ip) →
  snapshot_sound (without_mask ip) before snap s →
  _ensure_port_exposed env sb port snap s = (inr snap', s') →
  address_kept (without_mask ip) snap' s'.
Proof.
  intros Hty Hchecked Hip Hcase [Hnodup Hdev] Hrun.
  unfold _ensure_port_exposed in Hrun.
  rewrite bool_decide_eq_false_2 in Hrun by (intros H; by apply H).
  assert (checked_port_ips port s = (inr (Some port_ips), s)) as Hc
    by (by rewrite (checked_port_ips_pure port s s), Hchecked).
  rewrite (bind_run _ _ _ _ _ Hc) in Hrun.
  apply bind_returns in Hrun as (fip & s1 & Hexp & Hfold).
  set (snap1 := match fip with
                | Some fip => if truthy fip then mark_kept fip (fip +:+ "/32") snap else snap
                | None => snap
                end) in *.
  change (for_fold port_ips
            (λ port_ip b,
               ret ((λ y b, mark_kept ((λ y, (without_mask y, host_dst env y (without_mask y))) y).1
                                      ((λ y, (without_mask y, host_dst env y (without_mask y))) y).2 b)
                      port_ip b)) snap1 s1 = (inr snap', s')) in Hfold.
  rewrite for_fold_pure in Hfold. injection Hfold as <- <-.
  assert (NoDup snap1.1) as Hnodup1.
  { unfold snap1. destruct fip as [fip|]; [|done]. destruct (truthy fip); [|done].
    apply (sublist_NoDup _ snap.1); [done | apply list_remove_first_sublist]. }
  split.
  - apply (foldl_mark_drops (λ y, (without_mask y, host_dst env y (without_mask y)))
             port_ips snap1 ip Hnodup1 Hip).
  - assert (∀ m : M (option string),
              inv (λ s, without_mask ip ∈ k_dev_ips (kernel s)) (λ _, True) m →
              ∀ s0, without_mask ip ∈ k_dev_ips (kernel s0) → m s0 = (inr fip, s1) →
                    without_mask ip ∈ k_dev_ips (kernel s1)) as Hruninv.
    { intros m Hm s0 Hs0 Hms. destruct (Hm s0 Hs0) as [HI _]. by rewrite Hms in HI. }
    destruct Hcase as [Hbefore|(Hvm & Hprov & Hmask)].
    + apply (Hruninv (_expose_ip env sb port_ips port None)) with s;
        [|by apply Hdev|done].
      inv_auto; dev_leaf.
    + unfold _expose_ip in Hexp. rewrite Hvm, Hprov in Hexp. simpl in Hexp.
      unfold linux_net.add_ips_to_dev in Hexp. rewrite bind_modify in Hexp.
      cbv beta in Hexp.
      match type of Hexp with ?m ?s0 = _ => apply (Hruninv m) with s0; [| |exact Hexp] end.
      * inv_auto; dev_leaf.
      * simpl. apply elem_of_union_r, elem_of_list_to_set. by rewrite Hmask.
Qed.

(** When [sync] returns, the addresses of a port on this chassis whose row
    is read are on the dummy device if they were there before, or if the
    port is a VM on a provider network. *)
Lemma sync_keeps_or_exposes env sb s s' port port_ips ip :
  sync env sb s = (inr tt, s') →
  port ∈ get_ports_on_chassis sb (chassis (agent s)) →
  p_type port ∈ OVN_VIF_PORT_TYPES →
  (checked_port_ips port s).1 = inr (Some port_ips) →
  ip ∈ port_ips →
  without_mask ip ∈ k_dev_ips (kernel s)
  ∨ (is_vm_or_virtual port = true
     ∧ is_provider_network sb (p_datapath port) = true
     ∧ without_mask ip = ip) →
  without_mask ip ∈ k_dev_ips (kernel s').
Proof.
  intros Hsync Hport Hty Hchecked Hip Hcase.
  set (x := without_mask ip) in *.
  set (before := x ∈ k_dev_ips (kernel s)) in *.
  unfold sync, reset_bookkeeping, linux_net.ensure_vrf, linux_net.ensure_ovn_device in Hsync.
  rewrite !bind_modify in Hsync.
  apply bind_returns in Hsync as (locals & s1 & Hloop & Hrest).
  match type of Hloop with for_fold ?l _ ?acc ?s3 = _ =>
    destruct (bridge_loop_keeps_surface env sb s3 l acc s3) as [HI _];
      [by repeat split|]
  end.
  rewrite Hloop in HI. destruct HI as ((Hdev & _) & Hchassis & _).
  simpl in Hdev, Hchassis.
  unfold linux_net.remove_extra_ovs_flows in Hrest. rewrite bind_modify in Hrest.
  unfold linux_net.get_exposed_ips, linux_net.get_ovn_ip_rules in Hrest.
  do 4 (rewrite bind_gets in Hrest; cbv beta in Hrest).
  apply bind_returns in Hrest as (snap1 & s6 & Hports & Hrest).
  apply bind_returns in Hrest as (snap2 & s7 & Hcr & Hrest).
  rewrite bind_gets in Hrest. cbv beta in Hrest.
  apply bind_returns in Hrest as (snap3 & s8 & Htenant & Hrest).
  unfold linux_net.delete_exposed_ips, linux_net.delete_ip_rules,
    linux_net.delete_bridge_ip_routes in Hrest.
  rewrite !bind_modify in Hrest. injection Hrest as <-.
  simpl in Hports, Hcr. rewrite Hchassis in Hports, Hcr.
  assert (address_kept x snap1 s6) as H1.
  { refine (for_fold_run_member (snapshot_sound x before) (address_kept x) _ _ port Hport
              _ _ _ _ _ _ _ _ Hports).
    - intros p b s0 b' s0' _. apply round_keeps_sound, ensure_port_exposed_round.
    - intros b s0 b' s0' Hsound.
      apply (ensure_port_exposed_establishes env sb before port port_ips ip); try done.
      by rewrite (checked_port_ips_pure port s s0).
    - intros p b s0 b' s0' _. apply round_keeps_kept, ensure_port_exposed_round.
    - split; simpl; [apply NoDup_elements|]. intros Hbefore. by rewrite Hdev. }
  assert (address_kept x snap2 s7) as H2.
  { refine (for_fold_run_inv (address_kept x) _ _ _ _ _ _ _ H1 Hcr).
    intros cr b s0 b' s0' _. apply round_keeps_kept, ensure_cr_lrp_ports_round. }
  assert (address_kept x snap3 s8) as [Hout Hin].
  { destruct (expose_tenant_networks (agent s7)); [|by injection Htenant as <- <-].
    rewrite bind_gets in Htenant.
    refine (for_fold_run_inv (address_kept x) _ _ _ _ _ _ _ H2 Htenant).
    intros info b s0 b' s0' _ Hb.
    apply (for_fold_run_inv (address_kept x)); [|done].
    intros lrp b1 s2 b1' s2' _ Hb1. destruct (bool_decide (p_chassis lrp ≠ [])).
    - by intros [= <- <-].
    - intros Hrun.
      apply (round_keeps_kept x _ b1 s2 b1' s2'
               (ensure_network_exposed_round env sb x lrp info) Hb1 Hrun). }
  simpl. apply elem_of_difference. split; [done|]. by rewrite elem_of_list_to_set.
Qed.

(** [sync] never deletes an address of a port bound to this chassis: when
    it returns, an IP (without its mask) of a port of [get_ports_on_chassis]
    whose type is one of the VIF types and whose [mac] column is read
    (two or three fields) is still on the dummy device if it was there
    before, whether or not [_expose_ip] has exposed it. *)
Theorem sync_keeps_port_address env sb s port port_ips ip :
  (sync env sb s).1 = inr tt →
  port ∈ get_ports_on_chassis sb (chassis (agent s)) →
  p_type port ∈ OVN_VIF_PORT_TYPES →
  (checked_port_ips port s).1 = inr (Some port_ips) →
  ip ∈ port_ips →
  without_mask ip ∈ k_dev_ips (kernel s) →
  without_mask ip ∈ k_dev_ips (kernel (sync env sb s).2).
Proof.
  intros Hret Hport Hty Hchecked Hip Hbefore.
  destruct (sync env sb s) as [r s'] eqn:Hsync. simpl in Hret. subst r. simpl.
  apply (sync_keeps_or_exposes env sb s s' port port_ips ip); auto.
Qed.

(** [sync] exposes the VMs of the provider networks: when it returns,
    every IP (given without mask) of a VM or virtual port on a provider
    network that is bound to this chassis, and whose [mac] column is read,
    is on the dummy device, whether it was there before or not. *)
Theorem sync_exposes_provider_vm_address env sb s port port_ips ip :
  (sync env sb s).1 = inr tt →
  port ∈ get_ports_on_chassis sb (chassis (agent s)) →
  is_vm_or_virtual port = true →
  is_provider_network sb (p_datapath port) = true →
  (checked_port_ips port s).1 = inr (Some port_ips) →
  ip ∈ port_ips →
  without_mask ip = ip →
  ip ∈ k_dev_ips (kernel (sync env sb s).2).
Proof.
  intros Hret Hport Hvm Hprov Hchecked Hip Hmask.
  destruct (sync env sb s) as [r s'] eqn:Hsync. simpl in Hret. subst r. simpl.
  rewrite <-Hmask.
  apply (sync_keeps_or_exposes env sb s s' port port_ips ip); auto.
  unfold is_vm_or_virtual, OVN_VIF_PORT_TYPES in *.
  apply orb_prop in Hvm as [->%String.eqb_eq| ->%String.eqb_eq]; set_solver.
Qed.

Lemma sync_keeps_port_address_witness :
  "10.0.0.5" ∈ k_dev_ips (kernel (sync demo_env (demo_sb [tenant_vm] false []) restarted).2).
Proof.
  apply (sync_keeps_port_address demo_env (demo_sb [tenant_vm] false []) restarted
           tenant_vm ["10.0.0.5"] "10.0.0.5").
  - by vm_compute.
  - apply list_elem_of_singleton. reflexivity.
  - apply (bool_decide_unpack _). by vm_compute.
  - reflexivity.
  - apply list_elem_of_singleton. reflexivity.
  - apply (bool_decide_unpack _). by vm_compute.
Defined.

Lemma sync_exposes_provider_vm_address_witness :
  "10.0.0.5" ∈ k_dev_ips (kernel (sync demo_env (demo_sb [provider_vm] false []) started).2).
Proof.
  apply (sync_exposes_provider_vm_address demo_env (demo_sb [provider_vm] false []) started
           provider_vm ["10.0.0.5"] "10.0.0.5").
  - by vm_compute.
  - apply list_elem_of_singleton. reflexivity.
  - reflexivity.
  - reflexivity.
  - reflexivity.
  - apply list_elem_of_singleton. reflexivity.
  - reflexivity.
Defined.

(** ** The addresses of a router gateway *)

Lemma cr_exposed_one_keeps env b t vlan lladdr x s ip :
  gateway_address_exposed env b t vlan x s →
  gateway_address_exposed env b t vlan x (cr_exposed_one env b t vlan lladdr s ip).
Proof.
  intros (Hdev & Hrule & Hroute & Hstore & Hndp). unfold cr_exposed_one. cbv zeta.
  assert (gateway_address_exposed env b t vlan x
            (linux_net.add_ip_route env (without_mask ip) t b vlan None None
               (with_kernel (λ k,
                  set_ip_rules (<[linux_net.rule_dst env (without_mask ip) := (t, Some lladdr)]>
                                  (k_ip_rules k)) k) s)).2) as H.
  { unfold gateway_address_exposed, store_routes. simpl. split_and!; [done| | | |done].
    - rewrite dom_insert. by apply elem_of_union_r.
    - by apply elem_of_union_l.
    - rewrite lookup_insert_eq. simpl. by apply elem_of_union_l. }
  destruct (_ =? _)%Z; [|done].
  destruct H as (Hdev' & Hrule' & Hroute' & Hstore' & Hndp').
  unfold gateway_address_exposed, store_routes in *. simpl in *.
  split_and!; try done. intros Hv. by apply elem_of_union_l, Hndp'.
Qed.

Lemma cr_exposed_one_exposes env b t vlan lladdr s ip :
  without_mask ip ∈ k_dev_ips (kernel s) →
  gateway_address_exposed env b t vlan (without_mask ip)
    (cr_exposed_one env b t vlan lladdr s ip).
Proof.
  intros Hdev. unfold cr_exposed_one. cbv zeta.
  destruct (Z.eqb_spec (get_ip_version env (without_mask ip)) IP_VERSION_6) as [Hv|Hv].
  - unfold gateway_address_exposed, store_routes. simpl. split_and!; [done| | | |].
    + rewrite dom_insert. apply elem_of_union_l. by apply elem_of_singleton.
    + apply elem_of_union_r. by apply elem_of_singleton.
    + rewrite lookup_insert_eq. simpl. apply elem_of_union_r. by apply elem_of_singleton.
    + intros _. by apply elem_of_union_r, elem_of_singleton.
  - unfold gateway_address_exposed, store_routes. simpl. split_and!; [done| | | |done].
    + rewrite dom_insert. apply elem_of_union_l. by apply elem_of_singleton.
    + apply elem_of_union_r. by apply elem_of_singleton.
    + rewrite lookup_insert_eq. simpl. apply elem_of_union_r. by apply elem_of_singleton.
Qed.

Lemma cr_exposed_fold_dev env b t vlan lladdr x l s :
  x ∈ k_dev_ips (kernel s) →
  x ∈ k_dev_ips (kernel (foldl (cr_exposed_one env b t vlan lladdr) s l)).
Proof.
  revert s. induction l as [|ip l IH]; intros s Hx; [done|]. simpl. apply IH.
  unfold cr_exposed_one. cbv zeta. by destruct (_ =? _)%Z.
Qed.

Lemma cr_exposed_fold_keeps env b t vlan lladdr x l s :
  gateway_address_exposed env b t vlan x s →
  gateway_address_exposed env b t vlan x (foldl (cr_exposed_one env b t vlan lladdr) s l).
Proof.
  revert s. induction l as [|ip l IH]; intros s Hx; [done|]. simpl.
  by apply IH, cr_exposed_one_keeps.
Qed.

Lemma cr_exposed_fold_exposes env b t vlan lladdr l s ip :
  ip ∈ l →
  (∀ ip', ip' ∈ l → without_mask ip' ∈ k_dev_ips (kernel s)) →
  gateway_address_exposed env b t vlan (without_mask ip)
    (foldl (cr_exposed_one env b t vlan lladdr) s l).
Proof.
  revert s. induction l as [|ip' l IH]; intros s Hip Hdev; [by apply elem_of_nil in Hip|].
  simpl. apply elem_of_cons in Hip as [->|Hip].
  - apply cr_exposed_fold_keeps, cr_exposed_one_exposes, Hdev. left.
  - apply IH; [done|]. intros ip'' Hip''.
    unfold cr_exposed_one. cbv zeta.
    destruct (_ =? _)%Z; simpl; apply Hdev; by right.
Qed.

Lemma cr_exposed_fold_tables env b t vlan lladdr l s :
  ovn_routing_tables (agent (foldl (cr_exposed_one env b t vlan lladdr) s l))
  = ovn_routing_tables (agent s).
Proof.
  revert s. induction l as [|ip l IH]; intros s; [done|]. simpl. rewrite IH.
  unfold cr_exposed_one. cbv zeta. by destruct (_ =? _)%Z.
Qed.

(** The loop of [_expose_ip] over the addresses of a gateway, when
    [add_ip_rule] accepts them all. *)
Lemma cr_expose_loop_run env row b t vlan lladdr ips s :
  ovn_routing_tables (agent s) !! b = Some t →
  mac_field_opt row 0 = Some lladdr →
  Forall (λ ip, parsable_ip env (without_mask ip) = true) ips →
  for_until ips (λ ip,
    let ip_without_mask := without_mask ip in
    failed <- try_except is_InvalidPortIP
                (bt <- routing_table_of (Some b) ;;
                 lladdr <- mac_field row 0 ;;
                 linux_net.add_ip_rule env ip_without_mask bt.2 bt.1 (Some lladdr) ;;
                 ret false)
                (λ _, LOG_exception
                        ("Invalid IP to create a rule for the router gateway port: "
                         +:+ ip_without_mask) ;;
                      ret true) ;;
    if (failed : bool) then ret (Some tt)
    else
      bt <- routing_table_of (Some b) ;;
      linux_net.add_ip_route env ip_without_mask bt.2 bt.1 vlan None None ;;
      (if (get_ip_version env ip_without_mask =? IP_VERSION_6)%Z
       then linux_net.add_ndp_proxy ip bt.1 vlan
       else ret tt) ;;
      ret None) s
  = (inr None, foldl (cr_exposed_one env b t vlan lladdr) s ips).
Proof.
  intros Ht Hll Hok. revert s Ht. induction Hok as [|ip ips Hip Hok IH]; intros s Ht; [done|].
  rewrite (for_until_cons_none _ _ _ _ (cr_exposed_one env b t vlan lladdr s ip)).
  - apply IH. unfold cr_exposed_one. cbv zeta. by destruct (_ =? _)%Z.
  - cbv zeta. unfold try_except, bind at 1.
    unfold bind at 1. rewrite (routing_table_of_run b t s Ht).
    unfold bind at 1. rewrite mac_field_run, Hll. cbn [fst snd].
    unfold linux_net.add_ip_rule. rewrite Hip.
    unfold bind at 1. simpl.
    unfold cr_exposed_one. cbv zeta.
    unfold bind at 1. rewrite (routing_table_of_run b t); [|exact Ht]. simpl.
    by destruct (_ =? _)%Z.
Qed.

Lemma store_insert_keeps (store : gmap string (gset Route)) (b dev : string) (r r' : Route) :
  r ∈ default ∅ (store !! b) →
  r ∈ default ∅ (<[dev := default ∅ (store !! dev) ∪ {[r']}]> store !! b).
Proof.
  intros H. destruct (decide (dev = b)) as [->|Hne].
  - rewrite lookup_insert_eq. simpl. by apply elem_of_union_l.
  - by rewrite lookup_insert_ne.
Qed.

Lemma expose_ip_state env sb ips row ap s :
  (expose_ip env sb ips row ap s).2 = (_expose_ip env sb ips row ap s).2.
Proof. unfold expose_ip, bind. by destruct (_expose_ip env sb ips row ap s) as [[e|r] s']. Qed.

(** What [expose_ip] does for a router gateway whose bridge is resolved
    and whose addresses [add_ip_rule] accepts: every address of the gateway
    is, without its mask, on the dummy device, has a rule and its on-link
    route in the table of the provider bridge, held by the bookkeeping, and,
    if it is IPv6, its NDP proxy on the bridge; this holds whether the
    exposure of the tenant networks that follows returns or raises. *)
Theorem expose_ip_gateway_surface env sb ips row ap s dp b vlan t lladdr ip :
  gateway_datapath sb row = Some dp →
  _get_bridge_for_datapath sb dp s = (inr (Some b, vlan), s) →
  ovn_routing_tables (agent s) !! b = Some t →
  mac_field_opt row 0 = Some lladdr →
  Forall (λ ip, parsable_ip env (without_mask ip) = true) ips →
  ip ∈ ips →
  gateway_address_exposed env b t vlan (without_mask ip) (expose_ip env sb ips row ap s).2.
Proof.
  intros Hgw Hbr Ht Hll Hok Hip. rewrite expose_ip_state.
  unfold gateway_datapath in Hgw.
  destruct (String.eqb (p_type row) OVN_CHASSISREDIRECT_VIF_PORT_TYPE) eqn:Hty; [|done].
  destruct (chassisredirect_not_vm row Hty) as [Hvm Hpatch].
  simpl in Hgw.
  destruct (String.prefix "cr-" (p_logical_port row)) eqn:Hpre; [|done].
  destruct (get_fip_associated sb (p_logical_port row)) as [[fip dp']|] eqn:Hfip; [|done].
  destruct (truthy dp') eqn:Hdp; [|done]. injection Hgw as ->.
  unfold _expose_ip. rewrite Hvm, Hpatch, Hty, Hpre, Hfip, Hdp. simpl.
  rewrite bind_modify.
  set (s1 := with_agent (λ a,
               set_local_cr_lrps
                 (<[p_logical_port row := mkCrLrp (p_datapath row) dp ips]>
                    (ovn_local_cr_lrps a)) a) s).
  unfold linux_net.add_ips_to_dev at 1. rewrite bind_modify.
  set (s2 := with_kernel (λ k,
               set_dev_ips (k_dev_ips k ∪ list_to_set (map without_mask ips)) k) s1).
  assert (_get_bridge_for_datapath sb dp s2 = (inr (Some b, vlan), s2)) as H2
    by (by apply (get_bridge_frame sb _ s)).
  rewrite (bind_run _ _ _ _ _ H2). cbn [fst snd].
  rewrite (bind_run _ _ _ _ _ (cr_expose_loop_run env row b t vlan lladdr ips s2 Ht Hll Hok)).
  set (s3 := foldl (cr_exposed_one env b t vlan lladdr) s2 ips).
  assert (gateway_address_exposed env b t vlan (without_mask ip) s3) as H3.
  { apply cr_exposed_fold_exposes; [done|]. intros ip' Hip'. simpl.
    apply elem_of_union_r, elem_of_list_to_set. by apply list_elem_of_fmap_2. }
  match goal with |- context [(?m s3).2] =>
    assert (inv (gateway_address_exposed env b t vlan (without_mask ip)) (λ _, True) m) as Hinv
  end.
  { inv_auto.
    all: match goal with H : gateway_address_exposed _ _ _ _ _ _ |- _ =>
           destruct H as (Hd & Hr & Hro & Hst & Hn) end.
    all: unfold gateway_address_exposed, store_routes in *; simpl in *.
    all: split_and!; try done.
    all: first [ by apply elem_of_union_l
               | by (rewrite dom_insert; apply elem_of_union_r)
               | by apply store_insert_keeps ]. }
  by apply Hinv.
Qed.

Lemma expose_ip_gateway_surface_witness :
  gateway_address_exposed demo_env "br-ex" 200%Z None "2001:db8::1"
    (expose_ip demo_env (demo_sb [] true []) ["2001:db8::1/64"] cr_lrp_1 None started).2.
Proof.
  apply (expose_ip_gateway_surface demo_env (demo_sb [] true []) ["2001:db8::1/64"] cr_lrp_1
           None started "dp-public" "br-ex" None 200%Z "fa:16:3e:11:22:33" "2001:db8::1/64").
  - reflexivity.
  - reflexivity.
  - reflexivity.
  - reflexivity.
  - repeat constructor.
  - apply list_elem_of_singleton. reflexivity.
Defined.

(** ** The addresses of a withdrawn gateway *)

Lemma split_on_append_sep sep a rest :
  1 < length (split_on sep (a +:+ String sep rest)).
Proof.
  induction a as [|c a IH]; simpl.
  - rewrite Ascii.eqb_refl. simpl.
    destruct (split_on sep rest) eqn:Hs; [by destruct (split_on_nonempty sep rest)|].
    simpl. lia.
  - destruct (Ascii.eqb c sep).
    + simpl. destruct (split_on sep (a +:+ String sep rest)) eqn:Hs; [simpl in IH; lia|].
      simpl. lia.
    + destruct (split_on sep (a +:+ String sep rest)) eqn:Hs; [simpl in IH; lia|].
      simpl in *. lia.
Qed.

(** The rule that [withdraw_ip] deletes for an address of a gateway is the
    rule that [_expose_ip] has written for it. *)
Lemma rule_dst_host env ip :
  linux_net.rule_dst env (host_dst env (without_mask ip) (without_mask ip))
  = linux_net.rule_dst env (without_mask ip).
Proof.
  set (x := without_mask ip).
  assert (linux_net.has_mask x = false) as Hx.
  { unfold linux_net.has_mask, x, without_mask.
    destruct (split_on SLASH ip) as [|w ws] eqn:Hs;
      [by destruct (split_on_nonempty SLASH ip)|].
    by rewrite (split_on_head _ _ _ _ Hs). }
  unfold linux_net.rule_dst at 2. rewrite Hx.
  unfold host_dst, linux_net.host_cidr, linux_net.rule_dst, linux_net.has_mask.
  destruct (_ =? _)%Z.
  - rewrite bool_decide_eq_true_2; [done|]. apply (split_on_append_sep SLASH x "128").
  - rewrite bool_decide_eq_true_2; [done|]. apply (split_on_append_sep SLASH x "32").
Qed.

Lemma store_alter_keeps_out (store : gmap string (gset Route)) (b dev : string) (r r' : Route) :
  r ∉ default ∅ (store !! b) →
  r ∉ default ∅ (alter (λ rs, rs ∖ {[r']}) dev store !! b).
Proof.
  intros H. destruct (decide (dev = b)) as [->|Hne].
  - rewrite lookup_alter_eq. destruct (store !! b); simpl in *; [|done].
    intros [? _]%elem_of_difference. done.
  - by rewrite lookup_alter_ne.
Qed.

Lemma store_alter_drops (store : gmap string (gset Route)) (b : string) (r : Route) :
  r ∉ default ∅ (alter (λ rs, rs ∖ {[r]}) b store !! b).
Proof.
  rewrite lookup_alter_eq. destruct (store !! b); simpl; [|done].
  intros [_ Hr]%elem_of_difference. apply Hr. by apply elem_of_singleton.
Qed.

Lemma cr_withdrawn_one_keeps env b t vlan lladdr dp x s ip :
  gateway_address_withdrawn env b t vlan x s →
  gateway_address_withdrawn env b t vlan x (cr_withdrawn_one env b t vlan lladdr dp s ip).
Proof.
  intros (Hdev & Hrule & Hroute & Hstore).
  unfold cr_withdrawn_one. cbv zeta.
  destruct (_ && _); unfold gateway_address_withdrawn, store_routes in *; simpl.
  all: split_and!; [done | | | ].
  all: try (rewrite dom_delete; by intros [? _]%elem_of_difference).
  all: try (by intros [? _]%elem_of_difference).
  all: by apply store_alter_keeps_out.
Qed.

Lemma cr_withdrawn_one_withdraws env b t vlan lladdr dp s ip :
  without_mask ip ∉ k_dev_ips (kernel s) →
  gateway_address_withdrawn env b t vlan (without_mask ip)
    (cr_withdrawn_one env b t vlan lladdr dp s (without_mask ip)).
Proof.
  intros Hdev. unfold cr_withdrawn_one. cbv zeta.
  destruct (_ && _); unfold gateway_address_withdrawn, store_routes; simpl.
  all: split_and!; [done | | | ].
  all: try (rewrite rule_dst_host, dom_delete; intros [_ Hr]%elem_of_difference;
            apply Hr; by apply elem_of_singleton).
  all: try (intros [_ Hr]%elem_of_difference; apply Hr; by apply elem_of_singleton).
  all: apply store_alter_drops.
Qed.

Lemma cr_withdrawn_fold_keeps env b t vlan lladdr dp x l s :
  gateway_address_withdrawn env b t vlan x s →
  gateway_address_withdrawn env b t vlan x
    (foldl (cr_withdrawn_one env b t vlan lladdr dp) s l).
Proof.
  revert s. induction l as [|ip l IH]; intros s Hx; [done|]. simpl.
  by apply IH, cr_withdrawn_one_keeps.
Qed.

Lemma cr_withdrawn_fold_dev env b t vlan lladdr dp l s :
  k_dev_ips (kernel (foldl (cr_withdrawn_one env b t vlan lladdr dp) s l))
  = k_dev_ips (kernel s).
Proof.
  revert s. induction l as [|ip l IH]; intros s; [done|]. simpl. rewrite IH.
  unfold cr_withdrawn_one. cbv zeta. by destruct (_ && _).
Qed.

Lemma cr_withdrawn_fold_withdraws env b t vlan lladdr dp l s ip :
  ip ∈ l →
  (∀ ip', ip' ∈ l → without_mask ip' ∉ k_dev_ips (kernel s)) →
  gateway_address_withdrawn env b t vlan (without_mask ip)
    (foldl (cr_withdrawn_one env b t vlan lladdr dp) s (map without_mask l)).
Proof.
  revert s. induction l as [|ip' l IH]; intros s Hip Hdev; [by apply elem_of_nil in Hip|].
  simpl. apply elem_of_cons in Hip as [->|Hip].
  - apply cr_withdrawn_fold_keeps, cr_withdrawn_one_withdraws, Hdev. left.
  - apply IH; [done|]. intros ip'' Hip''.
    pose proof (cr_withdrawn_fold_dev env b t vlan lladdr dp [without_mask ip'] s) as Hsame.
    simpl in Hsame. rewrite Hsame. apply Hdev. by right.
Qed.

(** What [withdraw_ip] does for a tracked router gateway whose bridge is
    resolved: every address of the gateway is, without its mask, off the
    dummy device, and the rule and the on-link route that [_expose_ip]
    wrote for it are gone, from the kernel and from the bookkeeping; this
    holds whether the withdrawal of the tenant networks that follows
    returns or raises. *)
Theorem withdraw_ip_gateway_surface env sb ips row ap s dp b vlan t lladdr ip :
  tracked_datapath s row = Some dp →
  _get_bridge_for_datapath sb dp s = (inr (Some b, vlan), s) →
  ovn_routing_tables (agent s) !! b = Some t →
  mac_field_opt row 0 = Some lladdr →
  ip ∈ ips →
  gateway_address_withdrawn env b t vlan (without_mask ip)
    (withdraw_ip env sb ips row ap s).2.
Proof.
  intros Hgw Hbr Ht Hll Hip.
  unfold tracked_datapath in Hgw.
  destruct (String.eqb (p_type row) OVN_CHASSISREDIRECT_VIF_PORT_TYPE) eqn:Hty; [|done].
  destruct (chassisredirect_not_vm row Hty) as [Hvm Hpatch].
  simpl in Hgw.
  destruct (String.prefix "cr-" (p_logical_port row)) eqn:Hpre; [|done].
  destruct (ovn_local_cr_lrps (agent s) !! p_logical_port row) as [info|] eqn:Hinfo; [|done].
  destruct (truthy (provider_datapath info)) eqn:Hdp; [|done]. injection Hgw as <-.
  unfold withdraw_ip. rewrite Hvm, Hpatch, Hty, Hpre. simpl.
  rewrite bind_gets, Hinfo. simpl. rewrite Hdp.
  set (dp := provider_datapath info) in *.
  set (s1 := (linux_net.del_ips_from_dev (map without_mask ips) s).2).
  assert (linux_net.del_ips_from_dev (map without_mask ips) s = (inr tt, s1)) as H1 by done.
  assert (_get_bridge_for_datapath sb dp s1 = (inr (Some b, vlan), s1)) as H2
    by (by apply (get_bridge_frame sb _ s)).
  rewrite (bind_run _ _ _ _ _ H1), (bind_run _ _ _ _ _ H2).
  erewrite (bind_run _ _ _ _ _
              (for_each_run _ _ (cr_withdrawn_one env b t vlan lladdr dp)
                 (λ s', ovn_routing_tables (agent s') !! b = Some t) s1 _ _)).
  Unshelve.
  2: exact Ht.
  2: { intros s' x Hs' _. cbn [fst snd]. split.
       - unfold bind at 1. rewrite (routing_table_of_run b t s' Hs').
         unfold bind at 1. rewrite mac_field_run, Hll.
         unfold bind at 1. simpl.
         unfold bind at 1. rewrite (routing_table_of_run b t); [|exact Hs'].
         unfold bind at 1. simpl.
         unfold cr_withdrawn_one, host_dst. simpl.
         destruct (get_ip_version env x =? IP_VERSION_6)%Z; simpl; [|done].
         rewrite bind_gets. simpl. by case_bool_decide.
       - unfold cr_withdrawn_one. simpl. by destruct (_ && _). }
  set (s2 := foldl _ s1 _).
  assert (gateway_address_withdrawn env b t vlan (without_mask ip) s2) as Hs2.
  { apply cr_withdrawn_fold_withdraws; [done|]. intros ip' Hip'. simpl.
    intros [_ Hout]%elem_of_difference. apply Hout.
    apply elem_of_list_to_set. by apply list_elem_of_fmap_2. }
  match goal with |- context [(?m s2).2] =>
    assert (inv (gateway_address_withdrawn env b t vlan (without_mask ip)) (λ _, True) m)
      as Hinv
  end.
  { inv_auto.
    all: match goal with H : gateway_address_withdrawn _ _ _ _ _ _ |- _ =>
           destruct H as (Hd & Hr & Hro & Hst) end.
    all: unfold gateway_address_withdrawn, store_routes in *; simpl in *.
    all: split_and!; try done.
    all: first [ by intros [? _]%elem_of_difference
               | by (rewrite dom_delete; intros [? _]%elem_of_difference)
               | by apply store_alter_keeps_out ]. }
  by apply Hinv.
Qed.

Lemma withdraw_ip_gateway_surface_witness :
  gateway_address_withdrawn demo_env "br-ex" 200%Z None "2001:db8::1"
    (withdraw_ip demo_env (demo_sb [] true []) ["2001:db8::1/64"] cr_lrp_1 None
       gateway_exposed).2.
Proof.
  apply (withdraw_ip_gateway_surface demo_env (demo_sb [] true []) ["2001:db8::1/64"] cr_lrp_1
           None gateway_exposed "dp-public" "br-ex" None 200%Z "fa:16:3e:11:22:33"
           "2001:db8::1/64").
  - reflexivity.
  - reflexivity.
  - reflexivity.
  - reflexivity.
  - apply list_elem_of_singleton. reflexivity.
Defined.

(** ** The gateways that [sync] tracks *)

(** An entry that [_expose_ip] writes for the logical port [lp] has the
    provider datapath that the southbound view gives for [lp]. *)
Ltac tracked_leaf lp dp Hgw :=
  try done;
  try (match goal with H : gateway_tracked _ _ _ |- _ =>
         let info := fresh "info" in
         let Hinfo := fresh "Hinfo" in
         let Hprov := fresh "Hprov" in
         let Heq := fresh "Heq" in
         let Hne := fresh "Hne" in
         destruct H as (info & Hinfo & Hprov);
         unfold gateway_tracked; simpl in *; try (by exists info);
         match goal with
         | Hfip : get_fip_associated _ (p_logical_port ?row) = Some (_, ?dp'),
           Hpre : _ && String.prefix _ _ = true,
           Hdp : truthy ?dp' = true |- _ =>
             destruct (decide (p_logical_port row = lp)) as [Heq|Hne];
               [ rewrite Heq, lookup_insert_eq; eexists; split; [done|]; simpl;
                 rewrite Heq in Hfip; rewrite Heq in Hpre;
                 specialize (Hgw _ _ Hfip); done
               | rewrite lookup_insert_ne by done; by exists info ]
         end
       end).

Lemma tracked_stable_port env sb lp dp port snap :
  (∀ fip dp', get_fip_associated sb lp = Some (fip, dp') → dp' = dp) →
  inv (gateway_tracked lp dp) (λ _, True) (_ensure_port_exposed env sb port snap).
Proof. intros Hgw. inv_auto; tracked_leaf lp dp Hgw. Qed.

Lemma tracked_stable_cr_lrp env sb lp dp cr_lrp snap :
  (∀ fip dp', get_fip_associated sb lp = Some (fip, dp') → dp' = dp) →
  inv (gateway_tracked lp dp) (λ _, True)
    (_ensure_cr_lrp_associated_ports_exposed env sb cr_lrp snap).
Proof. intros Hgw. inv_auto; tracked_leaf lp dp Hgw. Qed.

Lemma tracked_stable_network env sb lp dp lrp info snap :
  inv (gateway_tracked lp dp) (λ _, True) (_ensure_network_exposed env sb lrp info snap).
Proof. inv_auto. all: by (simpl in *). Qed.

Lemma inv_run {A} (I : State → Prop) (m : M A) s r s' :
  inv I (λ _, True) m → I s → m s = (r, s') → I s'.
Proof. intros Hm Hs Hrun. destruct (Hm s Hs) as [HI _]. by rewrite Hrun in HI. Qed.

(** The round of a gateway tracks it. *)
Lemma ensure_port_exposed_tracks env sb port port_ips dp snap s snap' s' :
  p_type port ∈ OVN_VIF_PORT_TYPES →
  (checked_port_ips port s).1 = inr (Some port_ips) →
  gateway_datapath sb port = Some dp →
  _ensure_port_exposed env sb port snap s = (inr snap', s') →
  gateway_tracked (p_logical_port port) dp s'.
Proof.
  intros Hty Hchecked Hgw Hrun.
  unfold _ensure_port_exposed in Hrun.
  rewrite bool_decide_eq_false_2 in Hrun by (intros H; by apply H).
  assert (checked_port_ips port s = (inr (Some port_ips), s)) as Hc
    by (by rewrite (checked_port_ips_pure port s s), Hchecked).
  rewrite (bind_run _ _ _ _ _ Hc) in Hrun.
  apply bind_returns in Hrun as (fip & s1 & Hexp & Hfold).
  assert (s' = s1) as ->.
  { assert (inv (λ s0, s0 = s1) (λ _, True)
              (for_fold port_ips
                 (λ port_ip snap0,
                    ret (mark_kept (without_mask port_ip)
                           (host_dst env port_ip (without_mask port_ip)) snap0))
                 match fip with
                 | Some fip0 =>
                     if truthy fip0 then mark_kept fip0 (fip0 +:+ "/32") snap else snap
                 | None => snap
                 end)) as Hpure by (by repeat inv_step).
    by apply (inv_run _ _ _ _ _ Hpure eq_refl Hfold). }
  unfold gateway_datapath in Hgw.
  destruct (String.eqb (p_type port) OVN_CHASSISREDIRECT_VIF_PORT_TYPE) eqn:Hcr; [|done].
  destruct (chassisredirect_not_vm port Hcr) as [Hvm Hpatch].
  simpl in Hgw.
  destruct (String.prefix "cr-" (p_logical_port port)) eqn:Hpre; [|done].
  destruct (get_fip_associated sb (p_logical_port port)) as [[fip' dp']|] eqn:Hfip; [|done].
  destruct (truthy dp') eqn:Hdp; [|done]. injection Hgw as ->.
  unfold _expose_ip in Hexp. rewrite Hvm, Hpatch, Hcr, Hpre, Hfip, Hdp in Hexp.
  simpl in Hexp. rewrite bind_modify in Hexp. cbv beta in Hexp.
  match type of Hexp with ?m ?s0 = _ =>
    apply (inv_run (gateway_tracked (p_logical_port port) dp) m s0 (inr fip) s1);
      [| |exact Hexp]
  end.
  - inv_auto. all: by (simpl in *).
  - eexists. simpl. by rewrite lookup_insert_eq.
Qed.

(** [sync] tracks the router gateways again: when it returns, every
    [chassisredirect] port named [cr-...] that is bound to this chassis,
    whose row is read and whose provider datapath the southbound view
    knows, has an entry in [ovn_local_cr_lrps], with that provider
    datapath. *)
Theorem sync_tracks_gateways env sb s port port_ips dp :
  (sync env sb s).1 = inr tt →
  port ∈ get_ports_on_chassis sb (chassis (agent s)) →
  (checked_port_ips port s).1 = inr (Some port_ips) →
  gateway_datapath sb port = Some dp →
  gateway_tracked (p_logical_port port) dp (sync env sb s).2.
Proof.
  intros Hret Hport Hchecked Hgw.
  assert (p_type port ∈ OVN_VIF_PORT_TYPES) as Hty.
  { unfold gateway_datapath in Hgw.
    destruct (String.eqb (p_type port) OVN_CHASSISREDIRECT_VIF_PORT_TYPE) eqn:Hcr; [|done].
    apply String.eqb_eq in Hcr. rewrite Hcr. unfold OVN_VIF_PORT_TYPES. set_solver. }
  assert (∀ fip dp', get_fip_associated sb (p_logical_port port) = Some (fip, dp') → dp' = dp)
    as Hsame.
  { intros fip dp' Hfip. unfold gateway_datapath in Hgw. rewrite Hfip in Hgw.
    destruct (_ && _); [|done]. destruct (truthy dp'); [|done]. by injection Hgw. }
  destruct (sync env sb s) as [r s'] eqn:Hsync. simpl in Hret. subst r. simpl.
  unfold sync, reset_bookkeeping, linux_net.ensure_vrf, linux_net.ensure_ovn_device in Hsync.
  rewrite !bind_modify in Hsync.
  apply bind_returns in Hsync as (locals & s1 & Hloop & Hrest).
  match type of Hloop with for_fold ?l _ ?acc ?s3 = _ =>
    destruct (bridge_loop_keeps_surface env sb s3 l acc s3) as [HI _];
      [by repeat split|]
  end.
  rewrite Hloop in HI. destruct HI as (_ & Hchassis & _). simpl in Hchassis.
  unfold linux_net.remove_extra_ovs_flows in Hrest. rewrite bind_modify in Hrest.
  unfold linux_net.get_exposed_ips, linux_net.get_ovn_ip_rules in Hrest.
  do 4 (rewrite bind_gets in Hrest; cbv beta in Hrest).
  apply bind_returns in Hrest as (snap1 & s6 & Hports & Hrest).
  simpl in Hports. rewrite Hchassis in Hports.
  assert (gateway_tracked (p_logical_port port) dp s6) as H6.
  { refine (for_fold_run_member (λ _ _, True) (λ _, gateway_tracked (p_logical_port port) dp)
              _ _ port Hport _ _ _ _ _ _ _ I Hports).
    - done.
    - intros b s0 b' s0' _.
      apply (ensure_port_exposed_tracks env sb port port_ips dp); try done.
      by rewrite (checked_port_ips_pure port s s0).
    - intros p b s0 b' s0' _ Hb Hrun.
      by apply (inv_run _ _ _ _ _ (tracked_stable_port env sb _ dp p b Hsame) Hb Hrun). }
  match type of Hrest with ?m s6 = _ =>
    apply (inv_run (gateway_tracked (p_logical_port port) dp) m s6 (inr tt) s');
      [|done|exact Hrest]
  end.
  inv_auto; tracked_leaf (p_logical_port port) dp Hsame.
Qed.

Lemma sync_tracks_gateways_witness :
  gateway_tracked "cr-lrp-1" "dp-public"
    (sync demo_env (demo_sb [cr_lrp_1] true []) started).2.
Proof.
  apply (sync_tracks_gateways demo_env (demo_sb [cr_lrp_1] true []) started cr_lrp_1
           ["2001:db8::1/64"] "dp-public").
  - by vm_compute.
  - apply list_elem_of_singleton. reflexivity.
  - reflexivity.
  - reflexivity.
Defined.

(** ** A VM without floating IP *)

(** For a VM or virtual port that is not on a provider network and has no
    floating IP (the southbound view gives none, or an empty one),
    [expose_ip] puts nothing on the kernel surface: all it does is to ensure
    the default flows of the mapped bridges (line 443); and [withdraw_ip]
    does nothing at all. *)
Theorem vm_without_fip_only_flows env sb ips row ap s :
  is_vm_or_virtual row = true →
  is_provider_network sb (p_datapath row) = false →
  (get_fip_associated sb (p_logical_port row) = None
   ∨ ∃ datapath, get_fip_associated sb (p_logical_port row) = Some ("", datapath)) →
  expose_ip env sb ips row ap s
  = (inr tt,
     with_kernel (λ k,
       set_ovs_flows
         (ovs_ensure_default_flows env (map_to_list (ovn_bridge_mappings (agent s))).*2
            (k_ovs_flows k)) k) s)
  ∧ withdraw_ip env sb ips row ap s = (inr tt, s).
Proof.
  intros Hvm Hprov Hfip. unfold expose_ip, _expose_ip, withdraw_ip.
  rewrite Hvm, Hprov. simpl.
  destruct Hfip as [->|[datapath ->]]; by simpl.
Qed.

Lemma vm_without_fip_only_flows_witness :
  withdraw_ip demo_env (demo_sb [tenant_vm] false []) ["10.0.0.5"] tenant_vm None restarted
  = (inr tt, restarted).
Proof.
  apply (vm_without_fip_only_flows demo_env (demo_sb [tenant_vm] false []) ["10.0.0.5"]
           tenant_vm None restarted).
  - reflexivity.
  - reflexivity.
  - by left.
Defined.
